(** * MetricMaster: layers, shapes, capture, KML import and conversion

    A shallow embedding of the state-changing code of [src/App.tsx]
    (the project state and its handlers, the KML importer, the shape
    converter) and of the capture logic of the map canvas component
    ([DrawingManager] and [handleShapeComplete]), followed by the rest
    of the application: the totals per layer, the layer panel, the
    drawing order and the selection tool bar of the map, the map link
    and the report sent for analysis.

    Conventions of the embedding.
    - A JavaScript number is an IEEE 754 binary64 value: [float].
    - A JavaScript string is a sequence of code units; the model keeps
      the code units below 256 ([string], one [ascii] per code unit).
    - [string | null] is [option string].
    - React state is one record, [App]; a handler is a function from the
      state (and the values the environment supplies: the answer to a
      [window.confirm] or [window.prompt] dialog, the identifier that
      [generateId()] returns) to the next state and the list of effects
      ([alert], [console.warn], ...) it performed.
    - The turf library is not part of the repository: its two entry
      points used by the code are variables of the section [Engine]. *)

From Stdlib Require Import ZArith List String Ascii Bool Lia.
From Stdlib Require Import PrimFloat SpecFloat FloatOps FloatAxioms.
From Stdlib Require Import DecimalString.
From Stdlib Require Import Permutation.
Import ListNotations.

Open Scope string_scope.
Open Scope list_scope.
Open Scope nat_scope.

Set Warnings "-register-all,-inexact-float".

(* ================================================================== *)
(** * JavaScript built-ins used by the code *)
(* ================================================================== *)

Module JS.

(** ** Numbers *)

(** [isNaN(x)] on a number. *)
Definition isNaN (x : float) : bool := PrimFloat.is_nan x.

(** [Number.isFinite(x)]: neither NaN nor an infinity. *)
Definition isFinite (x : float) : bool := PrimFloat.is_finite x.

(** [Math.max] and [Math.min] on two numbers (NaN is contagious; the
    sign of zero is looked at only when the operands compare equal). *)
Definition Math_max (a b : float) : float :=
  if isNaN a || isNaN b then nan
  else if PrimFloat.ltb a b then b
  else if PrimFloat.ltb b a then a
  else if PrimFloat.get_sign a then b else a.

Definition Math_min (a b : float) : float :=
  if isNaN a || isNaN b then nan
  else if PrimFloat.ltb a b then a
  else if PrimFloat.ltb b a then b
  else if PrimFloat.get_sign a then a else b.

(** ** Characters *)

Definition code (c : ascii) : nat := nat_of_ascii c.

(** White space and line terminators, as matched by [\s] and removed by
    [trim]: TAB, LF, VT, FF, CR, SPACE and NO-BREAK SPACE are the ones
    below 256. *)
Definition isWhiteSpace (c : ascii) : bool :=
  let n := code c in
  ((9 <=? n) && (n <=? 13)) || (n =? 32) || (n =? 160).

Definition isDigit (c : ascii) : bool :=
  let n := code c in (48 <=? n) && (n <=? 57).

(** [0-9a-fA-F] *)
Definition isHexDigit (c : ascii) : bool :=
  let n := code c in
  ((48 <=? n) && (n <=? 57)) || ((97 <=? n) && (n <=? 102))
  || ((65 <=? n) && (n <=? 70)).

(** One code unit of [toLowerCase]: A-Z, and the capital letters of the
    Latin-1 block (U+00C0 to U+00DE, the multiplication sign excepted).
    Below 256 the lower case of a code unit is one code unit; the one
    letter of the language whose lower case is two code units, U+0130,
    is outside the strings of the model, and no statement below is
    written with the length of the string before lower-casing. *)
Definition lowerChar (c : ascii) : ascii :=
  let n := code c in
  if ((65 <=? n) && (n <=? 90))
     || ((192 <=? n) && (n <=? 222) && negb (n =? 215))
  then ascii_of_nat (n + 32) else c.

(** ** Strings *)

Fixpoint toLowerCase (s : string) : string :=
  match s with
  | EmptyString => EmptyString
  | String c r => String (lowerChar c) (toLowerCase r)
  end.

Fixpoint trimStart (s : string) : string :=
  match s with
  | EmptyString => EmptyString
  | String c r => if isWhiteSpace c then trimStart r else s
  end.

(** [trimEnd]: a character is kept when it is not white space or when
    something is kept after it. *)
Fixpoint trimEnd (s : string) : string :=
  match s with
  | EmptyString => EmptyString
  | String c r =>
      match trimEnd r with
      | EmptyString => if isWhiteSpace c then EmptyString else String c EmptyString
      | r' => String c r'
      end
  end.

Definition trim (s : string) : string := trimEnd (trimStart s).

(** [s.substring(a, b)]: both indices are clamped to the length and
    swapped when out of order. *)
Definition substring (a b : nat) (s : string) : string :=
  let a' := Nat.min a (String.length s) in
  let b' := Nat.min b (String.length s) in
  String.substring (Nat.min a' b') (Nat.max a' b' - Nat.min a' b') s.

(** [s.split(',')] and the like: split on one separator character.  The
    result is never empty; the empty string gives one empty piece. *)
Fixpoint split (sep : ascii) (s : string) : list string :=
  match s with
  | EmptyString => [EmptyString]
  | String c r =>
      if Ascii.eqb c sep then EmptyString :: split sep r
      else match split sep r with
           | h :: t => String c h :: t
           | [] => [String c EmptyString]
           end
  end.

(** [s.split(/\s+/)]: the pieces between the maximal runs of white
    space.  [inWs] tells that the previous character was white space,
    [cur] is the piece being read.  A string that starts (ends) with
    white space gives an empty first (last) piece, and the empty string
    gives one empty piece. *)
Fixpoint split_ws_from (inWs : bool) (cur : string) (s : string) : list string :=
  match s with
  | EmptyString => [cur]
  | String c r =>
      if isWhiteSpace c then
        if inWs then split_ws_from true cur r
        else cur :: split_ws_from true EmptyString r
      else split_ws_from false (String.append cur (String c EmptyString)) r
  end.

Definition split_ws (s : string) : list string :=
  split_ws_from false EmptyString s.

(** [String(n)] for a natural number, as a template literal prints it. *)
Definition string_of_nat (n : nat) : string :=
  NilZero.string_of_uint (Nat.to_uint n).

(** ** parseFloat *)

(** The longest run of decimal digits at the head of a string, as the
    number it denotes and the count of digits, with the rest. *)
Fixpoint takeDigits (acc : Z) (cnt : nat) (s : string) : Z * nat * string :=
  match s with
  | String c r =>
      if isDigit c
      then takeDigits (10 * acc + Z.of_nat (code c - 48)) (S cnt) r
      else (acc, cnt, s)
  | EmptyString => (acc, cnt, s)
  end.

(** The number nearest to [m * 10^e10] (ties to even), for [m > 0].
    For a negative exponent the quotient is taken with enough extra
    bits, and one more bit records that the division was inexact. *)
Definition roundDecimal (m e10 : Z) : float :=
  if (0 <=? e10)%Z
  then SF2Prim (binary_normalize prec emax (m * 10 ^ e10) 0 false)
  else
    let d := (10 ^ (- e10))%Z in
    let s := (Z.log2 d + 66)%Z in
    let q := (m * 2 ^ s / d)%Z in
    let sticky := if (m * 2 ^ s mod d =? 0)%Z then 0%Z else 1%Z in
    SF2Prim (binary_normalize prec emax (2 * q + sticky) (- (s + 1)) false).

Definition decimalValue (neg : bool) (m e10 : Z) : float :=
  let v := if (m =? 0)%Z then zero else roundDecimal m e10 in
  if neg then PrimFloat.opp v else v.

(** The optional exponent part [e] or [E], sign, digits: its value and
    nothing else is needed, since parseFloat ignores what follows the
    literal.  Without digits there is no exponent part. *)
Definition exponentPart (s : string) : Z :=
  match s with
  | String c r =>
      if (code c =? 101) || (code c =? 69) then
        let '(neg, r') :=
          match r with
          | String c' r'' =>
              if code c' =? 45 then (true, r'')
              else if code c' =? 43 then (false, r'')
              else (false, r)
          | EmptyString => (false, r)
          end in
        let '(e, cnt, _) := takeDigits 0 0 r' in
        if cnt =? 0 then 0%Z else if neg then (- e)%Z else e
      else 0%Z
  | EmptyString => 0%Z
  end.

Definition startsWith (p s : string) : bool := String.prefix p s.

(** [parseFloat(s)]: leading white space is skipped, the longest prefix
    that is a decimal literal (sign, [Infinity], digits with an optional
    fraction and exponent) is read, what follows is ignored; NaN when
    there is no such prefix. *)
Definition parseFloat (s : string) : float :=
  let t := trimStart s in
  let '(neg, u) :=
    match t with
    | String c r =>
        if code c =? 45 then (true, r)
        else if code c =? 43 then (false, r)
        else (false, t)
    | EmptyString => (false, t)
    end in
  if startsWith "Infinity" u then (if neg then neg_infinity else infinity)
  else
    let '(ip, icnt, r1) := takeDigits 0 0 u in
    match r1 with
    | String c r2 =>
        if code c =? 46 then
          let '(m, fcnt, r3) := takeDigits ip 0 r2 in
          if (icnt =? 0) && (fcnt =? 0) then nan
          else decimalValue neg m (exponentPart r3 - Z.of_nat fcnt)
        else if icnt =? 0 then nan
        else decimalValue neg ip (exponentPart r1)
    | EmptyString =>
        if icnt =? 0 then nan else decimalValue neg ip 0
    end.

End JS.

(* ================================================================== *)
(** * Data model ([src/types.ts]) *)
(* ================================================================== *)

Inductive ToolMode := SELECT | DRAW_POLYGON | DRAW_LINE.

Record GeoPoint := { lat : float; lng : float }.

Module Shape.
Inductive kind := polygon | polyline.
Record t := {
  id : string;
  name : string;
  type : kind;
  points : list GeoPoint;
  layerId : string;
  measuredValue : float
}.
End Shape.

Module Layer.
Inductive kind := surface | length | mixed.
Inductive cat := measurement | kml.
Record t := {
  id : string;
  name : string;
  color : string;
  type : kind;
  category : cat;
  isVisible : bool;
  opacity : float
}.

Definition is_surface (k : kind) : bool :=
  match k with surface => true | _ => false end.
Definition is_length (k : kind) : bool :=
  match k with length => true | _ => false end.
Definition is_measurement (c : cat) : bool :=
  match c with measurement => true | kml => false end.
End Layer.

(** The state that [App] keeps with [useState]: the project (layers,
    shapes, active layer, selection), the tool mode and the map centre.
    The base layer, the URL field and the analysis dialog are display
    state that none of the handlers below reads or writes. *)
Record App := {
  layers : list Layer.t;
  shapes : list Shape.t;
  activeLayerId : option string;
  selectedShapeId : option string;
  toolMode : ToolMode;
  mapCenter : option GeoPoint
}.

(** The React setters. *)
Definition setLayers (f : list Layer.t -> list Layer.t) (st : App) : App :=
  {| layers := f (layers st); shapes := shapes st;
     activeLayerId := activeLayerId st; selectedShapeId := selectedShapeId st;
     toolMode := toolMode st; mapCenter := mapCenter st |}.

Definition setShapes (f : list Shape.t -> list Shape.t) (st : App) : App :=
  {| layers := layers st; shapes := f (shapes st);
     activeLayerId := activeLayerId st; selectedShapeId := selectedShapeId st;
     toolMode := toolMode st; mapCenter := mapCenter st |}.

Definition setActiveLayerId (v : option string) (st : App) : App :=
  {| layers := layers st; shapes := shapes st;
     activeLayerId := v; selectedShapeId := selectedShapeId st;
     toolMode := toolMode st; mapCenter := mapCenter st |}.

Definition setSelectedShapeId (v : option string) (st : App) : App :=
  {| layers := layers st; shapes := shapes st;
     activeLayerId := activeLayerId st; selectedShapeId := v;
     toolMode := toolMode st; mapCenter := mapCenter st |}.

Definition setToolMode (m : ToolMode) (st : App) : App :=
  {| layers := layers st; shapes := shapes st;
     activeLayerId := activeLayerId st; selectedShapeId := selectedShapeId st;
     toolMode := m; mapCenter := mapCenter st |}.

Definition setMapCenter (c : option GeoPoint) (st : App) : App :=
  {| layers := layers st; shapes := shapes st;
     activeLayerId := activeLayerId st; selectedShapeId := selectedShapeId st;
     toolMode := toolMode st; mapCenter := c |}.

(** The state [App] starts with. *)
Definition initialApp : App :=
  {| layers := [ {| Layer.id := "1"; Layer.name := "Murs";
                    Layer.color := "#ef4444"; Layer.type := Layer.surface;
                    Layer.category := Layer.measurement;
                    Layer.isVisible := true; Layer.opacity := 0.5%float |} ];
     shapes := [];
     activeLayerId := Some "1";
     selectedShapeId := None;
     toolMode := SELECT;
     mapCenter := None |}.

(** What a handler does besides writing the state. *)
Inductive AlertMsg :=
| InvalidTargetLayer      (* "Selectionnez d'abord un calque de metre ..." *)
| NoCompatibleShape       (* "Aucune forme compatible (Polygone/Ligne) trouvee." *)
| KmlError                (* "Erreur KML." *)
| ActiveLayerNotFound.    (* "Erreur: Calque actif introuvable." *)

Inductive Effect :=
| alert (m : AlertMsg)
| console_warn
| console_error.

(** [x === y] for [x : string | null] and [y : string]. *)
Definition eq_id (x : option string) (y : string) : bool :=
  match x with Some a => String.eqb a y | None => false end.

(** [layers.find(l => l.id === id)] for [id : string | null]. *)
Definition findLayer (id : option string) (ls : list Layer.t) : option Layer.t :=
  find (fun l => eq_id id (Layer.id l)) ls.

(** [shapes.find(s => s.id === id)]. *)
Definition findShape (id : string) (ss : list Shape.t) : option Shape.t :=
  find (fun s => String.eqb (Shape.id s) id) ss.

(** [a || b] on strings: the empty string is falsy. *)
Definition or_else (a : option string) (b : string) : string :=
  match a with
  | Some s => if String.eqb s "" then b else s
  | None => b
  end.

(** [if (a)] for [a : string | null | undefined]. *)
Definition truthy (a : option string) : bool :=
  match a with
  | Some s => negb (String.eqb s "")
  | None => false
  end.

(* ================================================================== *)
(** * Layer and shape handlers ([src/App.tsx]) *)
(* ================================================================== *)

Definition handleAddLayer (name : string) (type : Layer.kind) (color : string)
    (newId : string) (st : App) : App :=
  let newLayer :=
    {| Layer.id := newId; Layer.name := name; Layer.type := type;
       Layer.category := Layer.measurement; Layer.color := color;
       Layer.isVisible := true;
       Layer.opacity := if Layer.is_surface type then 0.5%float else 1%float |} in
  let st := setLayers (fun prev => prev ++ [newLayer]) st in
  let st := setActiveLayerId (Some (Layer.id newLayer)) st in
  let st := setToolMode (if Layer.is_surface type then DRAW_POLYGON else DRAW_LINE) st in
  setSelectedShapeId None st.

(** [confirm] is the answer to the [window.confirm] dialog. *)
Definition handleDeleteLayer (id : string) (confirm : bool) (st : App) : App :=
  if confirm then
    let st1 := setLayers (filter (fun l => negb (String.eqb (Layer.id l) id))) st in
    let st2 := setShapes (filter (fun s => negb (String.eqb (Shape.layerId s) id))) st1 in
    if eq_id (activeLayerId st) id then setActiveLayerId None st2 else st2
  else st.

Definition handleToggleVisibility (id : string) (st : App) : App :=
  setLayers (map (fun l =>
    if String.eqb (Layer.id l) id
    then {| Layer.id := Layer.id l; Layer.name := Layer.name l;
            Layer.color := Layer.color l; Layer.type := Layer.type l;
            Layer.category := Layer.category l;
            Layer.isVisible := negb (Layer.isVisible l);
            Layer.opacity := Layer.opacity l |}
    else l)) st.

Definition handleUpdateOpacity (id : string) (opacity : float) (st : App) : App :=
  setLayers (map (fun l =>
    if String.eqb (Layer.id l) id
    then {| Layer.id := Layer.id l; Layer.name := Layer.name l;
            Layer.color := Layer.color l; Layer.type := Layer.type l;
            Layer.category := Layer.category l;
            Layer.isVisible := Layer.isVisible l;
            Layer.opacity := opacity |}
    else l)) st.

Definition handleSetActiveLayer (id : string) (st : App) : App :=
  let st1 := setActiveLayerId (Some id) st in
  match findLayer (Some id) (layers st) with
  | Some layer =>
      let st2 := setToolMode
        (if Layer.is_surface (Layer.type layer) then DRAW_POLYGON else DRAW_LINE) st1 in
      setSelectedShapeId None st2
  | None => st1
  end.

Definition handleAddShape (shape : Shape.t) (st : App) : App :=
  setShapes (fun prev => prev ++ [shape]) st.

Definition handleDeleteShape (id : string) (confirm : bool) (st : App) : App :=
  if confirm then
    let st1 := setShapes (filter (fun s => negb (String.eqb (Shape.id s) id))) st in
    if eq_id (selectedShapeId st) id then setSelectedShapeId None st1 else st1
  else st.

Definition handleSelectShape (id : option string) (st : App) : App :=
  setSelectedShapeId id st.

(** The three tool buttons of the header.  The two drawing buttons also
    drop the selection; each is disabled (and then does nothing) when no
    layer is active, or the active layer is an imported one or is of the
    other measurement kind. *)
Definition drawDisabled (other : Layer.kind -> bool) (st : App) : bool :=
  match activeLayerId st with
  | None => true
  | Some a =>
      if String.eqb a "" then true
      else match findLayer (Some a) (layers st) with
           | Some l => negb (Layer.is_measurement (Layer.category l))
                       || other (Layer.type l)
           | None => false
           end
  end.

Definition clickSelectTool (st : App) : App := setToolMode SELECT st.

Definition clickPolygonTool (st : App) : App :=
  if drawDisabled Layer.is_length st then st
  else setSelectedShapeId None (setToolMode DRAW_POLYGON st).

Definition clickLineTool (st : App) : App :=
  if drawDisabled Layer.is_surface st then st
  else setSelectedShapeId None (setToolMode DRAW_LINE st).

(* ================================================================== *)
(** * Shape capture ([DrawingManager] of the map canvas) *)
(* ================================================================== *)

Module DrawingManager.

(** The component's own state.  The mode is a property handed down by
    the parent ([toolMode]); the component is mounted only while a
    drawing mode is on and a layer is active.  ([pointsRef.current] is
    the [points] of the last render: the handlers read the state.) *)
Record t := {
  points : list GeoPoint;
  cursorPos : option GeoPoint
}.

(** State of a freshly mounted component: nothing captured. *)
Definition initial : t := {| points := []; cursorPos := None |}.

Definition setPoints (f : list GeoPoint -> list GeoPoint) (d : t) : t :=
  {| points := f (points d); cursorPos := cursorPos d |}.

Definition setCursorPos (c : option GeoPoint) (d : t) : t :=
  {| points := points d; cursorPos := c |}.

(** The calls made to the parent. *)
Inductive Output :=
| onFinish (pts : list GeoPoint)
| onCancel.

Definition is_select (m : ToolMode) : bool :=
  match m with SELECT => true | _ => false end.
Definition is_draw_polygon (m : ToolMode) : bool :=
  match m with DRAW_POLYGON => true | _ => false end.
Definition is_draw_line (m : ToolMode) : bool :=
  match m with DRAW_LINE => true | _ => false end.

Definition handleTryFinish (mode : ToolMode) (d : t) : t * list Output :=
  let currentPoints := points d in
  if is_draw_polygon mode && (3 <=? List.length currentPoints) then
    (setPoints (fun _ => []) d, [onFinish currentPoints])
  else if is_draw_line mode && (2 <=? List.length currentPoints) then
    (setPoints (fun _ => []) d, [onFinish currentPoints])
  else (d, []).

(** What the component listens to: the map's click, mousemove and
    contextmenu, the Enter and Escape keys, a click or a right click on
    the marker of the [i]-th captured point, the Finish button. *)
Inductive Event :=
| click (p : GeoPoint)
| mousemove (p : GeoPoint)
| contextmenu
| keyEnter
| keyEscape
| markerClick (i : nat)
| markerContextmenu
| finishButton.

Definition handle (mode : ToolMode) (e : Event) (d : t) : t * list Output :=
  match e with
  | click p =>
      if is_select mode then (d, [])
      else (setPoints (fun prev => prev ++ [p]) d, [])
  | mousemove p =>
      if is_select mode then (d, []) else (setCursorPos (Some p) d, [])
  | contextmenu =>
      if is_select mode then (d, []) else handleTryFinish mode d
  | keyEnter =>
      if is_select mode then (d, []) else handleTryFinish mode d
  | keyEscape =>
      if is_select mode then (d, [])
      else (setPoints (fun _ => []) d, [onCancel])
  | markerClick i =>
      if (i =? 0) && is_draw_polygon mode && (3 <=? List.length (points d))
      then handleTryFinish mode d else (d, [])
  | markerContextmenu => handleTryFinish mode d
  | finishButton => handleTryFinish mode d
  end.

End DrawingManager.

(* ================================================================== *)
(** * The imported document *)
(* ================================================================== *)

(** The tree that [DOMParser.parseFromString] returns, as far as the
    importer looks at it: elements with a tag name, attributes and child
    nodes, and text.  The document node itself is an [Element] whose
    children are the top-level nodes. *)
Inductive Node :=
| Text (data : string)
| Element (tagName : string) (attributes : list (string * string))
          (childNodes : list Node).

(** [n.getElementsByTagName(name)]: the descendant elements of [n] with
    that tag name, in document order ([n] itself is not a candidate). *)
Fixpoint getElementsByTagName (name : string) (n : Node) : list Node :=
  match n with
  | Text _ => []
  | Element _ _ cs =>
      flat_map (fun c =>
        match c with
        | Text _ => []
        | Element t _ _ =>
            (if String.eqb t name then [c] else [])
            ++ getElementsByTagName name c
        end) cs
  end.

(** [n.textContent]: the text of all descendants, in order. *)
Fixpoint textContent (n : Node) : string :=
  match n with
  | Text d => d
  | Element _ _ cs =>
      fold_right (fun c acc => String.append (textContent c) acc) EmptyString cs
  end.

(** [e.getAttribute(name)] *)
Definition getAttribute (name : string) (n : Node) : option string :=
  match n with
  | Text _ => None
  | Element _ attrs _ =>
      option_map snd (find (fun kv => String.eqb (fst kv) name) attrs)
  end.

(** [n.getElementsByTagName(name)[0]] *)
Definition firstByTagName (name : string) (n : Node) : option Node :=
  hd_error (getElementsByTagName name n).

(** [n.getElementsByTagName(name)[0]?.textContent] *)
Definition firstText (name : string) (n : Node) : option string :=
  option_map textContent (firstByTagName name n).

(** [n?.getElementsByTagName(a)[0]?.getElementsByTagName(b)[0]?.textContent] *)
Definition firstText2 (a b : string) (n : Node) : option string :=
  match firstByTagName a n with
  | Some e => firstText b e
  | None => None
  end.

(** ** Colours *)

Definition gray : string := "#9ca3af".

Definition kmlColorToHex (kmlColor : option string) : string :=
  if negb (truthy kmlColor) then gray
  else
    let clean := JS.toLowerCase (JS.trim (or_else kmlColor "")) in
    if String.length clean =? 8 then
      String.append "#" (String.append (JS.substring 6 8 clean)
        (String.append (JS.substring 4 6 clean) (JS.substring 2 4 clean)))
    else if String.length clean =? 6 then
      String.append "#" (String.append (JS.substring 4 6 clean)
        (String.append (JS.substring 2 4 clean) (JS.substring 0 2 clean)))
    else gray.

Definition PRESET_COLORS : list string :=
  ["#ef4444"; "#3b82f6"; "#22c55e"; "#eab308";
   "#a855f7"; "#ec4899"; "#f97316"; "#06b6d4"].

(** The style table, [styleMap]: an object used as a map from ["#" + id]
    to a colour.  The newest binding of a key is the first in the list.
    The list holds what the import writes, under keys that start with
    ["#"]; a read with a key that names a property every object
    inherits ([constructor], [toString], ...) finds that property in
    the code and nothing here: such references are outside the model
    of the importer, and [objectRead] below tells them apart. *)
Definition StyleMap := list (string * string).

Definition styleLookup (m : StyleMap) (key : string) : option string :=
  option_map snd (find (fun kv => String.eqb (fst kv) key) m).

Definition addStyle (m : StyleMap) (style : Node) : StyleMap :=
  match getAttribute "id" style with
  | Some id =>
      if String.eqb id "" then m
      else
        let polyColor := firstText2 "PolyStyle" "color" style in
        let lineColor := firstText2 "LineStyle" "color" style in
        if truthy polyColor then (String.append "#" id, kmlColorToHex polyColor) :: m
        else if truthy lineColor then (String.append "#" id, kmlColorToHex lineColor) :: m
        else m
  | None => m
  end.

Definition parseStyles (xmlDoc : Node) : StyleMap :=
  fold_left addStyle (getElementsByTagName "Style" xmlDoc) [].

(** ** Coordinates *)

(** One white-space separated item of a coordinates string. *)
Definition parsePair (pair : string) : option GeoPoint :=
  let parts := JS.split "," pair in
  if 2 <=? List.length parts
  then Some {| lat := JS.parseFloat (nth 1 parts EmptyString);
               lng := JS.parseFloat (nth 0 parts EmptyString) |}
  else None.

(** [p !== null && !isNaN(p.lat) && !isNaN(p.lng)] *)
Definition keepPoint (p : option GeoPoint) : bool :=
  match p with
  | Some q => negb (JS.isNaN (lat q)) && negb (JS.isNaN (lng q))
  | None => false
  end.

(** The cast [as GeoPoint[]] of a list that holds no [null] any more. *)
Definition nonNull (l : list (option GeoPoint)) : list GeoPoint :=
  flat_map (fun o => match o with Some p => [p] | None => [] end) l.

Definition parseCoords (coordStr : string) : list GeoPoint :=
  nonNull (filter keepPoint (map parsePair (JS.split_ws (JS.trim coordStr)))).

(** ** Placemarks *)

Definition unnamed : string := "Sans nom".

(** [coords = e.getElementsByTagName("coordinates")[0]?.textContent;
     if (coords) points = parseCoords(coords)] *)
Definition coordinatesOf (e : Node) : list GeoPoint :=
  let coords := firstText "coordinates" e in
  if truthy coords then parseCoords (or_else coords "") else [].

(** The kind and the points of a placemark: those of its first polygon
    if it has one, else those of its first line string ([type] starts as
    polygon and [points] as the empty array). *)
Definition placemarkGeometry (placemark : Node) : Shape.kind * list GeoPoint :=
  let polygon := firstByTagName "Polygon" placemark in
  let lineString := firstByTagName "LineString" placemark in
  match polygon, lineString with
  | Some pg, _ => (Shape.polygon, coordinatesOf pg)
  | None, Some ls => (Shape.polyline, coordinatesOf ls)
  | None, None => (Shape.polygon, [])
  end.

(** [newId] is what [generateId()] returns; it is called only when the
    placemark has points. *)
Definition processPlacemark (placemark : Node) (layerId defaultColor : string)
    (newId : string) : option Shape.t :=
  let name := or_else (firstText "name" placemark) unnamed in
  let '(type, points) := placemarkGeometry placemark in
  if 0 <? List.length points then
    Some {| Shape.id := newId; Shape.name := name; Shape.type := type;
            Shape.points := points; Shape.layerId := layerId;
            Shape.measuredValue := 0%float |}
  else None.

(** ** The layers and shapes of a document *)

Module File.
(** The chosen file: its name and the text the reader delivers. *)
Record t := { name : string; text : string }.
End File.

(** The importer's working state: how many identifiers it has drawn so
    far, and the two arrays it fills. *)
Record Import := {
  drawn : nat;
  newLayers : list Layer.t;
  newShapes : list Shape.t
}.

Definition importedLayer (id name color : string) : Layer.t :=
  {| Layer.id := id; Layer.name := name; Layer.color := color;
     Layer.type := Layer.mixed; Layer.category := Layer.kml;
     Layer.isVisible := true; Layer.opacity := 0.6%float |}.

Section Importer.

(** [gen k] is what the [k]-th call of [generateId()] made by this
    import returns (counting from 0). *)
Variable gen : nat -> string.

(** [placemarks.forEach(pm => { const shape = processPlacemark(...);
     if (shape) newShapes.push(shape); })] *)
Fixpoint pushPlacemarks (placemarks : list Node) (layerId layerColor : string)
    (acc : Import) : Import :=
  match placemarks with
  | [] => acc
  | pm :: rest =>
      match processPlacemark pm layerId layerColor (gen (drawn acc)) with
      | Some shape =>
          pushPlacemarks rest layerId layerColor
            {| drawn := S (drawn acc); newLayers := newLayers acc;
               newShapes := newShapes acc ++ [shape] |}
      | None => pushPlacemarks rest layerId layerColor acc
      end
  end.

Definition processFolder (styleMap : StyleMap) (index : nat) (folder : Node)
    (acc : Import) : Import :=
  let folderName :=
    or_else (firstText "name" folder)
            (String.append "Dossier " (JS.string_of_nat (index + 1))) in
  let layerId := gen (drawn acc) in
  let placemarks := getElementsByTagName "Placemark" folder in
  let preset := nth (index mod List.length PRESET_COLORS) PRESET_COLORS EmptyString in
  let layerColor :=
    match placemarks with
    | first :: _ =>
        let styleUrl := firstText "styleUrl" first in
        if truthy styleUrl then
          match styleLookup styleMap (or_else styleUrl "") with
          | Some c => c
          | None => preset
          end
        else preset
    | [] => preset
    end in
  pushPlacemarks placemarks layerId layerColor
    {| drawn := S (drawn acc);
       newLayers := newLayers acc ++ [importedLayer layerId folderName layerColor];
       newShapes := newShapes acc |}.

(** [Array.from(folders).forEach((folder, index) => ...)] *)
Fixpoint forEachFolder (styleMap : StyleMap) (folders : list Node) (index : nat)
    (acc : Import) : Import :=
  match folders with
  | [] => acc
  | folder :: rest =>
      forEachFolder styleMap rest (S index) (processFolder styleMap index folder acc)
  end.

(** The body of the [try] block up to the final test. *)
Definition collect (fileName : string) (xmlDoc : Node) : Import :=
  let start := {| drawn := 0; newLayers := []; newShapes := [] |} in
  let styleMap := parseStyles xmlDoc in
  let folders := getElementsByTagName "Folder" xmlDoc in
  if 0 <? List.length folders then forEachFolder styleMap folders 0 start
  else
    let placemarks := getElementsByTagName "Placemark" xmlDoc in
    if 0 <? List.length placemarks then
      let layerId := gen 0 in
      let layerColor := gray in
      pushPlacemarks placemarks layerId layerColor
        {| drawn := 1;
           newLayers := [importedLayer layerId (String.append "Import " fileName) layerColor];
           newShapes := [] |}
    else start.

End Importer.

(* ================================================================== *)
(** * Measuring, converting, importing *)
(* ================================================================== *)

(** [p => [p.lng, p.lat]] *)
Definition toPosition (p : GeoPoint) : float * float := (lng p, lat p).

Section Engine.

(** [turf_area ring] is [turf.area(turf.polygon([ring]))] and
    [turf_length line] is
    [turf.length(turf.lineString(line), { units: 'kilometers' })];
    [None] when the call throws. *)
Variable turf_area : list (float * float) -> option float.
Variable turf_length : list (float * float) -> option float.

(** [new DOMParser().parseFromString(text, "text/xml")]; it does not
    throw (a text that is not XML gives an error document). *)
Variable parseFromString : string -> Node.

(** ** Converting an imported shape (handleConvertShape) *)

(** The kind forced by the target layer. *)
Definition coerceType (shapeType : Shape.kind) (layerType : Layer.kind) : Shape.kind :=
  let newType := shapeType in
  let newType := if Layer.is_surface layerType then Shape.polygon else newType in
  let newType := if Layer.is_length layerType then Shape.polyline else newType in
  newType.

(** The [try] block: the value, and the warning of the [catch]. *)
Definition convertMeasure (newType : Shape.kind) (shape : Shape.t)
    : float * list Effect :=
  match newType with
  | Shape.polygon =>
      let points :=
        match Shape.points shape with
        | first :: _ => Shape.points shape ++ [first]
        | [] => []
        end in
      let turfPoints := map toPosition points in
      if 4 <=? List.length turfPoints then
        match turf_area turfPoints with
        | Some a => (a, [])
        | None => (0%float, [console_warn])
        end
      else (0%float, [])
  | Shape.polyline =>
      let turfPoints := map toPosition (Shape.points shape) in
      if 2 <=? List.length turfPoints then
        match turf_length turfPoints with
        | Some km => (PrimFloat.mul km 1000%float, [])
        | None => (0%float, [console_warn])
        end
      else (0%float, [])
  end.

Definition convertedShape (shape : Shape.t) (targetLayer : Layer.t)
    (newId : string) : Shape.t :=
  let newType := coerceType (Shape.type shape) (Layer.type targetLayer) in
  {| Shape.id := newId;
     Shape.layerId := Layer.id targetLayer;
     Shape.type := newType;
     Shape.measuredValue := fst (convertMeasure newType shape);
     Shape.name := if String.eqb (Shape.name shape) unnamed
                   then String.append "Import " (Layer.name targetLayer)
                   else Shape.name shape;
     Shape.points := Shape.points shape |}.

(** The target is the active layer.  [confirm] is the answer to the
    dialog, [newId] what [generateId()] returns. *)
Definition handleConvertShape (shapeId : string) (confirm : bool) (newId : string)
    (st : App) : App * list Effect :=
  match findShape shapeId (shapes st) with
  | None => (st, [])
  | Some shape =>
      match findLayer (activeLayerId st) (layers st) with
      | None => (st, [alert InvalidTargetLayer])
      | Some targetLayer =>
          if negb (Layer.is_measurement (Layer.category targetLayer))
          then (st, [alert InvalidTargetLayer])
          else if confirm then
            let newType := coerceType (Shape.type shape) (Layer.type targetLayer) in
            let newShape := convertedShape shape targetLayer newId in
            let st1 := setShapes (fun prev =>
              filter (fun s => negb (String.eqb (Shape.id s) shapeId)) prev
              ++ [newShape]) st in
            (setSelectedShapeId (Some (Shape.id newShape)) st1,
             snd (convertMeasure newType shape))
          else (st, [])
      end
  end.

(** ** Finishing a capture (handleShapeComplete of the map canvas) *)

(** The [try] block: the value, and the error logged by the [catch].
    With no point at all, [points[0]] is undefined and reading its
    [lng] throws. *)
Definition completeMeasure (layerType : Layer.kind) (points : list GeoPoint)
    : float * list Effect :=
  if Layer.is_surface layerType then
    match points with
    | first :: _ =>
        match turf_area (map toPosition (points ++ [first])) with
        | Some a => (a, [])
        | None => (0%float, [console_error])
        end
    | [] => (0%float, [console_error])
    end
  else
    match turf_length (map toPosition points) with
    | Some km => (PrimFloat.mul km 1000%float, [])
    | None => (0%float, [console_error])
    end.

(** [if (isNaN(measuredValue)) measuredValue = 0] *)
Definition nanToZero (v : float) : float := if JS.isNaN v then 0%float else v.

(** [answer] is what [window.prompt] returns ([None] when the user
    cancels it), [newId] what [generateId()] returns.  The code asks
    for the name and appends the shape from the callback of a timer of
    50 ms: this definition is the handler together with that callback,
    for a timer that runs before anything else is handled.  The two
    parts are [finishCapture] and [timerCallback] below, where other
    events come in between. *)
Definition handleShapeComplete (points : list GeoPoint) (answer : option string)
    (newId : string) (st : App) : App * list Effect :=
  match findLayer (activeLayerId st) (layers st) with
  | None => (st, [alert ActiveLayerNotFound])
  | Some activeLayer =>
      let '(measured, effects) := completeMeasure (Layer.type activeLayer) points in
      let measuredValue := nanToZero measured in
      let defaultName :=
        if Layer.is_surface (Layer.type activeLayer) then "Surface" else "Longueur" in
      match answer with
      | Some name =>
          let newShape :=
            {| Shape.id := newId;
               Shape.name := or_else (Some name) defaultName;
               Shape.type := if Layer.is_surface (Layer.type activeLayer)
                             then Shape.polygon else Shape.polyline;
               Shape.points := points;
               Shape.layerId := Layer.id activeLayer;
               Shape.measuredValue := measuredValue |} in
          (handleAddShape newShape st, effects)
      | None => (st, effects)
      end
  end.

(** ** Importing a document (handleKmlImport) *)

(** [file] is the file chosen, if any; [gen] gives the identifiers.
    Nothing in the [try] block throws in this model, so the [catch]
    (the alert [KmlError]) is never entered. *)
Definition handleKmlImport (file : option File.t) (gen : nat -> string)
    (st : App) : App * list Effect :=
  match file with
  | None => (st, [])
  | Some f =>
      if String.eqb (File.text f) "" then (st, [])
      else
        let xmlDoc := parseFromString (File.text f) in
        let result := collect gen (File.name f) xmlDoc in
        match newShapes result with
        | first :: _ =>
            let st1 := setLayers (fun prev => prev ++ newLayers result) st in
            let st2 := setShapes (fun prev => prev ++ newShapes result) st1 in
            match Shape.points first with
            | p :: _ => (setMapCenter (Some p) st2, [])
            | [] => (st2, [])
            end
        | [] => (st, [alert NoCompatibleShape])
        end
  end.

(** ** Everything that writes the project state *)

Inductive Action :=
| AddLayer (name : string) (type : Layer.kind) (color newId : string)
| DeleteLayer (id : string) (confirm : bool)
| ToggleVisibility (id : string)
| UpdateOpacity (id : string) (opacity : float)
| SetActiveLayer (id : string)
| AddShape (shape : Shape.t)
| DeleteShape (id : string) (confirm : bool)
| KeyDelete (confirm : bool)
| SelectShape (id : option string)
| ConvertShape (shapeId : string) (confirm : bool) (newId : string)
| KmlImport (file : option File.t) (gen : nat -> string)
| ClickSelectTool
| ClickPolygonTool
| ClickLineTool
| ShapeComplete (points : list GeoPoint) (answer : option string) (newId : string)
| CaptureCancel.

Definition step (a : Action) (st : App) : App * list Effect :=
  match a with
  | AddLayer name type color newId => (handleAddLayer name type color newId st, [])
  | DeleteLayer id confirm => (handleDeleteLayer id confirm st, [])
  | ToggleVisibility id => (handleToggleVisibility id st, [])
  | UpdateOpacity id opacity => (handleUpdateOpacity id opacity st, [])
  | SetActiveLayer id => (handleSetActiveLayer id st, [])
  | AddShape shape => (handleAddShape shape st, [])
  | DeleteShape id confirm => (handleDeleteShape id confirm st, [])
  | KeyDelete confirm =>
      (* the Delete and Backspace keys, outside input fields *)
      if truthy (selectedShapeId st)
      then (handleDeleteShape (or_else (selectedShapeId st) "") confirm st, [])
      else (st, [])
  | SelectShape id => (handleSelectShape id st, [])
  | ConvertShape shapeId confirm newId => handleConvertShape shapeId confirm newId st
  | KmlImport file gen => handleKmlImport file gen st
  | ClickSelectTool => (clickSelectTool st, [])
  | ClickPolygonTool => (clickPolygonTool st, [])
  | ClickLineTool => (clickLineTool st, [])
  | ShapeComplete points answer newId => handleShapeComplete points answer newId st
  | CaptureCancel =>
      (* [onCancel] of the drawing manager: [onSelectShape(null)] *)
      (handleSelectShape None st, [])
  end.

End Engine.

(* ================================================================== *)
(** * Vocabulary of the statements, and sample data *)
(* ================================================================== *)

(** Predicates and functions the statements below are written with, and
    a small project, a document and stand-ins for the geometry library
    to run the handlers on. *)

(** The number of points a capture needs before it can be finished. *)
Definition required (mode : ToolMode) : option nat :=
  match mode with
  | DRAW_POLYGON => Some 3
  | DRAW_LINE => Some 2
  | SELECT => None
  end.

(** The point of latitude [la] and longitude [lo]. *)
Definition pt (la lo : float) : GeoPoint := {| lat := la; lng := lo |}.

(** The value the opacity would take if it were clamped into [0,1]:
    [Math.min(1, Math.max(0, v))]. *)
Definition clamp01 (v : float) : float :=
  JS.Math_min 1%float (JS.Math_max 0%float v).

(** A string of two characters, and of several of them. *)
Definition str2 (a b : ascii) : string := String a (String b EmptyString).

Definition lower2 (a b : ascii) : string := str2 (JS.lowerChar a) (JS.lowerChar b).

(** [l.id !== id] as used by the filters. *)
Definition otherId (id : string) (s : Shape.t) : bool :=
  negb (String.eqb (Shape.id s) id).

(** Every shape of the list has an id other than [id]. *)
Definition freshId (id : string) (ss : list Shape.t) : bool :=
  forallb (otherId id) ss.

(** The target of a conversion is acceptable: the active layer exists
    and is a measurement layer. *)
Definition validTarget (st : App) : bool :=
  match findLayer (activeLayerId st) (layers st) with
  | Some l => Layer.is_measurement (Layer.category l)
  | None => false
  end.

(** The ring of a polygon closed by appending its first point (nothing
    is appended to no point at all). *)
Definition closeRing (pts : list GeoPoint) : list GeoPoint := pts ++ firstn 1 pts.

Definition wallsLayer : Layer.t :=
  {| Layer.id := "1"; Layer.name := "Murs"; Layer.color := "#ef4444";
     Layer.type := Layer.surface; Layer.category := Layer.measurement;
     Layer.isVisible := true; Layer.opacity := 0.5%float |}.

Definition parcelsLayer : Layer.t := importedLayer "k1" "Parcelles" "#3b82f6".

Definition fencesLayer : Layer.t :=
  {| Layer.id := "2"; Layer.name := "Clotures"; Layer.color := "#22c55e";
     Layer.type := Layer.length; Layer.category := Layer.measurement;
     Layer.isVisible := true; Layer.opacity := 1%float |}.

Definition triangle : list GeoPoint :=
  [pt 48.5 2.25; pt 48.5 2.5; pt 48.75 2.5].

(** A shape as the importer makes them: unnamed, not measured. *)
Definition parcel : Shape.t :=
  {| Shape.id := "s1"; Shape.name := "Sans nom"; Shape.type := Shape.polyline;
     Shape.points := triangle; Shape.layerId := "k1";
     Shape.measuredValue := 0%float |}.

(** The initial layer "Murs" (active), an imported layer with one shape
    (selected), and a length layer. *)
Definition demoApp : App :=
  {| layers := [wallsLayer; parcelsLayer; fencesLayer];
     shapes := [parcel];
     activeLayerId := Some "1";
     selectedShapeId := Some "s1";
     toolMode := SELECT;
     mapCenter := None |}.

(** Stand-ins for the two turf calls: every ring has an area of 1024
    square metres, every line a length of half a kilometre. *)
Definition area1024 (ring : list (float * float)) : option float := Some 1024%float.

Definition halfKm (line : list (float * float)) : option float := Some 0.5%float.

(** A stand-in that shows what the library is handed: it answers the
    sum of the first coordinates of the positions. *)
Definition sumOfFirst (positions : list (float * float)) : option float :=
  Some (fold_left (fun sum xy => PrimFloat.add sum (fst xy)) positions 0%float).

(** A geometry library that answers an infinite area, or no number. *)
Definition areaInfinite (ring : list (float * float)) : option float := Some infinity.

Definition areaNaN (ring : list (float * float)) : option float := Some nan.

(** The [i]-th comma-separated field of an item. *)
Definition field (i : nat) (pair : string) : string :=
  nth i (JS.split "," pair) EmptyString.

(** The point an item stands for: longitude first, latitude second. *)
Definition pointOfPair (pair : string) : GeoPoint :=
  {| lat := JS.parseFloat (field 1 pair); lng := JS.parseFloat (field 0 pair) |}.

(** The items the parser keeps: at least two fields, and the first two
    read as numbers other than NaN. *)
Definition keptPair (pair : string) : bool :=
  (2 <=? List.length (JS.split "," pair))
  && negb (JS.isNaN (JS.parseFloat (field 1 pair)))
  && negb (JS.isNaN (JS.parseFloat (field 0 pair))).

(** The items that give two finite numbers. *)
Definition finitePair (pair : string) : bool :=
  (2 <=? List.length (JS.split "," pair))
  && JS.isFinite (JS.parseFloat (field 1 pair))
  && JS.isFinite (JS.parseFloat (field 0 pair)).

(** A shape without its id. *)
Definition content (s : Shape.t)
    : string * Shape.kind * list GeoPoint * string * float :=
  (Shape.name s, Shape.type s, Shape.points s, Shape.layerId s,
   Shape.measuredValue s).

(** What one placemark contributes to a layer, taken alone. *)
Definition placemarkContent (layerId : string) (pm : Node)
    : list (string * Shape.kind * list GeoPoint * string * float) :=
  match processPlacemark pm layerId EmptyString EmptyString with
  | Some s => [content s]
  | None => []
  end.

(** A document with one style and one folder holding one polygon. *)
Definition sampleDoc : Node :=
  Element "#document" [] [
    Element "kml" [] [
      Element "Document" [] [
        Element "Style" [("id", "lot")] [
          Element "PolyStyle" [] [Element "color" [] [Text "7f0000ff"]]];
        Element "Folder" [] [
          Element "name" [] [Text "Parcelles"];
          Element "Placemark" [] [
            Element "styleUrl" [] [Text "#lot"];
            Element "Polygon" [] [
              Element "outerBoundaryIs" [] [
                Element "LinearRing" [] [
                  Element "coordinates" [] [
                    Text "2.35,48.85,0 2.36,48.85,0 2.36,48.86,0"]]]]]]]]].

(** A document with neither folder nor placemark. *)
Definition emptyDoc : Node :=
  Element "#document" [] [Element "kml" [] [Element "Document" [] []]].

(** A parser that answers with the given document, for the file that
    holds it. *)
Definition parserOf (doc : Node) (text : string) : Node := doc.

(** Identifiers "id0", "id1", ... *)
Definition numbered (k : nat) : string := String.append "id" (JS.string_of_nat k).

(** The file that holds the sample document. *)
Definition sampleFile : File.t :=
  {| File.name := "lots.kml";
     File.text := "<kml><Document><Style id='lot'><PolyStyle><color>7f0000ff</color></PolyStyle></Style><Folder><name>Parcelles</name><Placemark><styleUrl>#lot</styleUrl><Polygon><outerBoundaryIs><LinearRing><coordinates>2.35,48.85,0 2.36,48.85,0 2.36,48.86,0</coordinates></LinearRing></outerBoundaryIs></Polygon></Placemark></Folder></Document></kml>" |}.

(** A file with an empty document. *)
Definition emptyFile : File.t :=
  {| File.name := "rien.kml"; File.text := "<kml><Document/></kml>" |}.

(** A project whose surface layer holds one shape, with the value NaN. *)
Definition nanShape : Shape.t :=
  {| Shape.id := "s9"; Shape.name := "Toit"; Shape.type := Shape.polygon;
     Shape.points := triangle; Shape.layerId := "1";
     Shape.measuredValue := nan |}.

Definition nanApp : App :=
  {| layers := [wallsLayer; parcelsLayer; fencesLayer];
     shapes := [nanShape];
     activeLayerId := Some "1";
     selectedShapeId := None;
     toolMode := SELECT;
     mapCenter := None |}.

(** A stand-in for [toFixed(2)] that tells NaN from the numbers. *)
Definition fixedOrNaN (x : float) : string :=
  if JS.isNaN x then "NaN" else "0.00".

(** A file without any text. *)
Definition blankFile : File.t :=
  {| File.name := "vide.kml"; File.text := "" |}.

(** The actions that can write [null] to the selection. *)
Definition clearsSelection (a : Action) : bool :=
  match a with
  | AddLayer _ _ _ _ => true
  | SetActiveLayer _ => true
  | DeleteShape _ _ => true
  | KeyDelete _ => true
  | SelectShape None => true
  | ClickPolygonTool => true
  | ClickLineTool => true
  | CaptureCancel => true
  | _ => false
  end.

(* ================================================================== *)
(** * The rest of the application *)
(* ================================================================== *)

(** ** [Array.prototype.sort] *)

(** [l.sort(cmp)], which is stable: an element is put before the first
    element of the sorted rest that it does not come after ([cmp] gives
    a positive number when its first argument comes after the second).
    For a comparator that is a consistent ordering this is the order
    every implementation gives. *)
Fixpoint sortInsert {A : Type} (cmp : A -> A -> Z) (x : A) (l : list A) : list A :=
  match l with
  | [] => [x]
  | y :: r => if (0 <? cmp x y)%Z then y :: sortInsert cmp x r else x :: l
  end.

Definition sort {A : Type} (cmp : A -> A -> Z) (l : list A) : list A :=
  fold_right (sortInsert cmp) [] l.

(** ** Totals per layer ([layerTotals] of [src/App.tsx]) *)

(** [ss.reduce((sum, s) => sum + s.measuredValue, 0)] *)
Definition sumValues (ss : list Shape.t) : float :=
  fold_left (fun sum s => PrimFloat.add sum (Shape.measuredValue s)) ss 0%float.

(** [shapes.filter(s => s.layerId === id)] *)
Definition shapesOf (id : string) (ss : list Shape.t) : list Shape.t :=
  filter (fun s => String.eqb (Shape.layerId s) id) ss.

(** The object [totals]: the newest binding of a key is the first in
    the list.  (Keys that name a property every object inherits are
    outside the model.) *)
Definition Totals := list (string * float).

Definition layerTotals (ls : list Layer.t) (ss : list Shape.t) : Totals :=
  fold_left (fun totals l =>
    if Layer.is_measurement (Layer.category l)
    then (Layer.id l, sumValues (shapesOf (Layer.id l) ss)) :: totals
    else totals) ls [].

(** [totals[id]] *)
Definition totalOf (totals : Totals) (id : string) : option float :=
  option_map snd (find (fun kv => String.eqb (fst kv) id) totals).

(** ** The layer panel ([LayerManager]) *)

Module LayerManager.

(** [a || 0] on a number that may be undefined: 0, -0 and NaN are
    falsy. *)
Definition or_zero (a : option float) : float :=
  match a with
  | Some v => if PrimFloat.eqb v 0%float || JS.isNaN v then 0%float else v
  | None => 0%float
  end.

Definition measurementLayers (ls : list Layer.t) : list Layer.t :=
  filter (fun l => Layer.is_measurement (Layer.category l)) ls.

Definition kmlLayers (ls : list Layer.t) : list Layer.t :=
  filter (fun l => negb (Layer.is_measurement (Layer.category l))) ls.

(** The total printed in the item of a layer:
    [layerTotals[layer.id] || 0]. *)
Definition total (totals : Totals) (layer : Layer.t) : float :=
  or_zero (totalOf totals (Layer.id layer)).

(** The panel's own state: the form for a new layer and the set of
    expanded items.  The set is kept as the list of its members in the
    order they were added. *)
Record t := {
  isAdding : bool;
  newLayerName : string;
  newLayerType : Layer.kind;
  newLayerColor : string;
  expandedLayers : list string
}.

Definition initial : t :=
  {| isAdding := false; newLayerName := ""; newLayerType := Layer.surface;
     newLayerColor := nth 0 PRESET_COLORS EmptyString; expandedLayers := [] |}.

(** The calls made to the parent. *)
Inductive Output :=
| onAddLayer (name : string) (type : Layer.kind) (color : string)
| onSetActiveLayer (id : string)
| onToggleVisibility (id : string)
| onDeleteLayer (id : string)
| onDeleteShape (id : string)
| onUpdateLayerOpacity (id : string) (opacity : float).

(** [if (newLayerName.trim()) { onAddLayer(...); setNewLayerName('');
     setIsAdding(false); }] *)
Definition handleAdd (p : t) : t * list Output :=
  if negb (String.eqb (JS.trim (newLayerName p)) "") then
    ({| isAdding := false; newLayerName := "";
        newLayerType := newLayerType p; newLayerColor := newLayerColor p;
        expandedLayers := expandedLayers p |},
     [onAddLayer (newLayerName p) (newLayerType p) (newLayerColor p)])
  else (p, []).

(** [Set.prototype.has], [delete] and [add]. *)
Definition has (id : string) (s : list string) : bool :=
  existsb (String.eqb id) s.

Definition delete (id : string) (s : list string) : list string :=
  filter (fun x => negb (String.eqb x id)) s.

Definition add (id : string) (s : list string) : list string :=
  if has id s then s else s ++ [id].

Definition toggleLayerExpansion (layerId : string) (p : t) : t :=
  let newExpanded :=
    if has layerId (expandedLayers p) then delete layerId (expandedLayers p)
    else add layerId (expandedLayers p) in
  {| isAdding := isAdding p; newLayerName := newLayerName p;
     newLayerType := newLayerType p; newLayerColor := newLayerColor p;
     expandedLayers := newExpanded |}.

(** A click on the item of a layer: [!isKml && onSetActiveLayer(layer.id)].
    The items of the imported section are drawn with [isKml] true. *)
Definition clickItem (layer : Layer.t) (isKml : bool) : list Output :=
  if negb isKml then [onSetActiveLayer (Layer.id layer)] else [].

(** The slider of an item: [onUpdateLayerOpacity(layer.id,
    parseFloat(e.target.value))]. *)
Definition changeOpacity (layer : Layer.t) (value : string) : list Output :=
  [onUpdateLayerOpacity (Layer.id layer) (JS.parseFloat value)].

End LayerManager.

(** ** The map canvas ([MapCanvas]) *)

Module MapCanvas.

(** The comparator of [sortedLayers]. *)
Definition compareLayers (a b : Layer.t) : Z :=
  if Layer.is_measurement (Layer.category a)
     && negb (Layer.is_measurement (Layer.category b)) then 1%Z
  else if negb (Layer.is_measurement (Layer.category a))
          && Layer.is_measurement (Layer.category b) then (-1)%Z
  else 0%Z.

(** [[...layers].sort(...)] *)
Definition sortedLayers (ls : list Layer.t) : list Layer.t :=
  sort compareLayers ls.

(** The layers drawn, bottom first, each with its shapes:
    [sortedLayers.filter(l => l.isVisible).map(layer => ...)]. *)
Definition rendered (st : App) : list (Layer.t * list Shape.t) :=
  map (fun layer => (layer, shapesOf (Layer.id layer) (shapes st)))
      (filter Layer.isVisible (sortedLayers (layers st))).

(** [shapes.find(s => s.id === selectedShapeId)] *)
Definition selectedShape (st : App) : option Shape.t :=
  match selectedShapeId st with
  | Some id => findShape id (shapes st)
  | None => None
  end.

(** [selectedShape && layers.find(l => l.id === selectedShape.layerId)
     ?.category === 'kml'] *)
Definition isKmlSelection (st : App) : bool :=
  match selectedShape st with
  | Some s =>
      match findLayer (Some (Shape.layerId s)) (layers st) with
      | Some l => negb (Layer.is_measurement (Layer.category l))
      | None => false
      end
  | None => false
  end.

(** The buttons of the selection tool bar, which is drawn when
    [selectedShapeId && selectedShape]. *)
Inductive Button := convertButton | deleteButton | closeButton.

Definition toolbar (st : App) : list Button :=
  match selectedShape st with
  | Some _ =>
      if truthy (selectedShapeId st)
      then [if isKmlSelection st then convertButton else deleteButton; closeButton]
      else []
  | None => []
  end.

(** What a click on a shape of the map does:
    [if (toolMode === ToolMode.SELECT) onSelectShape(shape.id)]. *)
Definition clickShape (shape : Shape.t) (st : App) : App :=
  match toolMode st with
  | SELECT => handleSelectShape (Some (Shape.id shape)) st
  | _ => st
  end.

(** The drawing manager is mounted when
    [toolMode !== ToolMode.SELECT && activeLayer]. *)
Definition drawing (st : App) : bool :=
  negb (DrawingManager.is_select (toolMode st))
  && match findLayer (activeLayerId st) (layers st) with
     | Some _ => true
     | None => false
     end.

End MapCanvas.

(** The action a button of the tool bar starts, with the selected id
    ([confirm] and [newId] are the answer to the dialog and the next
    identifier, used when the handler asks for them). *)
Definition toolbarAction (b : MapCanvas.Button) (confirm : bool) (newId : string)
    (st : App) : Action :=
  match b with
  | MapCanvas.convertButton =>
      ConvertShape (or_else (selectedShapeId st) "") confirm newId
  | MapCanvas.deleteButton =>
      DeleteShape (or_else (selectedShapeId st) "") confirm
  | MapCanvas.closeButton => SelectShape None
  end.

(** The action the panel's call starts in [App]. *)
Definition panelAction (o : LayerManager.Output) (confirm : bool) (newId : string)
    : Action :=
  match o with
  | LayerManager.onAddLayer name type color => AddLayer name type color newId
  | LayerManager.onSetActiveLayer id => SetActiveLayer id
  | LayerManager.onToggleVisibility id => ToggleVisibility id
  | LayerManager.onDeleteLayer id => DeleteLayer id confirm
  | LayerManager.onDeleteShape id => DeleteShape id confirm
  | LayerManager.onUpdateLayerOpacity id opacity => UpdateOpacity id opacity
  end.

(** ** Vocabulary of the further properties *)

(** Some measurement layer has this id. *)
Definition measured_id (id : string) (ls : list Layer.t) : bool :=
  existsb (fun l => Layer.is_measurement (Layer.category l)
                    && String.eqb (Layer.id l) id) ls.

(** The name, kind and points of a shape. *)
Definition outline (s : Shape.t) : string * Shape.kind * list GeoPoint :=
  (Shape.name s, Shape.type s, Shape.points s).

(** The outline of the shape a placemark gives, if it gives one. *)
Definition placemarkOutline (pm : Node)
    : list (string * Shape.kind * list GeoPoint) :=
  match processPlacemark pm EmptyString EmptyString EmptyString with
  | Some s => [outline s]
  | None => []
  end.

(** The names of the layers made for a list of folders, the first of
    which has the given index. *)
Fixpoint folderNames (index : nat) (folders : list Node) : list string :=
  match folders with
  | [] => []
  | folder :: rest =>
      or_else (firstText "name" folder)
              (String.append "Dossier " (JS.string_of_nat (index + 1)))
      :: folderNames (S index) rest
  end.

(** A layer as the importer makes them. *)
Definition isImported (l : Layer.t) : Prop :=
  Layer.category l = Layer.kml /\ Layer.type l = Layer.mixed
  /\ Layer.isVisible l = true /\ Layer.opacity l = 0.6%float.

(** No coordinate of the point is NaN. *)
Definition noNaN (p : GeoPoint) : Prop :=
  JS.isNaN (lat p) = false /\ JS.isNaN (lng p) = false.

(** What the importer does to its working state, one step at a time:
    it adds a layer with the next identifier, or it adds a shape with
    the next identifier to a layer it has already added. *)
Inductive Grows (gen : nat -> string) : Import -> Import -> Prop :=
| grows_layer (acc : Import) (name color : string) :
    Grows gen acc
      {| drawn := S (drawn acc);
         newLayers := newLayers acc ++ [importedLayer (gen (drawn acc)) name color];
         newShapes := newShapes acc |}
| grows_shape (acc : Import) (pm : Node) (layerId color : string) (s : Shape.t) :
    (exists l, In l (newLayers acc) /\ Layer.id l = layerId) ->
    processPlacemark pm layerId color (gen (drawn acc)) = Some s ->
    Grows gen acc
      {| drawn := S (drawn acc); newLayers := newLayers acc;
         newShapes := newShapes acc ++ [s] |}.

(** A shape as the importer makes them, in one of the given layers:
    not measured, with at least one point and no NaN coordinate. *)
Definition isImportedShape (ls : list Layer.t) (s : Shape.t) : Prop :=
  Shape.measuredValue s = 0%float
  /\ Shape.points s <> []
  /\ Forall noNaN (Shape.points s)
  /\ exists l, In l ls /\ Layer.id l = Shape.layerId s.

(** The identifiers given to the layers and the shapes of an import. *)
Definition importIds (r : Import) : list string :=
  map Layer.id (newLayers r) ++ map Shape.id (newShapes r).

(** The outlines of the shapes the placemarks of a folder give. *)
Definition folderOutlines (folder : Node)
    : list (string * Shape.kind * list GeoPoint) :=
  flat_map placemarkOutline (getElementsByTagName "Placemark" folder).

(** A document with a folder inside a folder, and a placemark outside
    both. *)
Definition pointPlacemark (name coords : string) : Node :=
  Element "Placemark" [] [
    Element "name" [] [Text name];
    Element "LineString" [] [Element "coordinates" [] [Text coords]]].

Definition innerFolder : Node :=
  Element "Folder" [] [
    Element "name" [] [Text "Lot A"];
    pointPlacemark "borne" "2.5,48.5 2.25,48.5"].

Definition outerFolder : Node :=
  Element "Folder" [] [Element "name" [] [Text "Lots"]; innerFolder].

Definition nestedDoc : Node :=
  Element "#document" [] [
    Element "kml" [] [
      pointPlacemark "hors dossier" "2.75,48.5 2.75,48.75";
      outerFolder]].

(** ** States the application can reach *)

(** What the interface and the environment guarantee when an action is
    started: the form for a new layer offers the kinds surface and
    length only, and [generateId()] returns an identifier no layer has;
    the panel makes active a layer it lists among the measurement
    layers; [handleAddShape] is handed a shape of an existing layer
    (its one caller is [handleShapeComplete]); the identifiers drawn
    during an import are new and pairwise distinct. *)
Definition permitted (a : Action) (st : App) : Prop :=
  match a with
  | AddLayer _ type _ newId =>
      type <> Layer.mixed
      /\ forall l, In l (layers st) -> Layer.id l <> newId
  | SetActiveLayer id =>
      exists l, In l (LayerManager.measurementLayers (layers st))
                /\ Layer.id l = id
  | AddShape shape =>
      exists l, In l (layers st) /\ Layer.id l = Shape.layerId shape
  | KmlImport _ gen =>
      (forall i j, gen i = gen j -> i = j)
      /\ forall k l, In l (layers st) -> Layer.id l <> gen k
  | _ => True
  end.

(** The states reached from the initial one by permitted actions. *)
Inductive Reachable (turf_area turf_length : list (float * float) -> option float)
    (parseFromString : string -> Node) : App -> Prop :=
| reach_initial : Reachable turf_area turf_length parseFromString initialApp
| reach_step (a : Action) (st : App) :
    Reachable turf_area turf_length parseFromString st ->
    permitted a st ->
    Reachable turf_area turf_length parseFromString
      (fst (step turf_area turf_length parseFromString a st)).

(** No two layers share an id. *)
Definition distinctLayers (st : App) : Prop := NoDup (map Layer.id (layers st)).

(** A measurement layer is a surface or a length layer, an imported
    layer is mixed. *)
Definition kindsOK (st : App) : Prop :=
  forall l, In l (layers st) ->
    (Layer.category l = Layer.measurement -> Layer.type l <> Layer.mixed)
    /\ (Layer.category l = Layer.kml -> Layer.type l = Layer.mixed).

(** The active layer, when there is one, exists and is a measurement
    layer. *)
Definition activeOK (st : App) : Prop :=
  forall a, activeLayerId st = Some a ->
    exists l, findLayer (Some a) (layers st) = Some l
              /\ Layer.category l = Layer.measurement.

(** The drawing tool is the one of the active layer's kind. *)
Definition modeOK (st : App) : Prop :=
  forall l, findLayer (activeLayerId st) (layers st) = Some l ->
    (toolMode st = DRAW_POLYGON -> Layer.type l = Layer.surface)
    /\ (toolMode st = DRAW_LINE -> Layer.type l = Layer.length).

(** Every shape belongs to a layer of the project. *)
Definition owned (st : App) : Prop :=
  forall s, In s (shapes st) ->
    exists l, In l (layers st) /\ Layer.id l = Shape.layerId s.

Definition Inv (st : App) : Prop :=
  distinctLayers st /\ kindsOK st /\ activeOK st /\ modeOK st /\ owned st.

(** A rewriting of a layer that keeps its id, kind and category. *)
Definition sameButField (f : Layer.t -> Layer.t) : Prop :=
  forall l, Layer.id (f l) = Layer.id l /\ Layer.type (f l) = Layer.type l
            /\ Layer.category (f l) = Layer.category l.

(** ** The capture component, over time *)

(** The Finish button is drawn when
    [(mode === DRAW_POLYGON && points.length >= 3)
     || (mode === DRAW_LINE && points.length >= 2)]. *)
Definition finishShown (mode : ToolMode) (d : DrawingManager.t) : bool :=
  (DrawingManager.is_draw_polygon mode
   && (3 <=? List.length (DrawingManager.points d)))
  || (DrawingManager.is_draw_line mode
      && (2 <=? List.length (DrawingManager.points d))).

(** The events handled one after the other, with all the calls made to
    the parent. *)
Fixpoint handleAll (mode : ToolMode) (events : list DrawingManager.Event)
    (d : DrawingManager.t) : DrawingManager.t * list DrawingManager.Output :=
  match events with
  | [] => (d, [])
  | e :: rest =>
      let '(d1, out1) := DrawingManager.handle mode e d in
      let '(d2, out2) := handleAll mode rest d1 in
      (d2, out1 ++ out2)
  end.

(** The shape [handleShapeComplete] makes for the points of a capture
    on the layer [al], once named. *)
Definition completedShape (turf_area turf_length : list (float * float) -> option float)
    (pts : list GeoPoint) (name newId : string) (al : Layer.t) : Shape.t :=
  {| Shape.id := newId;
     Shape.name := or_else (Some name)
                     (if Layer.is_surface (Layer.type al) then "Surface" else "Longueur");
     Shape.type := if Layer.is_surface (Layer.type al)
                   then Shape.polygon else Shape.polyline;
     Shape.points := pts;
     Shape.layerId := Layer.id al;
     Shape.measuredValue :=
       nanToZero (fst (completeMeasure turf_area turf_length (Layer.type al) pts)) |}.

(** ** The analysis report ([handleRunAnalysis] and
       [analyzeMeasurements] of [src/services/geminiService.ts]) *)

(** [shapes.filter(s => { const layer = layers.find(l => l.id ===
    s.layerId); return layer && layer.category === 'measurement'; })] *)
Definition measurementShapes (st : App) : list Shape.t :=
  filter (fun s =>
    match findLayer (Some (Shape.layerId s)) (layers st) with
    | Some layer => Layer.is_measurement (Layer.category layer)
    | None => false
    end) (shapes st).

Module Report.
Record entry := {
  layerName : string;
  type : string;
  totalValue : string;
  unit : string;
  itemCount : nat
}.
End Report.

(** ["m²"]: the second code unit is U+00B2. *)
Definition squareMetres : string :=
  String "m" (String (ascii_of_nat 178) EmptyString).

Section Analysis.

(** [x.toFixed(2)], of the language. *)
Variable toFixed2 : float -> string.

(** [reportData] of [analyzeMeasurements(layers, shapes)]. *)
Definition reportData (ls : list Layer.t) (ss : list Shape.t) : list Report.entry :=
  map (fun layer =>
    let layerShapes := shapesOf (Layer.id layer) ss in
    let total := sumValues layerShapes in
    {| Report.layerName := Layer.name layer;
       Report.type := if Layer.is_surface (Layer.type layer)
                      then "Surface Area" else "Linear Length";
       Report.totalValue := toFixed2 total;
       Report.unit := if Layer.is_surface (Layer.type layer)
                      then squareMetres else "m";
       Report.itemCount := List.length layerShapes |}) ls.

(** The report that [handleRunAnalysis] asks the service to comment. *)
Definition analysisReport (st : App) : list Report.entry :=
  reportData (LayerManager.measurementLayers (layers st)) (measurementShapes st).

End Analysis.

(** ** The map link ([handleUrlSubmit]) *)

(** [\d+] at the head of a string: the longest run of digits, and the
    rest.  The quantifier is greedy, and in the pattern below a run of
    digits is followed by [\.], by [,] or by nothing: giving back a
    digit would leave a digit where the point or the comma is wanted,
    so the longest run is the only one that can lead to a match. *)
Fixpoint digitsRun (s : string) : string * string :=
  match s with
  | String c r =>
      if JS.isDigit c
      then let '(d, rest) := digitsRun r in (String c d, rest)
      else (EmptyString, s)
  | EmptyString => (EmptyString, s)
  end.

(** [(-?\d+\.\d+)] at the head of a string: the text of the group, and
    the rest. *)
Definition decimalAt (s : string) : option (string * string) :=
  let '(sign, r) :=
    match s with
    | String c r' => if JS.code c =? 45 then ("-", r') else ("", s)
    | EmptyString => ("", s)
    end in
  match digitsRun r with
  | (EmptyString, _) => None
  | (ip, String c r2) =>
      if JS.code c =? 46 then
        match digitsRun r2 with
        | (EmptyString, _) => None
        | (fp, r3) =>
            Some (String.append sign (String.append ip (String "." fp)), r3)
        end
      else None
  | (_, EmptyString) => None
  end.

(** [@(-?\d+\.\d+),(-?\d+\.\d+)] at the head of a string: the two
    groups. *)
Definition linkAt (s : string) : option (string * string) :=
  match s with
  | String c r =>
      if JS.code c =? 64 then
        match decimalAt r with
        | Some (g1, String c' r') =>
            if JS.code c' =? 44 then
              match decimalAt r' with
              | Some (g2, _) => Some (g1, g2)
              | None => None
              end
            else None
        | _ => None
        end
      else None
  | EmptyString => None
  end.

(** [mapUrl.match(regex)]: the match that starts the furthest to the
    left. *)
Fixpoint matchLink (s : string) : option (string * string) :=
  match linkAt s with
  | Some m => Some m
  | None =>
      match s with
      | String _ r => matchLink r
      | EmptyString => None
      end
  end.

(** "Lien invalide. Utilisez un lien Google Maps contenant des
    coordonnees (ex: @48.85,2.35)." *)
Inductive LinkEffect := alertInvalidLink.

Definition handleUrlSubmit (mapUrl : string) (st : App) : App * list LinkEffect :=
  match matchLink mapUrl with
  | Some (m1, m2) =>
      let lat := JS.parseFloat m1 in
      let lng := JS.parseFloat m2 in
      (setMapCenter (Some {| lat := lat; lng := lng |}) st, [])
  | None => (st, [alertInvalidLink])
  end.

(** ** Vocabulary of the properties of the report, the link and the
       panel *)

(** A non-empty string of digits. *)
Definition digits (s : string) : bool :=
  negb (String.eqb s "") && forallb JS.isDigit (list_ascii_of_string s).

(** The text of a decimal number: sign, integer part, point, fraction. *)
Definition decimal (neg : bool) (ip fp : string) : string :=
  String.append (if neg then "-" else "") (String.append ip (String "." fp)).

(** The string has no ["@"]. *)
Definition noAt (s : string) : bool :=
  forallb (fun c => negb (JS.code c =? 64)) (list_ascii_of_string s).

(** The string starts with a digit. *)
Definition headDigit (s : string) : bool :=
  match s with
  | String c _ => JS.isDigit c
  | EmptyString => false
  end.

(** A link with the coordinates [a] and [b] after the first ["@"]. *)
Definition linkText (pre a b post : string) : string :=
  String.append pre (String "@" (String.append a (String "," (String.append b post)))).

(** The layer that the form of the panel asks for. *)
Definition formLayer (p : LayerManager.t) (newId : string) : Layer.t :=
  {| Layer.id := newId; Layer.name := LayerManager.newLayerName p;
     Layer.type := LayerManager.newLayerType p;
     Layer.category := Layer.measurement;
     Layer.color := LayerManager.newLayerColor p;
     Layer.isVisible := true;
     Layer.opacity := if Layer.is_surface (LayerManager.newLayerType p)
                      then 0.5%float else 1%float |}.

(** ** The style table as the plain object it is *)

(** The names that every object inherits from [Object.prototype]. *)
Definition inheritedKeys : list string :=
  ["constructor"; "hasOwnProperty"; "isPrototypeOf"; "propertyIsEnumerable";
   "toLocaleString"; "toString"; "valueOf"; "__proto__";
   "__defineGetter__"; "__defineSetter__"; "__lookupGetter__";
   "__lookupSetter__"].

(** What [styleMap[key]] finds: a colour written by the import, a
    function or an object that every object inherits, or nothing. *)
Inductive Found :=
| own (colour : string)
| inherited
| missing.

Definition objectRead (m : StyleMap) (key : string) : Found :=
  match styleLookup m key with
  | Some c => own c
  | None => if existsb (String.eqb key) inheritedKeys then inherited else missing
  end.

(** The style reference looked up for a folder: the text of the first
    [styleUrl] below the first placemark of the folder. *)
Definition lookedUp (folder : Node) : option string :=
  match getElementsByTagName "Placemark" folder with
  | first :: _ => firstText "styleUrl" first
  | [] => None
  end.

(** The style references looked up are absent, empty or start with
    ["#"]. *)
Definition hashStyleUrls (xmlDoc : Node) : bool :=
  forallb (fun folder =>
             match lookedUp folder with
             | Some u => String.eqb u "" || JS.startsWith "#" u
             | None => true
             end) (getElementsByTagName "Folder" xmlDoc).

(** A colour as the style sheets write it: ["#"] and six more code
    units. *)
Definition cssColour (s : string) : bool :=
  (String.length s =? 7) && JS.startsWith "#" s.

(** ** The timer of [handleShapeComplete] *)

(** [handleShapeComplete] does not append the shape itself.  It
    measures, then sets a timer of 50 ms; the callback of the timer asks
    for the name and appends the shape.  The callback keeps the active
    layer, the points and the value of the moment the capture was
    finished, whatever is handled before it runs.  The definition of
    [handleShapeComplete] above is the two parts in a row, nothing
    being handled in between. *)
Record Pending := {
  p_layer : Layer.t;
  p_points : list GeoPoint;
  p_value : float
}.

(** The callback: [window.prompt] and, when a name is given,
    [onAddShape(newShape)]. *)
Definition timerCallback (p : Pending) (answer : option string) (newId : string)
    (st : App) : App :=
  let activeLayer := p_layer p in
  let defaultName :=
    if Layer.is_surface (Layer.type activeLayer) then "Surface" else "Longueur" in
  match answer with
  | Some name =>
      let newShape :=
        {| Shape.id := newId;
           Shape.name := or_else (Some name) defaultName;
           Shape.type := if Layer.is_surface (Layer.type activeLayer)
                         then Shape.polygon else Shape.polyline;
           Shape.points := p_points p;
           Shape.layerId := Layer.id activeLayer;
           Shape.measuredValue := p_value p |} in
      handleAddShape newShape st
  | None => st
  end.

(** The application with its timers: the timers set and not yet run,
    the oldest first (they all have the same delay). *)
Record Live := {
  project : App;
  pending : list Pending
}.

(** What happens: an action is handled, a capture is finished, or the
    oldest timer runs. *)
Inductive LiveEvent :=
| does (a : Action)
| finishes (points : list GeoPoint)
| fires (answer : option string) (newId : string).

Section Timer.

Variable turf_area : list (float * float) -> option float.
Variable turf_length : list (float * float) -> option float.
Variable parseFromString : string -> Node.

(** [handleShapeComplete] up to and including [setTimeout]. *)
Definition finishCapture (points : list GeoPoint) (st : App)
    : option Pending * list Effect :=
  match findLayer (activeLayerId st) (layers st) with
  | None => (None, [alert ActiveLayerNotFound])
  | Some activeLayer =>
      let '(measured, effects) :=
        completeMeasure turf_area turf_length (Layer.type activeLayer) points in
      (Some {| p_layer := activeLayer; p_points := points;
               p_value := nanToZero measured |}, effects)
  end.

Definition liveStep (e : LiveEvent) (s : Live) : Live * list Effect :=
  match e with
  | does a =>
      let '(st, effects) := step turf_area turf_length parseFromString a (project s) in
      ({| project := st; pending := pending s |}, effects)
  | finishes points =>
      match finishCapture points (project s) with
      | (Some p, effects) =>
          ({| project := project s; pending := pending s ++ [p] |}, effects)
      | (None, effects) => (s, effects)
      end
  | fires answer newId =>
      match pending s with
      | p :: rest =>
          ({| project := timerCallback p answer newId (project s);
              pending := rest |}, [])
      | [] => (s, [])
      end
  end.

(** What the application can do.  A shape is appended by the callback
    of a timer only, and a capture that is finished is [finishes]
    followed, later, by [fires]; the other actions are as in
    [permitted]. *)
Definition livePermitted (e : LiveEvent) (s : Live) : Prop :=
  match e with
  | does (AddShape _) => False
  | does (ShapeComplete _ _ _) => False
  | does a => permitted a (project s)
  | finishes _ => True
  | fires _ _ => True
  end.

(** No layer is deleted while a timer is pending. *)
Definition unhurried (e : LiveEvent) (s : Live) : Prop :=
  match e with
  | does (DeleteLayer _ true) => pending s = []
  | _ => True
  end.

(** The states reached from the initial one; with [patient], by users
    who delete no layer in the 50 ms that follow a capture. *)
Inductive LiveReachable (patient : bool) : Live -> Prop :=
| live_initial : LiveReachable patient {| project := initialApp; pending := [] |}
| live_step (e : LiveEvent) (s : Live) :
    LiveReachable patient s ->
    livePermitted e s ->
    (patient = true -> unhurried e s) ->
    LiveReachable patient (fst (liveStep e s)).

End Timer.

(** The part of the invariant that reads the layers only. *)
Definition LayersInv (st : App) : Prop :=
  distinctLayers st /\ kindsOK st /\ activeOK st /\ modeOK st.

(** The state without its shapes. *)
Definition forget (st : App) : App := setShapes (fun _ => []) st.

(** The layer of every pending timer is, by its id, a layer of the
    project. *)
Definition pendingOwned (s : Live) : Prop :=
  Forall (fun p => exists l, In l (layers (project s))
                             /\ Layer.id l = Layer.id (p_layer p)) (pending s).

(** A capture in polygon mode on the first layer, named when the timer
    runs. *)
Definition capturedLive : Live :=
  fst (liveStep area1024 halfKm (parserOf emptyDoc) (fires (Some "Toit") "n1")
    (fst (liveStep area1024 halfKm (parserOf emptyDoc) (finishes triangle)
      (fst (liveStep area1024 halfKm (parserOf emptyDoc) (does ClickPolygonTool)
        {| project := initialApp; pending := [] |}))))).

(* ================================================================== *)
(** * Properties *)
(* ================================================================== *)

(** ** The built-ins on some inputs *)

Example parseFloat_numbers :
  JS.parseFloat "2.35" = 2.35%float
  /\ JS.parseFloat "  -48.85e1xyz" = (-488.5)%float
  /\ JS.parseFloat ".5" = 0.5%float
  /\ JS.parseFloat "1e" = 1%float
  /\ JS.parseFloat "3.14159265358979323846264338327950288" = 0x1.921fb54442d18p+1%float
  /\ JS.parseFloat "1e-320" = 0x0.00000000007e8p-1022%float.
Proof. repeat split; vm_compute; reflexivity. Qed.

Example parseFloat_not_finite :
  JS.parseFloat "Infinity" = infinity
  /\ JS.parseFloat "-Infinity" = neg_infinity
  /\ JS.parseFloat "1e400" = infinity
  /\ JS.isNaN (JS.parseFloat "abc") = true
  /\ JS.isNaN (JS.parseFloat "") = true
  /\ JS.isNaN (JS.parseFloat ".") = true
  /\ JS.isNaN (JS.parseFloat "infinity") = true.
Proof. repeat split; vm_compute; reflexivity. Qed.

Example split_examples :
  JS.split_ws "a  b c" = ["a"; "b"; "c"]
  /\ JS.split_ws "" = [""]
  /\ JS.split_ws " a " = [""; "a"; ""]
  /\ JS.split "," "1,2,,3" = ["1"; "2"; ""; "3"]
  /\ JS.split "," "" = [""]
  /\ JS.trim "  a b  " = "a b"
  /\ JS.substring 6 8 "aabbggrr" = "rr"
  /\ JS.toLowerCase "7F00ffAB" = "7f00ffab".
Proof. repeat split; reflexivity. Qed.

Example getElementsByTagName_order :
  map textContent (getElementsByTagName "name"
    (Element "Folder" [] [
       Element "name" [] [Text "a"];
       Element "Placemark" [] [Element "name" [] [Text "b"; Text "c"]];
       Text "x";
       Element "name" [] []]))
  = ["a"; "bc"; ""].
Proof. reflexivity. Qed.

(** ** Shape capture *)

Section CaptureFacts.
Import DrawingManager.

Lemma handleTryFinish_short (mode : ToolMode) (d : t) (n : nat) :
  required mode = Some n -> List.length (points d) < n ->
  handleTryFinish mode d = (d, []).
Proof.
  unfold handleTryFinish.
  destruct mode; cbn [required]; intros Hn Hlt; inversion Hn; subst n;
    cbn [is_draw_polygon is_draw_line andb].
  - destruct (Nat.leb_spec 3 (List.length (points d))); [lia | reflexivity].
  - destruct (Nat.leb_spec 2 (List.length (points d))); [lia | reflexivity].
Qed.

Lemma handleTryFinish_enough (mode : ToolMode) (d : t) (n : nat) :
  required mode = Some n -> n <= List.length (points d) ->
  handleTryFinish mode d =
    ({| points := []; cursorPos := cursorPos d |}, [onFinish (points d)]).
Proof.
  unfold handleTryFinish, setPoints.
  destruct mode; cbn [required]; intros Hn Hle; inversion Hn; subst n;
    cbn [is_draw_polygon is_draw_line andb].
  - destruct (Nat.leb_spec 3 (List.length (points d))); [reflexivity | lia].
  - destruct (Nat.leb_spec 2 (List.length (points d))); [reflexivity | lia].
Qed.

End CaptureFacts.

(** C8. While capturing, finishing with fewer than 3 points in polygon
    mode, or fewer than 2 in line mode, changes nothing and calls
    nothing: the state is the same, with the same points, and neither
    [onFinish] nor any error comes out.  With at least that many points
    the accumulated points are handed to [onFinish] and the capture is
    back to holding no point, as when it starts. *)
Theorem tryFinish_guard (d : DrawingManager.t) :
  (List.length (DrawingManager.points d) < 3 ->
     DrawingManager.handleTryFinish DRAW_POLYGON d = (d, []))
  /\ (List.length (DrawingManager.points d) < 2 ->
     DrawingManager.handleTryFinish DRAW_LINE d = (d, []))
  /\ (3 <= List.length (DrawingManager.points d) ->
     snd (DrawingManager.handleTryFinish DRAW_POLYGON d)
       = [DrawingManager.onFinish (DrawingManager.points d)]
     /\ DrawingManager.points (fst (DrawingManager.handleTryFinish DRAW_POLYGON d))
       = DrawingManager.points DrawingManager.initial)
  /\ (2 <= List.length (DrawingManager.points d) ->
     snd (DrawingManager.handleTryFinish DRAW_LINE d)
       = [DrawingManager.onFinish (DrawingManager.points d)]
     /\ DrawingManager.points (fst (DrawingManager.handleTryFinish DRAW_LINE d))
       = DrawingManager.points DrawingManager.initial).
Proof.
  split; [| split; [| split]]; intros H.
  - now apply handleTryFinish_short with (n := 3).
  - now apply handleTryFinish_short with (n := 2).
  - now rewrite handleTryFinish_enough with (n := 3).
  - now rewrite handleTryFinish_enough with (n := 2).
Qed.

(** Two points captured in polygon mode: nothing happens; a third one
    makes the same request succeed. *)
Lemma tryFinish_guard_witness :
  let two := {| DrawingManager.points := [pt 48.5 2.25; pt 48.5 2.5];
                DrawingManager.cursorPos := None |} in
  let three := {| DrawingManager.points := [pt 48.5 2.25; pt 48.5 2.5; pt 48.75 2.5];
                  DrawingManager.cursorPos := None |} in
  DrawingManager.handleTryFinish DRAW_POLYGON two = (two, [])
  /\ snd (DrawingManager.handleTryFinish DRAW_POLYGON three)
     = [DrawingManager.onFinish [pt 48.5 2.25; pt 48.5 2.5; pt 48.75 2.5]]
  /\ snd (DrawingManager.handleTryFinish DRAW_LINE two)
     = [DrawingManager.onFinish [pt 48.5 2.25; pt 48.5 2.5]].
Proof.
  intros two three.
  split; [| split].
  - apply (proj1 (tryFinish_guard two)). simpl. lia.
  - apply (proj1 (proj1 (proj2 (proj2 (tryFinish_guard three))) ltac:(simpl; lia))).
  - apply (proj1 (proj2 (proj2 (proj2 (tryFinish_guard two))) ltac:(simpl; lia))).
Defined.

(** ** Opacity *)

Lemma nth_error_updateOpacity (id : string) (v : float) (ls : list Layer.t)
    (n : nat) (l : Layer.t) :
  nth_error ls n = Some l ->
  exists l',
    nth_error (layers (handleUpdateOpacity id v
      {| layers := ls; shapes := []; activeLayerId := None;
         selectedShapeId := None; toolMode := SELECT; mapCenter := None |})) n
      = Some l'
    /\ Layer.id l' = Layer.id l /\ Layer.name l' = Layer.name l
    /\ Layer.color l' = Layer.color l /\ Layer.type l' = Layer.type l
    /\ Layer.category l' = Layer.category l
    /\ Layer.isVisible l' = Layer.isVisible l
    /\ Layer.opacity l' = if String.eqb (Layer.id l) id then v else Layer.opacity l.
Proof.
  intros Hn. cbn [handleUpdateOpacity setLayers layers].
  rewrite nth_error_map, Hn. cbn [option_map].
  destruct (String.eqb (Layer.id l) id); eexists; split; try reflexivity;
    cbn; repeat split; reflexivity.
Qed.

(** C6 (as the code has it).  [handleUpdateOpacity id v] stores [v]
    itself, unclamped, as the opacity of every layer whose id is [id],
    and does nothing else: the layer list keeps its length and order,
    the other fields of the layer and the other layers are as before,
    and so are the shapes, the active layer, the selection, the tool
    mode and the map centre. *)
Theorem handleUpdateOpacity_stores_value (id : string) (v : float) (st : App) :
  let st' := handleUpdateOpacity id v st in
  shapes st' = shapes st
  /\ activeLayerId st' = activeLayerId st
  /\ selectedShapeId st' = selectedShapeId st
  /\ toolMode st' = toolMode st
  /\ mapCenter st' = mapCenter st
  /\ List.length (layers st') = List.length (layers st)
  /\ forall n l, nth_error (layers st) n = Some l ->
       exists l', nth_error (layers st') n = Some l'
         /\ Layer.id l' = Layer.id l /\ Layer.name l' = Layer.name l
         /\ Layer.color l' = Layer.color l /\ Layer.type l' = Layer.type l
         /\ Layer.category l' = Layer.category l
         /\ Layer.isVisible l' = Layer.isVisible l
         /\ Layer.opacity l' = if String.eqb (Layer.id l) id then v
                               else Layer.opacity l.
Proof.
  cbn zeta. repeat (split; [reflexivity |]).
  split.
  - cbn [handleUpdateOpacity setLayers layers]. apply length_map.
  - intros n l Hn.
    destruct (nth_error_updateOpacity id v (layers st) n l Hn) as [l' H].
    exists l'. exact H.
Qed.

(** C6, the claim refuted: asked to set the opacity of the first layer
    to 2, the handler stores 2, which is not in [0,1]; clamping would
    have stored 1. *)
Lemma handleUpdateOpacity_not_clamped :
  map Layer.opacity (layers (handleUpdateOpacity "1" 2%float initialApp)) = [2%float]
  /\ clamp01 2%float = 1%float
  /\ PrimFloat.eqb 2%float (clamp01 2%float) = false
  /\ PrimFloat.leb 2%float 1%float = false.
Proof. repeat split; reflexivity. Qed.

(** ** Colours *)

Lemma hexDigit_not_space (c : ascii) :
  JS.isHexDigit c = true -> JS.isWhiteSpace c = false.
Proof.
  destruct c as [[] [] [] [] [] [] [] []]; vm_compute; congruence.
Qed.

Lemma kmlColorToHex_8 (a1 a2 b1 b2 g1 g2 r1 r2 : ascii) :
  JS.isWhiteSpace a1 = false -> JS.isWhiteSpace r2 = false ->
  kmlColorToHex (Some (String.append (str2 a1 a2) (String.append (str2 b1 b2)
                        (String.append (str2 g1 g2) (str2 r1 r2)))))
  = String.append "#" (String.append (lower2 r1 r2)
                        (String.append (lower2 g1 g2) (lower2 b1 b2))).
Proof.
  intros Ha Hr.
  unfold kmlColorToHex, JS.trim, str2, lower2.
  cbn [String.append truthy or_else String.eqb negb JS.trimStart].
  rewrite Ha.
  cbn [JS.trimEnd]. rewrite Hr. reflexivity.
Qed.

Lemma kmlColorToHex_6 (b1 b2 g1 g2 r1 r2 : ascii) :
  JS.isWhiteSpace b1 = false -> JS.isWhiteSpace r2 = false ->
  kmlColorToHex (Some (String.append (str2 b1 b2)
                        (String.append (str2 g1 g2) (str2 r1 r2))))
  = String.append "#" (String.append (lower2 r1 r2)
                        (String.append (lower2 g1 g2) (lower2 b1 b2))).
Proof.
  intros Hb Hr.
  unfold kmlColorToHex, JS.trim, str2, lower2.
  cbn [String.append truthy or_else String.eqb negb JS.trimStart].
  rewrite Hb.
  cbn [JS.trimEnd]. rewrite Hr. reflexivity.
Qed.

Lemma kmlColorToHex_other (k : string) :
  String.length (JS.toLowerCase (JS.trim k)) <> 8 ->
  String.length (JS.toLowerCase (JS.trim k)) <> 6 ->
  kmlColorToHex (Some k) = gray.
Proof.
  intros H8 H6. unfold kmlColorToHex.
  destruct (negb (truthy (Some k))); [reflexivity |].
  cbn [or_else].
  assert (E : (if String.eqb k "" then "" else k) = k).
  { destruct (String.eqb_spec k ""); congruence. }
  rewrite E.
  destruct (Nat.eqb_spec (String.length (JS.toLowerCase (JS.trim k))) 8);
    [contradiction |].
  destruct (Nat.eqb_spec (String.length (JS.toLowerCase (JS.trim k))) 6);
    [contradiction |].
  reflexivity.
Qed.

Lemma kmlColorToHex_clean (k : string) :
  JS.toLowerCase (JS.trim k) <> "" ->
  kmlColorToHex (Some k)
  = let clean := JS.toLowerCase (JS.trim k) in
    if String.length clean =? 8 then
      String.append "#" (String.append (JS.substring 6 8 clean)
        (String.append (JS.substring 4 6 clean) (JS.substring 2 4 clean)))
    else if String.length clean =? 6 then
      String.append "#" (String.append (JS.substring 4 6 clean)
        (String.append (JS.substring 2 4 clean) (JS.substring 0 2 clean)))
    else gray.
Proof.
  intros Hne. destruct k as [| c r]; [now contradiction Hne |]. reflexivity.
Qed.

(** C9 (as the code has it).  The value is trimmed and lower-cased,
    and then only its length is looked at.  With eight code units
    [c1 ... c8] the colour is ["#"] followed by [c7 c8 c5 c6 c3 c4]:
    the first two are dropped and the three pairs that follow are
    reversed, whatever the characters are.  With six code units it is
    ["#"] followed by [c5 c6 c3 c4 c1 c2].  So eight hexadecimal digits
    [aabbggrr] become ["#rrggbb"] in lower case, and six hexadecimal
    digits [bbggrr] as well.  An absent or empty value, and any value
    that has neither 8 nor 6 code units once trimmed and lower-cased,
    gives the gray ["#9ca3af"]. *)
Theorem kmlColorToHex_cases :
  (forall (k : string) (c1 c2 c3 c4 c5 c6 c7 c8 : ascii),
      JS.toLowerCase (JS.trim k)
      = String.append (str2 c1 c2) (String.append (str2 c3 c4)
          (String.append (str2 c5 c6) (str2 c7 c8))) ->
      kmlColorToHex (Some k)
      = String.append "#" (String.append (str2 c7 c8)
                            (String.append (str2 c5 c6) (str2 c3 c4))))
  /\ (forall (k : string) (c1 c2 c3 c4 c5 c6 : ascii),
      JS.toLowerCase (JS.trim k)
      = String.append (str2 c1 c2) (String.append (str2 c3 c4) (str2 c5 c6)) ->
      kmlColorToHex (Some k)
      = String.append "#" (String.append (str2 c5 c6)
                            (String.append (str2 c3 c4) (str2 c1 c2))))
  /\ (forall a1 a2 b1 b2 g1 g2 r1 r2 : ascii,
      forallb JS.isHexDigit [a1; a2; b1; b2; g1; g2; r1; r2] = true ->
      kmlColorToHex (Some (String.append (str2 a1 a2) (String.append (str2 b1 b2)
                            (String.append (str2 g1 g2) (str2 r1 r2)))))
      = String.append "#" (String.append (lower2 r1 r2)
                            (String.append (lower2 g1 g2) (lower2 b1 b2))))
  /\ (forall b1 b2 g1 g2 r1 r2 : ascii,
      forallb JS.isHexDigit [b1; b2; g1; g2; r1; r2] = true ->
      kmlColorToHex (Some (String.append (str2 b1 b2)
                            (String.append (str2 g1 g2) (str2 r1 r2))))
      = String.append "#" (String.append (lower2 r1 r2)
                            (String.append (lower2 g1 g2) (lower2 b1 b2))))
  /\ kmlColorToHex None = "#9ca3af"
  /\ kmlColorToHex (Some "") = "#9ca3af"
  /\ (forall k : string,
      String.length (JS.toLowerCase (JS.trim k)) <> 8 ->
      String.length (JS.toLowerCase (JS.trim k)) <> 6 ->
      kmlColorToHex (Some k) = "#9ca3af").
Proof.
  split; [| split; [| split; [| split; [| split; [| split]]]]].
  - intros k c1 c2 c3 c4 c5 c6 c7 c8 H.
    rewrite kmlColorToHex_clean; [| rewrite H; discriminate].
    cbn zeta. rewrite H. reflexivity.
  - intros k c1 c2 c3 c4 c5 c6 H.
    rewrite kmlColorToHex_clean; [| rewrite H; discriminate].
    cbn zeta. rewrite H. reflexivity.
  - intros a1 a2 b1 b2 g1 g2 r1 r2 H. cbn [forallb] in H.
    repeat (apply andb_prop in H; destruct H as [? H]).
    apply kmlColorToHex_8; now apply hexDigit_not_space.
  - intros b1 b2 g1 g2 r1 r2 H. cbn [forallb] in H.
    repeat (apply andb_prop in H; destruct H as [? H]).
    apply kmlColorToHex_6; now apply hexDigit_not_space.
  - reflexivity.
  - reflexivity.
  - exact kmlColorToHex_other.
Qed.

(** The cases on values a document can hold: digits in both cases of
    letters, a value with white space around it and letters that are
    no digits, and a value of five characters. *)
Lemma kmlColorToHex_cases_witness :
  kmlColorToHex (Some "7F0000ff") = "#ff0000"
  /\ kmlColorToHex (Some "00ff00") = "#00ff00"
  /\ kmlColorToHex (Some " GGhhIIjj ") = "#jjiihh"
  /\ kmlColorToHex (Some "12345") = "#9ca3af".
Proof.
  destruct kmlColorToHex_cases as (H1 & _ & H3 & H4 & _ & _ & H7).
  split; [| split; [| split]].
  - exact (H3 "7" "F" "0" "0" "0" "0" "f" "f" eq_refl)%char.
  - exact (H4 "0" "0" "f" "f" "0" "0" eq_refl)%char.
  - exact (H1 " GGhhIIjj " "g"%char "g"%char "h"%char "h"%char
              "i"%char "i"%char "j"%char "j"%char eq_refl).
  - apply H7; vm_compute; discriminate.
Defined.

(** C9, the claim refuted: a malformed value of eight characters that
    are not hexadecimal digits is converted like any other instead of
    giving the gray. *)
Lemma kmlColorToHex_malformed_not_gray :
  kmlColorToHex (Some "zzzzzzzz") = "#zzzzzz"
  /\ String.eqb (kmlColorToHex (Some "zzzzzzzz")) "#9ca3af" = false.
Proof. repeat split; reflexivity. Qed.

(** ** Conversion *)

Lemma findShape_some (id : string) (ss : list Shape.t) (s : Shape.t) :
  findShape id ss = Some s -> In s ss /\ Shape.id s = id.
Proof.
  intros H. apply find_some in H. destruct H as [Hin He].
  split; [exact Hin | now apply String.eqb_eq].
Qed.

Lemma findShape_none (id : string) (ss : list Shape.t) :
  findShape id ss = None <-> forall s, In s ss -> Shape.id s <> id.
Proof.
  split.
  - intros H s Hin He.
    pose proof (find_none _ _ H s Hin) as Hf. cbn in Hf.
    apply String.eqb_neq in Hf. contradiction.
  - intros H. unfold findShape.
    induction ss as [| x r IH]; [reflexivity |].
    cbn [find]. destruct (String.eqb_spec (Shape.id x) id) as [E | _].
    + exfalso. apply (H x); [now left | exact E].
    + apply IH. intros s Hs. apply H. now right.
Qed.

Lemma findShape_filtered (id : string) (ss : list Shape.t) :
  findShape id (filter (otherId id) ss) = None.
Proof.
  apply findShape_none. intros s Hin He.
  apply filter_In in Hin. destruct Hin as [_ Hb].
  unfold otherId in Hb. apply negb_true_iff, String.eqb_neq in Hb. contradiction.
Qed.

Lemma findShape_app_last (id : string) (ss : list Shape.t) (s : Shape.t) :
  findShape id ss = None -> Shape.id s = id -> findShape id (ss ++ [s]) = Some s.
Proof.
  unfold findShape. intros Hn He.
  induction ss as [| x r IH]; cbn [find app].
  - now rewrite He, String.eqb_refl.
  - cbn [find] in Hn. destruct (String.eqb (Shape.id x) id); [discriminate |].
    now apply IH.
Qed.

Lemma freshId_spec (id : string) (ss : list Shape.t) :
  freshId id ss = true -> forall s, In s ss -> Shape.id s <> id.
Proof.
  unfold freshId. rewrite forallb_forall. intros H s Hin.
  specialize (H s Hin). unfold otherId in H.
  now apply negb_true_iff, String.eqb_neq in H.
Qed.

Section ConversionFacts.

Variable turf_area : list (float * float) -> option float.
Variable turf_length : list (float * float) -> option float.

Local Abbreviation convert := (handleConvertShape turf_area turf_length).
Local Abbreviation measure := (convertMeasure turf_area turf_length).
Local Abbreviation converted := (convertedShape turf_area turf_length).

Lemma convert_done (shapeId newId : string) (st : App) (s : Shape.t) (L : Layer.t) :
  findShape shapeId (shapes st) = Some s ->
  findLayer (activeLayerId st) (layers st) = Some L ->
  Layer.is_measurement (Layer.category L) = true ->
  convert shapeId true newId st
  = (setSelectedShapeId (Some newId)
       (setShapes (fun prev => filter (otherId shapeId) prev ++ [converted s L newId]) st),
     snd (measure (coerceType (Shape.type s) (Layer.type L)) s)).
Proof.
  intros Hs HL Hm. unfold handleConvertShape.
  rewrite Hs, HL, Hm. reflexivity.
Qed.

Lemma convert_declined (shapeId newId : string) (st : App) :
  fst (convert shapeId false newId st) = st.
Proof.
  unfold handleConvertShape.
  destruct (findShape shapeId (shapes st)); [| reflexivity].
  destruct (findLayer (activeLayerId st) (layers st)) as [l |]; [| reflexivity].
  destruct (negb (Layer.is_measurement (Layer.category l))); reflexivity.
Qed.

Lemma convert_invalid (shapeId newId : string) (confirm : bool) (st : App) :
  validTarget st = false ->
  fst (convert shapeId confirm newId st) = st
  /\ forall s, findShape shapeId (shapes st) = Some s ->
       snd (convert shapeId confirm newId st) = [alert InvalidTargetLayer].
Proof.
  unfold validTarget, handleConvertShape. intros Hv.
  destruct (findShape shapeId (shapes st)) as [s |].
  - destruct (findLayer (activeLayerId st) (layers st)) as [l |].
    + rewrite Hv. cbn. split; [reflexivity | intros; reflexivity].
    + cbn. split; [reflexivity | intros; reflexivity].
  - split; [reflexivity | intros; discriminate].
Qed.

(** What the new shape is. *)
Lemma converted_fields (s : Shape.t) (L : Layer.t) (newId : string) :
  Shape.id (converted s L newId) = newId
  /\ Shape.points (converted s L newId) = Shape.points s
  /\ Shape.layerId (converted s L newId) = Layer.id L
  /\ Shape.type (converted s L newId) = coerceType (Shape.type s) (Layer.type L)
  /\ Shape.name (converted s L newId)
     = (if String.eqb (Shape.name s) "Sans nom"
        then String.append "Import " (Layer.name L) else Shape.name s)
  /\ Shape.measuredValue (converted s L newId)
     = fst (measure (coerceType (Shape.type s) (Layer.type L)) s).
Proof. repeat split; reflexivity. Qed.

Lemma coerceType_forced (k : Shape.kind) :
  coerceType k Layer.surface = Shape.polygon
  /\ coerceType k Layer.length = Shape.polyline
  /\ coerceType k Layer.mixed = k.
Proof. repeat split; reflexivity. Qed.

End ConversionFacts.

Section ConversionClaims.

Variable turf_area : list (float * float) -> option float.
Variable turf_length : list (float * float) -> option float.

Local Abbreviation convert := (handleConvertShape turf_area turf_length).
Local Abbreviation measure := (convertMeasure turf_area turf_length).
Local Abbreviation converted := (convertedShape turf_area turf_length).

Lemma setActive_existing (yId : string) (Y : Layer.t) (st : App) :
  findLayer (Some yId) (layers st) = Some Y ->
  layers (handleSetActiveLayer yId st) = layers st
  /\ shapes (handleSetActiveLayer yId st) = shapes st
  /\ activeLayerId (handleSetActiveLayer yId st) = Some yId
  /\ selectedShapeId (handleSetActiveLayer yId st) = None.
Proof.
  intros H. unfold handleSetActiveLayer. rewrite H. repeat split; reflexivity.
Qed.

Lemma findShape_fresh_filtered (id other : string) (ss : list Shape.t) :
  freshId id ss = true -> findShape id (filter (otherId other) ss) = None.
Proof.
  intros Hf. apply findShape_none. intros s Hin.
  apply filter_In in Hin. destruct Hin as [Hin _].
  now apply (freshId_spec id ss Hf).
Qed.

(** Two conversions in a row: the shape made by the first is converted
    again after another measurement layer was made active. *)
Lemma convert_twice (shapeId newId1 newId2 yId : string) (st : App)
    (s : Shape.t) (X Y : Layer.t) :
  findShape shapeId (shapes st) = Some s ->
  findLayer (activeLayerId st) (layers st) = Some X ->
  Layer.is_measurement (Layer.category X) = true ->
  freshId newId1 (shapes st) = true ->
  findLayer (Some yId) (layers st) = Some Y ->
  Layer.is_measurement (Layer.category Y) = true ->
  let st1 := fst (convert shapeId true newId1 st) in
  let st2 := handleSetActiveLayer yId st1 in
  let st3 := fst (convert newId1 true newId2 st2) in
  exists s1 s2,
    shapes st1 = filter (otherId shapeId) (shapes st) ++ [s1]
    /\ shapes st3 = filter (otherId newId1) (shapes st1) ++ [s2]
    /\ Shape.type s2 = coerceType (Shape.type s1) (Layer.type Y)
    /\ Shape.points s2 = Shape.points s
    /\ Shape.layerId s2 = Layer.id Y.
Proof.
  intros Hs HX HmX Hfresh HY HmY st1 st2 st3.
  exists (converted s X newId1).
  assert (E1 : shapes st1 = filter (otherId shapeId) (shapes st) ++ [converted s X newId1]).
  { unfold st1. now rewrite (convert_done _ _ shapeId newId1 st s X Hs HX HmX). }
  assert (L1 : layers st1 = layers st).
  { unfold st1. now rewrite (convert_done _ _ shapeId newId1 st s X Hs HX HmX). }
  assert (HY1 : findLayer (Some yId) (layers st1) = Some Y) by now rewrite L1.
  destruct (setActive_existing yId Y st1 HY1) as (L2 & S2 & A2 & _).
  fold st2 in L2, S2, A2.
  assert (Hs2 : findShape newId1 (shapes st2) = Some (converted s X newId1)).
  { rewrite S2, E1. apply findShape_app_last; [| reflexivity].
    now apply findShape_fresh_filtered. }
  assert (HY2 : findLayer (activeLayerId st2) (layers st2) = Some Y).
  { now rewrite A2, L2. }
  exists (converted (converted s X newId1) Y newId2).
  split; [exact E1 |]. split.
  - unfold st3.
    rewrite (convert_done _ _ newId1 newId2 st2 _ Y Hs2 HY2 HmY).
    cbn [fst setSelectedShapeId setShapes shapes]. now rewrite S2.
  - repeat split; reflexivity.
Qed.

(** C4. When the target of a conversion (the active layer) does not
    exist or is not a measurement layer, nothing is written: the state
    after the call is the state before it, so the layers, the shapes,
    the active layer and the selection are unchanged, whatever the
    answer to the dialog would be; and for a shape of the project the
    call ends with the invalid-target alert.  (For an id that names no
    shape the handler returns before it looks at the target, without
    an alert; the tool bar offers the conversion for existing shapes
    only.) *)
Theorem convert_invalid_target (shapeId newId : string) (confirm : bool) (st : App) :
  (findLayer (activeLayerId st) (layers st) = None
   \/ exists L, findLayer (activeLayerId st) (layers st) = Some L
                /\ Layer.category L <> Layer.measurement) ->
  fst (convert shapeId confirm newId st) = st
  /\ layers (fst (convert shapeId confirm newId st)) = layers st
  /\ shapes (fst (convert shapeId confirm newId st)) = shapes st
  /\ activeLayerId (fst (convert shapeId confirm newId st)) = activeLayerId st
  /\ selectedShapeId (fst (convert shapeId confirm newId st)) = selectedShapeId st
  /\ (forall s, findShape shapeId (shapes st) = Some s ->
        snd (convert shapeId confirm newId st) = [alert InvalidTargetLayer]).
Proof.
  intros H.
  assert (Hv : validTarget st = false).
  { unfold validTarget. destruct H as [-> | (L & -> & HL)]; [reflexivity |].
    destruct (Layer.category L); [contradiction | reflexivity]. }
  destruct (convert_invalid turf_area turf_length shapeId newId confirm st Hv) as [E A].
  rewrite E. repeat split; try reflexivity. exact A.
Qed.

(** C2. A shape [s] of the project is converted to a measurement layer
    [L] (the active one), the dialog being confirmed and [generateId()]
    returning an id no shape has.  Then the shapes are the former ones
    without [s] (none with its id is left), followed by one new shape;
    the new shape is the only one with the new id, has the points of
    [s], belongs to [L], is a polygon when [L] is a surface layer and a
    polyline when [L] is a length layer, whatever [s] was, and is named
    "Import " followed by the name of [L] when [s] was named
    "Sans nom", and like [s] otherwise.  Converting the new shape again
    to a measurement layer [Y] gives a shape of the kind of [Y]. *)
Theorem convert_moves_retypes_renames (shapeId newId : string) (st : App)
    (s : Shape.t) (L : Layer.t) :
  findShape shapeId (shapes st) = Some s ->
  findLayer (activeLayerId st) (layers st) = Some L ->
  Layer.category L = Layer.measurement ->
  freshId newId (shapes st) = true ->
  let st' := fst (convert shapeId true newId st) in
  (exists new,
    shapes st' = filter (otherId shapeId) (shapes st) ++ [new]
    /\ ~ In s (shapes st')
    /\ findShape shapeId (shapes st') = None
    /\ (forall x, In x (shapes st') -> Shape.id x = newId -> x = new)
    /\ Shape.id new = newId
    /\ Shape.points new = Shape.points s
    /\ Shape.layerId new = Layer.id L
    /\ (Layer.type L = Layer.surface -> Shape.type new = Shape.polygon)
    /\ (Layer.type L = Layer.length -> Shape.type new = Shape.polyline)
    /\ (Shape.name s = "Sans nom" ->
          Shape.name new = String.append "Import " (Layer.name L))
    /\ (Shape.name s <> "Sans nom" -> Shape.name new = Shape.name s))
  /\ layers st' = layers st
  /\ (forall (yId newId2 : string) (Y : Layer.t),
        findLayer (Some yId) (layers st) = Some Y ->
        Layer.category Y = Layer.measurement ->
        let st3 := fst (convert newId true newId2 (handleSetActiveLayer yId st')) in
        exists s2,
          shapes st3 = filter (otherId newId) (shapes st') ++ [s2]
          /\ Shape.points s2 = Shape.points s
          /\ (Layer.type Y = Layer.surface -> Shape.type s2 = Shape.polygon)
          /\ (Layer.type Y = Layer.length -> Shape.type s2 = Shape.polyline)).
Proof.
  intros Hs HL Hcat Hfresh st'.
  assert (Hm : Layer.is_measurement (Layer.category L) = true) by now rewrite Hcat.
  destruct (findShape_some _ _ _ Hs) as [Hin Hid].
  assert (Hne : shapeId <> newId).
  { intros E. apply (freshId_spec newId _ Hfresh s Hin). congruence. }
  assert (E : shapes st' = filter (otherId shapeId) (shapes st) ++ [converted s L newId]).
  { unfold st'. now rewrite (convert_done _ _ shapeId newId st s L Hs HL Hm). }
  split; [| split].
  - exists (converted s L newId).
    split; [exact E |]. rewrite E.
    split; [| split; [| split]].
    + intros Hin'. apply in_app_or in Hin'. destruct Hin' as [Hf | [Hn | []]].
      * apply filter_In in Hf. destruct Hf as [_ Hb]. unfold otherId in Hb.
        rewrite Hid, String.eqb_refl in Hb. discriminate.
      * apply Hne. rewrite <- Hid, <- Hn. reflexivity.
    + apply findShape_none. intros x Hx Hxid.
      apply in_app_or in Hx. destruct Hx as [Hf | [Hn | []]].
      * apply filter_In in Hf. destruct Hf as [_ Hb]. unfold otherId in Hb.
        rewrite Hxid, String.eqb_refl in Hb. discriminate.
      * apply Hne. rewrite <- Hxid, <- Hn. reflexivity.
    + intros x Hx Hxid. apply in_app_or in Hx. destruct Hx as [Hf | [Hn | []]].
      * apply filter_In in Hf. destruct Hf as [Hf _].
        exfalso. now apply (freshId_spec newId _ Hfresh x Hf).
      * now symmetry.
    + destruct (converted_fields turf_area turf_length s L newId)
        as (F1 & F2 & F3 & F4 & F5 & _).
      split; [exact F1 |]. split; [exact F2 |]. split; [exact F3 |].
      split; [| split; [| split]].
      * intros Ht. rewrite F4, Ht. reflexivity.
      * intros Ht. rewrite F4, Ht. reflexivity.
      * intros Hn. rewrite F5, Hn. reflexivity.
      * intros Hn. rewrite F5.
        destruct (String.eqb_spec (Shape.name s) "Sans nom"); [contradiction | reflexivity].
  - unfold st'. now rewrite (convert_done _ _ shapeId newId st s L Hs HL Hm).
  - intros yId newId2 Y HY HcatY st3.
    assert (HmY : Layer.is_measurement (Layer.category Y) = true) by now rewrite HcatY.
    destruct (convert_twice shapeId newId newId2 yId st s L Y Hs HL Hm Hfresh HY HmY)
      as (s1 & s2 & E1 & E3 & T & P & _).
    exists s2. fold st' in E1, E3. fold st3 in E3.
    split; [exact E3 |]. split; [exact P |].
    split; intros Ht; rewrite T, Ht; reflexivity.
Qed.

Lemma closeRing_as_code (pts : list GeoPoint) :
  match pts with first :: _ => pts ++ [first] | [] => [] end = closeRing pts.
Proof. destruct pts; reflexivity. Qed.

Lemma measure_polygon (s : Shape.t) :
  let ring := map (fun p => (lng p, lat p)) (closeRing (Shape.points s)) in
  (List.length ring < 4 -> fst (measure Shape.polygon s) = 0%float)
  /\ (4 <= List.length ring -> forall a, turf_area ring = Some a ->
        fst (measure Shape.polygon s) = a)
  /\ (4 <= List.length ring -> turf_area ring = None ->
        fst (measure Shape.polygon s) = 0%float).
Proof.
  intros ring. unfold convertMeasure. rewrite closeRing_as_code.
  change (map toPosition (closeRing (Shape.points s))) with ring.
  destruct (Nat.leb_spec 4 (List.length ring)) as [Hge | Hlt].
  - split; [lia |]. split.
    + intros _ a Ha. now rewrite Ha.
    + intros _ Hn. now rewrite Hn.
  - split; [reflexivity |]. split; intros; lia.
Qed.

Lemma measure_polyline (s : Shape.t) :
  let line := map (fun p => (lng p, lat p)) (Shape.points s) in
  (List.length line < 2 -> fst (measure Shape.polyline s) = 0%float)
  /\ (2 <= List.length line -> forall km, turf_length line = Some km ->
        fst (measure Shape.polyline s) = PrimFloat.mul km 1000%float)
  /\ (2 <= List.length line -> turf_length line = None ->
        fst (measure Shape.polyline s) = 0%float).
Proof.
  intros line. unfold convertMeasure.
  change (map toPosition (Shape.points s)) with line.
  destruct (Nat.leb_spec 2 (List.length line)) as [Hge | Hlt].
  - split; [lia |]. split.
    + intros _ km Hk. now rewrite Hk.
    + intros _ Hn. now rewrite Hn.
  - split; [reflexivity |]. split; intros; lia.
Qed.

(** C3. In a conversion (same setting as C2) the value of the new shape
    is computed for the kind forced by the target layer, from the
    points of the shape, each handed to the library as the pair of its
    longitude and its latitude, in that order.  For a polygon the ring
    is the points followed by the first of them; with fewer than 4
    positions in the ring the value is 0, and the new shape is made all
    the same; otherwise it is what turf gives as the area of the ring.
    For a polyline, with fewer than 2 points the value is 0; otherwise
    it is what turf gives as the length in kilometres, times 1000.
    When the turf call throws, the value is 0 as well. *)
Theorem convert_remeasures (shapeId newId : string) (st : App)
    (s : Shape.t) (L : Layer.t) :
  findShape shapeId (shapes st) = Some s ->
  findLayer (activeLayerId st) (layers st) = Some L ->
  Layer.category L = Layer.measurement ->
  exists new,
    shapes (fst (convert shapeId true newId st))
      = filter (otherId shapeId) (shapes st) ++ [new]
    /\ Shape.type new = coerceType (Shape.type s) (Layer.type L)
    /\ (Shape.type new = Shape.polygon ->
          let ring := map (fun p => (lng p, lat p)) (closeRing (Shape.points s)) in
          (List.length ring < 4 -> Shape.measuredValue new = 0%float)
          /\ (4 <= List.length ring -> forall a, turf_area ring = Some a ->
                Shape.measuredValue new = a)
          /\ (4 <= List.length ring -> turf_area ring = None ->
                Shape.measuredValue new = 0%float))
    /\ (Shape.type new = Shape.polyline ->
          let line := map (fun p => (lng p, lat p)) (Shape.points s) in
          (List.length line < 2 -> Shape.measuredValue new = 0%float)
          /\ (2 <= List.length line -> forall km, turf_length line = Some km ->
                Shape.measuredValue new = PrimFloat.mul km 1000%float)
          /\ (2 <= List.length line -> turf_length line = None ->
                Shape.measuredValue new = 0%float)).
Proof.
  intros Hs HL Hcat.
  assert (Hm : Layer.is_measurement (Layer.category L) = true) by now rewrite Hcat.
  exists (converted s L newId).
  rewrite (convert_done _ _ shapeId newId st s L Hs HL Hm).
  split; [reflexivity |]. split; [reflexivity |].
  destruct (converted_fields turf_area turf_length s L newId)
    as (_ & _ & _ & F4 & _ & F6).
  rewrite F4, F6. split; intros Ht; rewrite Ht.
  - apply measure_polygon.
  - apply measure_polyline.
Qed.

End ConversionClaims.

(** ** A small project to run the handlers on *)

(** The imported layer made active: not a target for a conversion. *)
Lemma convert_invalid_target_witness :
  handleConvertShape area1024 halfKm "s1" true "n1"
    (setActiveLayerId (Some "k1") demoApp)
  = (setActiveLayerId (Some "k1") demoApp, [alert InvalidTargetLayer]).
Proof.
  assert (H : findLayer (activeLayerId (setActiveLayerId (Some "k1") demoApp))
                (layers (setActiveLayerId (Some "k1") demoApp)) = None
              \/ exists L,
                findLayer (activeLayerId (setActiveLayerId (Some "k1") demoApp))
                  (layers (setActiveLayerId (Some "k1") demoApp)) = Some L
                /\ Layer.category L <> Layer.measurement).
  { right. exists parcelsLayer. split; [reflexivity | discriminate]. }
  destruct (convert_invalid_target area1024 halfKm "s1" "n1" true
              (setActiveLayerId (Some "k1") demoApp) H)
    as (E & _ & _ & _ & _ & A).
  rewrite (surjective_pairing (handleConvertShape _ _ _ _ _ _)).
  rewrite E, (A parcel eq_refl). reflexivity.
Defined.

Lemma demo_shape : findShape "s1" (shapes demoApp) = Some parcel.
Proof. reflexivity. Qed.

Lemma demo_target : findLayer (activeLayerId demoApp) (layers demoApp) = Some wallsLayer.
Proof. reflexivity. Qed.

Lemma demo_fresh : freshId "n1" (shapes demoApp) = true.
Proof. reflexivity. Qed.

Lemma demo_fences : findLayer (Some "2") (layers demoApp) = Some fencesLayer.
Proof. reflexivity. Qed.

(** The unnamed polyline of the imported layer converted to the surface
    layer "Murs", then to the length layer "Clotures". *)
Lemma convert_moves_retypes_renames_witness :
  (exists new,
     shapes (fst (handleConvertShape area1024 halfKm "s1" true "n1" demoApp)) = [new]
     /\ Shape.id new = "n1" /\ Shape.type new = Shape.polygon
     /\ Shape.name new = "Import Murs" /\ Shape.layerId new = "1"
     /\ Shape.points new = triangle)
  /\ (exists s2,
     shapes (fst (handleConvertShape area1024 halfKm "n1" true "n2"
       (handleSetActiveLayer "2"
          (fst (handleConvertShape area1024 halfKm "s1" true "n1" demoApp))))) = [s2]
     /\ Shape.type s2 = Shape.polyline).
Proof.
  destruct (convert_moves_retypes_renames area1024 halfKm "s1" "n1" demoApp
              parcel wallsLayer demo_shape demo_target eq_refl demo_fresh)
    as ((new & E & _ & _ & _ & Hid & Hp & Hl & Hsurf & _ & Hname & _) & _ & Htwice).
  split.
  - exists new. split; [exact E |]. split; [exact Hid |].
    split; [exact (Hsurf eq_refl) |]. split; [exact (Hname eq_refl) |].
    split; [exact Hl | exact Hp].
  - destruct (Htwice "2" "n2" fencesLayer demo_fences eq_refl)
      as (s2 & E2 & _ & _ & Hlen).
    exists s2. split; [| exact (Hlen eq_refl)].
    rewrite E2. reflexivity.
Defined.

(** The same conversion, with a library that answers the sum of the
    first coordinates of the positions it is handed.  To the surface
    layer "Murs": the ring of the triangle has 4 positions, the three
    longitudes and the first of them again, 2.25 + 2.5 + 2.5 + 2.25.
    To the length layer "Clotures": the three longitudes, 7.25
    kilometres. *)
Lemma convert_remeasures_witness :
  (exists new,
     shapes (fst (handleConvertShape sumOfFirst sumOfFirst "s1" true "n1" demoApp))
       = [new]
     /\ Shape.measuredValue new = 9.5%float)
  /\ (exists new,
       shapes (fst (handleConvertShape sumOfFirst sumOfFirst "s1" true "n1"
                      (setActiveLayerId (Some "2") demoApp))) = [new]
       /\ Shape.measuredValue new = 7250%float).
Proof.
  split.
  - destruct (convert_remeasures sumOfFirst sumOfFirst "s1" "n1" demoApp
                parcel wallsLayer demo_shape demo_target eq_refl)
      as (new & E & T & Hpoly & _).
    exists new. split; [exact E |].
    destruct (Hpoly T) as (_ & Harea & _).
    apply Harea; [cbn; lia | reflexivity].
  - destruct (convert_remeasures sumOfFirst sumOfFirst "s1" "n1"
                (setActiveLayerId (Some "2") demoApp)
                parcel fencesLayer demo_shape demo_fences eq_refl)
      as (new & E & T & _ & Hline).
    exists new. split; [exact E |].
    destruct (Hline T) as (_ & Hlen & _).
    rewrite (Hlen ltac:(cbn; lia) 7.25%float eq_refl). reflexivity.
Defined.

(** ** Finishing a capture *)

Lemma nanToZero_not_NaN (v : float) : JS.isNaN (nanToZero v) = false.
Proof.
  unfold nanToZero. destruct (JS.isNaN v) eqn:E; [reflexivity | exact E].
Qed.

Section CompletionClaims.

Variable turf_area : list (float * float) -> option float.
Variable turf_length : list (float * float) -> option float.

Local Abbreviation complete := (handleShapeComplete turf_area turf_length).
Local Abbreviation measured := (completeMeasure turf_area turf_length).

Lemma complete_named (pts : list GeoPoint) (name newId : string) (st : App)
    (al : Layer.t) :
  findLayer (activeLayerId st) (layers st) = Some al ->
  exists new,
    complete pts (Some name) newId st
      = (handleAddShape new st, snd (measured (Layer.type al) pts))
    /\ Shape.id new = newId
    /\ Shape.points new = pts
    /\ Shape.layerId new = Layer.id al
    /\ Shape.measuredValue new = nanToZero (fst (measured (Layer.type al) pts)).
Proof.
  intros H. unfold handleShapeComplete. rewrite H.
  destruct (completeMeasure turf_area turf_length (Layer.type al) pts) as [m e].
  eexists. split; [reflexivity |]. repeat split; reflexivity.
Qed.

Lemma measured_cases (k : Layer.kind) (pts : list GeoPoint) :
  (Layer.is_surface k = true -> pts <> [] ->
     forall a, turf_area (map toPosition (closeRing pts)) = Some a ->
     fst (measured k pts) = a)
  /\ (Layer.is_surface k = true -> pts <> [] ->
     turf_area (map toPosition (closeRing pts)) = None ->
     fst (measured k pts) = 0%float)
  /\ (Layer.is_surface k = true -> pts = [] -> fst (measured k pts) = 0%float)
  /\ (Layer.is_surface k = false ->
     forall km, turf_length (map toPosition pts) = Some km ->
     fst (measured k pts) = PrimFloat.mul km 1000%float)
  /\ (Layer.is_surface k = false ->
     turf_length (map toPosition pts) = None ->
     fst (measured k pts) = 0%float).
Proof.
  unfold completeMeasure.
  split; [| split; [| split; [| split]]].
  - intros -> Hne a Ha. destruct pts as [| p r]; [contradiction |].
    unfold closeRing in Ha. cbn [firstn] in Ha. now rewrite Ha.
  - intros -> Hne Ha. destruct pts as [| p r]; [contradiction |].
    unfold closeRing in Ha. cbn [firstn] in Ha. now rewrite Ha.
  - intros -> ->. reflexivity.
  - intros -> km Hk. now rewrite Hk.
  - intros -> Hk. now rewrite Hk.
Qed.

(** C5 (as the code has it, for the capture path).  Finishing a capture
    on an existing active layer and naming the shape appends one shape
    whose value is the computed one, except that NaN is replaced by 0;
    a computation that throws leaves 0.  The value computed is the area
    turf gives for the closed ring on a surface layer, and 1000 times
    the length in kilometres it gives otherwise.  So the stored value
    is never NaN.  Nothing else is replaced: an infinite value is
    stored as it is. *)
Theorem complete_replaces_NaN_only (pts : list GeoPoint) (name newId : string)
    (st : App) (al : Layer.t) :
  findLayer (activeLayerId st) (layers st) = Some al ->
  exists new,
    shapes (fst (complete pts (Some name) newId st)) = shapes st ++ [new]
    /\ JS.isNaN (Shape.measuredValue new) = false
    /\ (Layer.type al = Layer.surface -> pts <> [] ->
          forall a, turf_area (map toPosition (closeRing pts)) = Some a ->
          Shape.measuredValue new = if JS.isNaN a then 0%float else a)
    /\ (Layer.type al <> Layer.surface ->
          forall km, turf_length (map toPosition pts) = Some km ->
          Shape.measuredValue new
          = if JS.isNaN (PrimFloat.mul km 1000%float) then 0%float
            else PrimFloat.mul km 1000%float)
    /\ (Layer.type al = Layer.surface ->
          pts = [] \/ turf_area (map toPosition (closeRing pts)) = None ->
          Shape.measuredValue new = 0%float)
    /\ (Layer.type al <> Layer.surface ->
          turf_length (map toPosition pts) = None ->
          Shape.measuredValue new = 0%float).
Proof.
  intros H.
  destruct (complete_named pts name newId st al H) as (new & E & _ & _ & _ & M).
  destruct (measured_cases (Layer.type al) pts) as (C1 & C2 & C3 & C4 & C5).
  exists new. rewrite E. split; [reflexivity |].
  split; [rewrite M; apply nanToZero_not_NaN |].
  rewrite M.
  assert (Hns : Layer.type al <> Layer.surface -> Layer.is_surface (Layer.type al) = false).
  { destruct (Layer.type al); [contradiction | reflexivity | reflexivity]. }
  split; [| split; [| split]].
  - intros Ht Hne a Ha. rewrite (C1 ltac:(now rewrite Ht) Hne a Ha). reflexivity.
  - intros Ht km Hk. rewrite (C4 (Hns Ht) km Hk). reflexivity.
  - intros Ht Hor.
    assert (Hsurf : Layer.is_surface (Layer.type al) = true) by now rewrite Ht.
    assert (Hd : pts = [] \/ pts <> []).
    { destruct pts; [left; reflexivity | right; discriminate]. }
    destruct Hd as [He | Hne].
    + rewrite (C3 Hsurf He). reflexivity.
    + destruct Hor as [He | Hn]; [contradiction |].
      rewrite (C2 Hsurf Hne Hn). reflexivity.
  - intros Ht Hn. rewrite (C5 (Hns Ht) Hn). reflexivity.
Qed.

End CompletionClaims.

(** A triangle captured on the initial surface layer: a NaN area is
    stored as 0, the area 1024 as it is. *)
Lemma complete_replaces_NaN_only_witness :
  (exists new,
     shapes (fst (handleShapeComplete areaNaN halfKm triangle (Some "Toit") "n1" initialApp))
       = [new]
     /\ Shape.measuredValue new = 0%float)
  /\ (exists new,
     shapes (fst (handleShapeComplete area1024 halfKm triangle (Some "Toit") "n1" initialApp))
       = [new]
     /\ Shape.measuredValue new = 1024%float).
Proof.
  assert (H : findLayer (activeLayerId initialApp) (layers initialApp)
              = Some wallsLayer) by reflexivity.
  assert (Hne : triangle <> []) by discriminate.
  split.
  - destruct (complete_replaces_NaN_only areaNaN halfKm triangle "Toit" "n1"
                initialApp wallsLayer H) as (new & E & _ & Hs & _).
    exists new. split; [exact E |]. exact (Hs eq_refl Hne nan eq_refl).
  - destruct (complete_replaces_NaN_only area1024 halfKm triangle "Toit" "n1"
                initialApp wallsLayer H) as (new & E & _ & Hs & _).
    exists new. split; [exact E |]. exact (Hs eq_refl Hne 1024%float eq_refl).
Defined.

(** C5, the claim refuted: when the geometry computation yields an
    infinite area for a captured triangle, the shape is stored with an
    infinite value, not with 0. *)
Lemma complete_stores_infinity :
  map Shape.measuredValue
    (shapes (fst (handleShapeComplete areaInfinite halfKm triangle (Some "Toit") "n1"
                    initialApp)))
  = [infinity]
  /\ JS.isFinite infinity = false
  /\ PrimFloat.eqb infinity 0%float = false.
Proof. repeat split; reflexivity. Qed.

(** The conversion has no test of the computed value at all: a NaN
    area is stored as it is. *)
Lemma convert_stores_NaN :
  map (fun s => JS.isNaN (Shape.measuredValue s))
    (shapes (fst (handleConvertShape areaNaN halfKm "s1" true "n1" demoApp)))
  = [true].
Proof. reflexivity. Qed.

(** ** Coordinates and placemarks *)

Lemma keepPoint_parsePair (x : string) : keepPoint (parsePair x) = keptPair x.
Proof.
  unfold parsePair, keptPair, field.
  destruct (2 <=? List.length (JS.split "," x)); reflexivity.
Qed.

Lemma parsePair_kept (x : string) :
  keptPair x = true -> parsePair x = Some (pointOfPair x).
Proof.
  unfold parsePair, keptPair, pointOfPair, field.
  destruct (2 <=? List.length (JS.split "," x)); [reflexivity | discriminate].
Qed.

Lemma parsePairs_filter_map (items : list string) :
  nonNull (filter keepPoint (map parsePair items))
  = map pointOfPair (filter keptPair items).
Proof.
  induction items as [| x r IH]; [reflexivity |].
  cbn [map filter]. rewrite keepPoint_parsePair.
  destruct (keptPair x) eqn:Hk; [| exact IH].
  rewrite (parsePair_kept x Hk).
  cbn [nonNull flat_map map app]. f_equal. exact IH.
Qed.

Lemma parseCoords_kept (s : string) :
  parseCoords s = map pointOfPair (filter keptPair (JS.split_ws (JS.trim s))).
Proof. unfold parseCoords. apply parsePairs_filter_map. Qed.

Lemma processPlacemark_none (pm : Node) (layerId color newId : string) :
  processPlacemark pm layerId color newId = None
  <-> snd (placemarkGeometry pm) = [].
Proof.
  unfold processPlacemark.
  destruct (placemarkGeometry pm) as [k pts]. cbn [snd].
  destruct pts as [| p r]; cbn; split; intros H; congruence.
Qed.

Lemma processPlacemark_content (pm : Node) (layerId color newId : string) :
  match processPlacemark pm layerId color newId with
  | Some s => [content s]
  | None => []
  end = placemarkContent layerId pm.
Proof.
  unfold placemarkContent, processPlacemark.
  destruct (placemarkGeometry pm) as [k pts].
  destruct (0 <? List.length pts); reflexivity.
Qed.

Lemma pushPlacemarks_content (gen : nat -> string) (pms : list Node)
    (layerId color : string) (acc : Import) :
  map content (newShapes (pushPlacemarks gen pms layerId color acc))
  = map content (newShapes acc) ++ flat_map (placemarkContent layerId) pms.
Proof.
  revert acc. induction pms as [| pm r IH]; intros acc; cbn [pushPlacemarks flat_map].
  - now rewrite app_nil_r.
  - rewrite <- (processPlacemark_content pm layerId color (gen (drawn acc))).
    destruct (processPlacemark pm layerId color (gen (drawn acc))) as [sh |].
    + rewrite IH. cbn [newShapes]. rewrite map_app, <- app_assoc. reflexivity.
    + rewrite IH. reflexivity.
Qed.




(** ** Import *)

Section ImportClaims.

Variable parseFromString : string -> Node.

Local Abbreviation import := (handleKmlImport parseFromString).

Lemma import_nothing_to_read (gen : nat -> string) (st : App) (f : File.t) :
  import None gen st = (st, [])
  /\ (File.text f = "" -> import (Some f) gen st = (st, [])).
Proof.
  split; [reflexivity |]. intros H. unfold handleKmlImport. now rewrite H.
Qed.

Lemma collect_empty (gen : nat -> string) (fileName : string) (xmlDoc : Node) :
  getElementsByTagName "Folder" xmlDoc = [] ->
  getElementsByTagName "Placemark" xmlDoc = [] ->
  collect gen fileName xmlDoc = {| drawn := 0; newLayers := []; newShapes := [] |}.
Proof. intros HF HP. unfold collect. rewrite HF, HP. reflexivity. Qed.

(** C1 (as the code has it).  A file whose text is empty is dropped
    before any processing: nothing is changed and nothing is reported,
    no alert either.  For any other file, let the processing give the
    layers [newLayers] and the shapes [newShapes].  With no shape, the
    import ends with the no-compatible-shape alert and the state is the
    one before: no layer and no shape is added.  With at least one
    shape, all the layers and all the shapes are appended, in one go,
    and no alert is raised.  A document with no folder and no placemark
    is of the first kind. *)
Theorem import_all_or_nothing (f : File.t) (gen : nat -> string) (st : App) :
  let xmlDoc := parseFromString (File.text f) in
  let result := collect gen (File.name f) xmlDoc in
  let out := import (Some f) gen st in
  (File.text f = "" -> out = (st, []))
  /\ (File.text f <> "" ->
        (newShapes result = [] -> out = (st, [alert NoCompatibleShape]))
        /\ (newShapes result <> [] ->
              layers (fst out) = layers st ++ newLayers result
              /\ shapes (fst out) = shapes st ++ newShapes result
              /\ activeLayerId (fst out) = activeLayerId st
              /\ selectedShapeId (fst out) = selectedShapeId st
              /\ snd out = [])
        /\ (getElementsByTagName "Folder" xmlDoc = [] ->
            getElementsByTagName "Placemark" xmlDoc = [] ->
              newShapes result = [] /\ out = (st, [alert NoCompatibleShape]))).
Proof.
  intros xmlDoc result out. split.
  - intros H. exact (proj2 (import_nothing_to_read gen st f) H).
  - intros Hne.
    assert (E : out = match newShapes result with
                      | first :: _ =>
                          let st2 := setShapes (fun prev => prev ++ newShapes result)
                                       (setLayers (fun prev => prev ++ newLayers result) st) in
                          match Shape.points first with
                          | p :: _ => (setMapCenter (Some p) st2, [])
                          | [] => (st2, [])
                          end
                      | [] => (st, [alert NoCompatibleShape])
                      end).
    { unfold out, handleKmlImport.
      destruct (String.eqb_spec (File.text f) ""); [contradiction | reflexivity]. }
    assert (H0 : newShapes result = [] -> out = (st, [alert NoCompatibleShape])).
    { intros H. rewrite E, H. reflexivity. }
    split; [exact H0 |]. split.
    + intros H. rewrite E.
      destruct (newShapes result) as [| first rest]; [contradiction |].
      destruct (Shape.points first); repeat split; reflexivity.
    + intros HF HP.
      assert (R : newShapes result = []).
      { unfold result. now rewrite (collect_empty gen _ xmlDoc HF HP). }
      split; [exact R | exact (H0 R)].
Qed.

End ImportClaims.

(** The sample document gives one imported layer and one polygon of
    three points, not measured; the empty document gives the alert and
    leaves the project as it was. *)
Lemma import_all_or_nothing_witness :
  (layers (fst (handleKmlImport (parserOf sampleDoc) (Some sampleFile) numbered initialApp))
     = layers initialApp ++ [importedLayer "id0" "Parcelles" "#ff0000"]
   /\ map content
        (shapes (fst (handleKmlImport (parserOf sampleDoc) (Some sampleFile) numbered
                        initialApp)))
     = [("Sans nom", Shape.polygon,
         [pt 48.85 2.35; pt 48.85 2.36; pt 48.86 2.36], "id0", 0%float)])
  /\ handleKmlImport (parserOf emptyDoc) (Some emptyFile) numbered initialApp
     = (initialApp, [alert NoCompatibleShape]).
Proof.
  assert (Hne : File.text sampleFile <> "") by discriminate.
  split.
  - destruct (proj2 (import_all_or_nothing (parserOf sampleDoc) sampleFile numbered
                       initialApp) Hne) as (_ & H & _).
    assert (Hs : newShapes (collect numbered (File.name sampleFile)
                   (parserOf sampleDoc (File.text sampleFile))) <> []).
    { vm_compute. discriminate. }
    destruct (H Hs) as (HL & HS & _).
    split.
    + rewrite HL. vm_compute. reflexivity.
    + rewrite HS. vm_compute. reflexivity.
  - assert (Hne' : File.text emptyFile <> "") by discriminate.
    destruct (proj2 (import_all_or_nothing (parserOf emptyDoc) emptyFile numbered
                       initialApp) Hne') as (_ & _ & H).
    exact (proj2 (H eq_refl eq_refl)).
Defined.

(** C1, the claim refuted: a file without any text gives no shape, and
    yet the import reports nothing: there is no alert. *)
Lemma import_empty_file_silent :
  newShapes (collect numbered (File.name blankFile)
               (parserOf emptyDoc (File.text blankFile))) = []
  /\ handleKmlImport (parserOf emptyDoc) (Some blankFile) numbered initialApp
     = (initialApp, [])
  /\ snd (handleKmlImport (parserOf emptyDoc) (Some blankFile) numbered initialApp)
     = @nil Effect.
Proof. repeat split; reflexivity. Qed.

(** ** Deleting a layer, and the selection *)

Lemma deleteLayer_selection (id : string) (confirm : bool) (st : App) :
  selectedShapeId (handleDeleteLayer id confirm st) = selectedShapeId st.
Proof.
  unfold handleDeleteLayer. destruct confirm; [| reflexivity].
  destruct (eq_id (activeLayerId st) id); reflexivity.
Qed.

Lemma deleteLayer_shapes (id : string) (st : App) :
  shapes (handleDeleteLayer id true st)
  = filter (fun s => negb (String.eqb (Shape.layerId s) id)) (shapes st).
Proof.
  unfold handleDeleteLayer. destruct (eq_id (activeLayerId st) id); reflexivity.
Qed.

Lemma deleteLayer_active (id : string) (st : App) :
  activeLayerId (handleDeleteLayer id true st)
  = if eq_id (activeLayerId st) id then None else activeLayerId st.
Proof.
  unfold handleDeleteLayer. destruct (eq_id (activeLayerId st) id); reflexivity.
Qed.

Section SelectionClaims.

Variable turf_area : list (float * float) -> option float.
Variable turf_length : list (float * float) -> option float.
Variable parseFromString : string -> Node.

Local Abbreviation run := (step turf_area turf_length parseFromString).

Lemma convert_selection (shapeId newId : string) (confirm : bool) (st : App) :
  selectedShapeId (fst (handleConvertShape turf_area turf_length shapeId confirm newId st))
  = selectedShapeId st
  \/ selectedShapeId (fst (handleConvertShape turf_area turf_length shapeId confirm newId st))
     = Some newId.
Proof.
  unfold handleConvertShape.
  destruct (findShape shapeId (shapes st)); [| now left].
  destruct (findLayer (activeLayerId st) (layers st)) as [l |]; [| now left].
  destruct (negb (Layer.is_measurement (Layer.category l))); [now left |].
  destruct confirm; [now right | now left].
Qed.

Lemma import_selection (file : option File.t) (gen : nat -> string) (st : App) :
  selectedShapeId (fst (handleKmlImport parseFromString file gen st)) = selectedShapeId st.
Proof.
  unfold handleKmlImport.
  destruct file as [f |]; [| reflexivity].
  destruct (String.eqb (File.text f) ""); [reflexivity |].
  destruct (newShapes _) as [| first rest]; [reflexivity |].
  destruct (Shape.points first); reflexivity.
Qed.

Lemma complete_selection (pts : list GeoPoint) (answer : option string)
    (newId : string) (st : App) :
  selectedShapeId (fst (handleShapeComplete turf_area turf_length pts answer newId st))
  = selectedShapeId st.
Proof.
  unfold handleShapeComplete.
  destruct (findLayer (activeLayerId st) (layers st)) as [al |]; [| reflexivity].
  destruct (completeMeasure turf_area turf_length (Layer.type al) pts).
  destruct answer; reflexivity.
Qed.


End SelectionClaims.



(* ================================================================== *)
(** * Further properties *)
(* ================================================================== *)

(** ** Totals *)

Lemma totalOf_fold (ss : list Shape.t) (id : string) (ls : list Layer.t)
    (acc : Totals) :
  totalOf (fold_left (fun totals l =>
             if Layer.is_measurement (Layer.category l)
             then (Layer.id l, sumValues (shapesOf (Layer.id l) ss)) :: totals
             else totals) ls acc) id
  = if measured_id id ls then Some (sumValues (shapesOf id ss)) else totalOf acc id.
Proof.
  revert acc. induction ls as [| l r IH]; intros acc; [reflexivity |].
  cbn [fold_left measured_id existsb]. fold (measured_id id r). rewrite IH.
  destruct (measured_id id r); [now rewrite orb_true_r |]. rewrite orb_false_r.
  destruct (Layer.is_measurement (Layer.category l)); [| reflexivity].
  cbn [andb]. unfold totalOf at 1. cbn [find fst].
  destruct (String.eqb_spec (Layer.id l) id) as [-> | _]; reflexivity.
Qed.

Lemma sumValues_app (ss : list Shape.t) (s : Shape.t) :
  sumValues (ss ++ [s]) = PrimFloat.add (sumValues ss) (Shape.measuredValue s).
Proof. unfold sumValues. now rewrite fold_left_app. Qed.

Lemma shapesOf_app (id : string) (a b : list Shape.t) :
  shapesOf id (a ++ b) = shapesOf id a ++ shapesOf id b.
Proof. apply filter_app. Qed.

Lemma shapesOf_filter_other (id : string) (keep : Shape.t -> bool)
    (ss : list Shape.t) :
  (forall s, In s ss -> Shape.layerId s = id -> keep s = true) ->
  shapesOf id (filter keep ss) = shapesOf id ss.
Proof.
  intros H. induction ss as [| x r IH]; [reflexivity |].
  cbn [filter]. destruct (keep x) eqn:K.
  - unfold shapesOf in *. cbn [filter]. rewrite IH; [reflexivity |].
    intros s Hs. apply H. now right.
  - unfold shapesOf in *. cbn [filter].
    destruct (String.eqb_spec (Shape.layerId x) id) as [E | _].
    + rewrite (H x (or_introl eq_refl) E) in K. discriminate.
    + apply IH. intros s Hs. apply H. now right.
Qed.

(** X1. The totals have an entry for an id exactly when some
    measurement layer has that id, and the entry is then the sum, from
    left to right and starting from 0, of the values of the shapes of
    that layer.  An imported layer has no entry, and an entry of a
    layer without shapes is 0. *)
Theorem layerTotals_entry (ls : list Layer.t) (ss : list Shape.t) (id : string) :
  totalOf (layerTotals ls ss) id
  = (if measured_id id ls then Some (sumValues (shapesOf id ss)) else None)
  /\ (shapesOf id ss = [] -> measured_id id ls = true ->
        totalOf (layerTotals ls ss) id = Some 0%float)
  /\ (forall l, In l ls -> Layer.id l = id ->
        (forall l', In l' ls -> Layer.id l' = id ->
           Layer.category l' = Layer.kml) ->
        totalOf (layerTotals ls ss) id = None
        /\ LayerManager.total (layerTotals ls ss) l = 0%float).
Proof.
  assert (E : totalOf (layerTotals ls ss) id
              = if measured_id id ls then Some (sumValues (shapesOf id ss)) else None).
  { unfold layerTotals. now rewrite totalOf_fold. }
  split; [exact E |]. split.
  - intros Hn Hm. rewrite E, Hm, Hn. reflexivity.
  - intros l Hl Hid Hk.
    assert (Hm : measured_id id ls = false).
    { unfold measured_id. apply not_true_is_false. intros Ht.
      apply existsb_exists in Ht. destruct Ht as (x & Hx & Hb).
      apply andb_prop in Hb. destruct Hb as [Hc He].
      apply String.eqb_eq in He. rewrite (Hk x Hx He) in Hc. discriminate. }
    unfold LayerManager.total. rewrite Hid, E, Hm. split; reflexivity.
Qed.

(** X2. Appending a shape adds its value to the total of its layer,
    by one more floating-point addition, and changes no other total. *)
Theorem layerTotals_addShape (sh : Shape.t) (st : App) (id : string) :
  totalOf (layerTotals (layers (handleAddShape sh st))
                       (shapes (handleAddShape sh st))) id
  = if String.eqb (Shape.layerId sh) id
    then option_map (fun t => PrimFloat.add t (Shape.measuredValue sh))
           (totalOf (layerTotals (layers st) (shapes st)) id)
    else totalOf (layerTotals (layers st) (shapes st)) id.
Proof.
  unfold layerTotals. rewrite !totalOf_fold.
  cbn [handleAddShape setShapes layers shapes].
  rewrite shapesOf_app. unfold shapesOf at 2. cbn [filter].
  destruct (String.eqb (Shape.layerId sh) id).
  - destruct (measured_id id (layers st)); [| reflexivity].
    cbn [option_map]. now rewrite sumValues_app.
  - now rewrite app_nil_r.
Qed.

Lemma App_eq (a b : App) :
  layers a = layers b -> shapes a = shapes b ->
  activeLayerId a = activeLayerId b -> selectedShapeId a = selectedShapeId b ->
  toolMode a = toolMode b -> mapCenter a = mapCenter b -> a = b.
Proof. destruct a, b; cbn; intros; subst; reflexivity. Qed.

Lemma filter_twice {A : Type} (f : A -> bool) (l : list A) :
  filter f (filter f l) = filter f l.
Proof.
  induction l as [| x r IH]; [reflexivity |].
  cbn [filter]. destruct (f x) eqn:E; [| exact IH].
  cbn [filter]. now rewrite E, IH.
Qed.

Lemma filter_swap {A : Type} (f g : A -> bool) (l : list A) :
  filter f (filter g l) = filter g (filter f l).
Proof.
  induction l as [| x r IH]; [reflexivity |].
  cbn [filter]. destruct (g x) eqn:G, (f x) eqn:F; cbn [filter];
    rewrite ?G, ?F, IH; reflexivity.
Qed.

Lemma measured_id_filter (id id' : string) (ls : list Layer.t) :
  measured_id id' (filter (fun l => negb (String.eqb (Layer.id l) id)) ls)
  = if String.eqb id' id then false else measured_id id' ls.
Proof.
  unfold measured_id. induction ls as [| l r IH].
  - cbn. now destruct (String.eqb id' id).
  - cbn [filter existsb].
    destruct (String.eqb_spec (Layer.id l) id) as [E | N]; cbn [negb existsb].
    + rewrite IH. destruct (String.eqb_spec id' id) as [E' | N']; [reflexivity |].
      destruct (String.eqb_spec (Layer.id l) id') as [E'' | _]; [congruence |].
      now rewrite andb_false_r.
    + rewrite IH. destruct (String.eqb_spec id' id) as [E' | N']; [| reflexivity].
      destruct (String.eqb_spec (Layer.id l) id') as [E'' | _]; [congruence |].
      now rewrite andb_false_r.
Qed.

Lemma deleteLayer_layers (id : string) (st : App) :
  layers (handleDeleteLayer id true st)
  = filter (fun l => negb (String.eqb (Layer.id l) id)) (layers st).
Proof.
  unfold handleDeleteLayer. destruct (eq_id (activeLayerId st) id); reflexivity.
Qed.

Lemma deleteLayer_rest (id : string) (st : App) :
  toolMode (handleDeleteLayer id true st) = toolMode st
  /\ mapCenter (handleDeleteLayer id true st) = mapCenter st.
Proof.
  unfold handleDeleteLayer. destruct (eq_id (activeLayerId st) id); split; reflexivity.
Qed.

Lemma shapesOf_deleted (id : string) (ss : list Shape.t) :
  shapesOf id (filter (fun s => negb (String.eqb (Shape.layerId s) id)) ss) = [].
Proof.
  unfold shapesOf. induction ss as [| x r IH]; [reflexivity |].
  cbn [filter]. destruct (String.eqb (Shape.layerId x) id) eqn:E; cbn [negb filter].
  - exact IH.
  - now rewrite E.
Qed.

(** X3. Deleting a layer (confirmed) deletes with it the shapes of
    that layer and no other: the shapes of every other layer are the
    same list as before, so every other total is unchanged, and the
    deleted id has no shape and no total left. *)
Theorem deleteLayer_cascade (id : string) (st : App) :
  let st' := handleDeleteLayer id true st in
  shapesOf id (shapes st') = []
  /\ totalOf (layerTotals (layers st') (shapes st')) id = None
  /\ (forall id', id' <> id ->
        shapesOf id' (shapes st') = shapesOf id' (shapes st)
        /\ totalOf (layerTotals (layers st') (shapes st')) id'
           = totalOf (layerTotals (layers st) (shapes st)) id')
  /\ (forall s, In s (shapes st) -> Shape.layerId s <> id -> In s (shapes st'))
  /\ (forall l, In l (layers st) -> Layer.id l <> id -> In l (layers st')).
Proof.
  cbn zeta. rewrite deleteLayer_shapes, deleteLayer_layers.
  assert (Hother : forall id', id' <> id ->
            shapesOf id' (filter (fun s => negb (String.eqb (Shape.layerId s) id)) (shapes st))
            = shapesOf id' (shapes st)).
  { intros id' Hne. apply shapesOf_filter_other. intros s _ Hs.
    apply negb_true_iff, String.eqb_neq. congruence. }
  split; [| split; [| split; [| split]]].
  - apply shapesOf_deleted.
  - destruct (layerTotals_entry
                (filter (fun l => negb (String.eqb (Layer.id l) id)) (layers st))
                (filter (fun s => negb (String.eqb (Shape.layerId s) id)) (shapes st)) id)
      as [E _].
    rewrite E, measured_id_filter, String.eqb_refl. reflexivity.
  - intros id' Hne. split; [now apply Hother |].
    unfold layerTotals. rewrite !totalOf_fold, measured_id_filter.
    destruct (String.eqb_spec id' id) as [E | _]; [contradiction |].
    now rewrite (Hother id' Hne).
  - intros s Hin Hne. apply filter_In. split; [exact Hin |].
    now apply negb_true_iff, String.eqb_neq.
  - intros l Hin Hne. apply filter_In. split; [exact Hin |].
    now apply negb_true_iff, String.eqb_neq.
Qed.

Lemma eq_id_None (id : string) : eq_id None id = false.
Proof. reflexivity. Qed.

Lemma deleteLayer_active_cases (id : string) (st : App) :
  activeLayerId (handleDeleteLayer id true st) = None
  \/ (activeLayerId (handleDeleteLayer id true st) = activeLayerId st
      /\ eq_id (activeLayerId st) id = false).
Proof.
  rewrite deleteLayer_active. destruct (eq_id (activeLayerId st) id); [now left | now right].
Qed.

(** X4. Deleting layers is idempotent and does not depend on the
    order: deleting a layer a second time changes nothing, and deleting
    two layers one after the other gives the same state whichever goes
    first.  A deletion that is not confirmed changes nothing. *)
Theorem deleteLayer_idempotent_commutes (a b : string) (st : App) :
  handleDeleteLayer a true (handleDeleteLayer a true st) = handleDeleteLayer a true st
  /\ handleDeleteLayer a true (handleDeleteLayer b true st)
     = handleDeleteLayer b true (handleDeleteLayer a true st)
  /\ handleDeleteLayer a false st = st.
Proof.
  split; [| split; [| reflexivity]].
  - apply App_eq.
    + rewrite !deleteLayer_layers. apply filter_twice.
    + rewrite !deleteLayer_shapes. apply filter_twice.
    + rewrite deleteLayer_active.
      destruct (deleteLayer_active_cases a st) as [E | [E N]]; rewrite E.
      * reflexivity.
      * now rewrite N.
    + now rewrite !deleteLayer_selection.
    + now rewrite (proj1 (deleteLayer_rest a _)).
    + now rewrite (proj2 (deleteLayer_rest a _)).
  - apply App_eq.
    + rewrite !deleteLayer_layers. apply filter_swap.
    + rewrite !deleteLayer_shapes. apply filter_swap.
    + rewrite !deleteLayer_active.
      destruct (activeLayerId st) as [x |]; [| reflexivity]. cbn [eq_id].
      destruct (String.eqb x a) eqn:Ea, (String.eqb x b) eqn:Eb; cbn [eq_id];
        rewrite ?Ea, ?Eb; reflexivity.
    + now rewrite !deleteLayer_selection.
    + rewrite (proj1 (deleteLayer_rest a _)), !(proj1 (deleteLayer_rest b _)).
      now rewrite (proj1 (deleteLayer_rest a _)).
    + rewrite (proj2 (deleteLayer_rest a _)), !(proj2 (deleteLayer_rest b _)).
      now rewrite (proj2 (deleteLayer_rest a _)).
Qed.

Lemma findLayer_some (id : option string) (ls : list Layer.t) (l : Layer.t) :
  findLayer id ls = Some l -> In l ls /\ id = Some (Layer.id l).
Proof.
  intros H. apply find_some in H. destruct H as [Hin He].
  split; [exact Hin |]. destruct id as [a |]; [| discriminate].
  cbn [eq_id] in He. apply String.eqb_eq in He. now subst.
Qed.

Lemma measured_id_intro (l : Layer.t) (ls : list Layer.t) :
  In l ls -> Layer.category l = Layer.measurement ->
  measured_id (Layer.id l) ls = true.
Proof.
  intros Hin Hc. unfold measured_id. apply existsb_exists. exists l.
  split; [exact Hin |]. now rewrite Hc, String.eqb_refl.
Qed.

Section ConversionTotals.

Variable turf_area : list (float * float) -> option float.
Variable turf_length : list (float * float) -> option float.

Local Abbreviation convert := (handleConvertShape turf_area turf_length).

(** X5. A shape that is not in the target layer is converted to it
    (same setting as C2): the total of the target layer becomes its
    former total plus the value of the new shape, and the total of any
    layer that held no shape with the converted id is unchanged. *)
Theorem convert_adds_to_total (shapeId newId : string) (st : App)
    (s : Shape.t) (L : Layer.t) :
  findShape shapeId (shapes st) = Some s ->
  findLayer (activeLayerId st) (layers st) = Some L ->
  Layer.category L = Layer.measurement ->
  (forall x, In x (shapes st) -> Shape.id x = shapeId ->
             Shape.layerId x <> Layer.id L) ->
  let st' := fst (convert shapeId true newId st) in
  exists new T,
    shapes st' = filter (otherId shapeId) (shapes st) ++ [new]
    /\ totalOf (layerTotals (layers st) (shapes st)) (Layer.id L) = Some T
    /\ totalOf (layerTotals (layers st') (shapes st')) (Layer.id L)
       = Some (PrimFloat.add T (Shape.measuredValue new))
    /\ (forall id', id' <> Layer.id L ->
          (forall x, In x (shapes st) -> Shape.id x = shapeId ->
                     Shape.layerId x <> id') ->
          totalOf (layerTotals (layers st') (shapes st')) id'
          = totalOf (layerTotals (layers st) (shapes st)) id').
Proof.
  intros Hs HL Hcat Hout st'.
  assert (Hm : Layer.is_measurement (Layer.category L) = true) by now rewrite Hcat.
  destruct (findLayer_some _ _ _ HL) as [HinL _].
  set (new := convertedShape turf_area turf_length s L newId).
  assert (E : shapes st' = filter (otherId shapeId) (shapes st) ++ [new]).
  { unfold st'. now rewrite (convert_done _ _ shapeId newId st s L Hs HL Hm). }
  assert (EL : layers st' = layers st).
  { unfold st'. now rewrite (convert_done _ _ shapeId newId st s L Hs HL Hm). }
  assert (Hkeep : forall id',
            (forall x, In x (shapes st) -> Shape.id x = shapeId ->
                       Shape.layerId x <> id') ->
            shapesOf id' (filter (otherId shapeId) (shapes st)) = shapesOf id' (shapes st)).
  { intros id' H. apply shapesOf_filter_other. intros x Hx Hl.
    unfold otherId. apply negb_true_iff, String.eqb_neq. intros Hid.
    now apply (H x Hx Hid). }
  exists new, (sumValues (shapesOf (Layer.id L) (shapes st))).
  split; [exact E |].
  unfold layerTotals. rewrite !totalOf_fold, EL, E.
  rewrite (measured_id_intro L (layers st) HinL Hcat).
  split; [reflexivity |]. split.
  - rewrite shapesOf_app, (Hkeep (Layer.id L) Hout).
    unfold shapesOf at 2. cbn [filter].
    replace (Shape.layerId new) with (Layer.id L) by reflexivity.
    rewrite String.eqb_refl. now rewrite sumValues_app.
  - intros id' Hne Hout'. rewrite !totalOf_fold.
    rewrite shapesOf_app, (Hkeep id' Hout').
    unfold shapesOf at 2. cbn [filter].
    replace (Shape.layerId new) with (Layer.id L) by reflexivity.
    destruct (String.eqb_spec (Layer.id L) id') as [E' | _]; [congruence |].
    now rewrite app_nil_r.
Qed.

End ConversionTotals.

(** The parcel of the small project converted to the layer "Murs",
    which had no shape: the total of "Murs" becomes 0 + 1024. *)
Lemma convert_adds_to_total_witness :
  totalOf (layerTotals (layers demoApp) (shapes demoApp)) "1" = Some 0%float
  /\ totalOf (layerTotals
       (layers (fst (handleConvertShape area1024 halfKm "s1" true "n1" demoApp)))
       (shapes (fst (handleConvertShape area1024 halfKm "s1" true "n1" demoApp)))) "1"
     = Some 1024%float.
Proof.
  assert (Hout : forall x, In x (shapes demoApp) -> Shape.id x = "s1" ->
                           Shape.layerId x <> Layer.id wallsLayer).
  { intros x [<- | []] _. discriminate. }
  destruct (convert_adds_to_total area1024 halfKm "s1" "n1" demoApp parcel wallsLayer
              demo_shape demo_target eq_refl Hout) as (new & T & E & HT & HT' & _).
  split; [reflexivity |].
  transitivity (Some (PrimFloat.add T (Shape.measuredValue new))); [exact HT' |].
  assert (ET : Some T = Some 0%float) by (rewrite <- HT; reflexivity).
  injection ET as ->.
  assert (EN : [new] = [convertedShape area1024 halfKm parcel wallsLayer "n1"]).
  { rewrite <- (app_nil_l [new]). exact (eq_sym E). }
  injection EN as ->. reflexivity.
Defined.

(** ** The order of the layers on the map *)

Lemma sortInsert_partition (x : Layer.t) (K M : list Layer.t) :
  (forall l, In l K -> Layer.is_measurement (Layer.category l) = false) ->
  (forall l, In l M -> Layer.is_measurement (Layer.category l) = true) ->
  sortInsert MapCanvas.compareLayers x (K ++ M)
  = if Layer.is_measurement (Layer.category x) then K ++ x :: M else x :: K ++ M.
Proof.
  intros HK HM. induction K as [| k K' IH]; cbn [app].
  - destruct M as [| m M']; cbn [sortInsert].
    + now destruct (Layer.is_measurement (Layer.category x)).
    + unfold MapCanvas.compareLayers. rewrite (HM m (or_introl eq_refl)).
      now destruct (Layer.is_measurement (Layer.category x)).
  - cbn [sortInsert]. unfold MapCanvas.compareLayers.
    rewrite (HK k (or_introl eq_refl)).
    destruct (Layer.is_measurement (Layer.category x)) eqn:Ex; cbn.
    + fold MapCanvas.compareLayers.
      assert (HK' : forall l, In l K' -> Layer.is_measurement (Layer.category l) = false).
      { intros l Hl. apply HK. now right. }
      rewrite (IH HK'). reflexivity.
    + reflexivity.
Qed.

Lemma sortedLayers_split (ls : list Layer.t) :
  MapCanvas.sortedLayers ls
  = LayerManager.kmlLayers ls ++ LayerManager.measurementLayers ls.
Proof.
  unfold MapCanvas.sortedLayers, sort, LayerManager.kmlLayers,
    LayerManager.measurementLayers.
  induction ls as [| x r IH]; [reflexivity |].
  cbn [fold_right filter]. rewrite IH, sortInsert_partition.
  - now destruct (Layer.is_measurement (Layer.category x)).
  - intros l Hl. apply filter_In in Hl. destruct Hl as [_ Hl].
    now apply negb_true_iff.
  - intros l Hl. apply filter_In in Hl. now destruct Hl.
Qed.

Lemma sortedLayers_in (ls : list Layer.t) (l : Layer.t) :
  In l (MapCanvas.sortedLayers ls) <-> In l ls.
Proof.
  rewrite sortedLayers_split. unfold LayerManager.kmlLayers, LayerManager.measurementLayers.
  rewrite in_app_iff, !filter_In.
  destruct (Layer.is_measurement (Layer.category l)); cbn; tauto.
Qed.

(** X6. The map draws the imported layers first and the measurement
    layers after them (so above them), each group in the order of the
    layer list: sorting the layers is splitting them by category, and
    it loses and adds no layer. *)
Theorem sortedLayers_partition (ls : list Layer.t) :
  MapCanvas.sortedLayers ls
  = LayerManager.kmlLayers ls ++ LayerManager.measurementLayers ls
  /\ (forall l, In l (MapCanvas.sortedLayers ls) <-> In l ls)
  /\ List.length (MapCanvas.sortedLayers ls) = List.length ls.
Proof.
  split; [apply sortedLayers_split |]. split; [apply sortedLayers_in |].
  rewrite sortedLayers_split, length_app.
  unfold LayerManager.kmlLayers, LayerManager.measurementLayers.
  induction ls as [| x r IH]; [reflexivity |].
  cbn [filter List.length]. destruct (Layer.is_measurement (Layer.category x));
    cbn [negb List.length]; lia.
Qed.

(** ** The importer, step by step *)

Lemma processPlacemark_some (pm : Node) (layerId color newId : string) (s : Shape.t) :
  processPlacemark pm layerId color newId = Some s ->
  Shape.id s = newId /\ Shape.layerId s = layerId
  /\ Shape.measuredValue s = 0%float
  /\ Shape.name s = or_else (firstText "name" pm) "Sans nom"
  /\ Shape.type s = fst (placemarkGeometry pm)
  /\ Shape.points s = snd (placemarkGeometry pm)
  /\ Shape.points s <> [].
Proof.
  unfold processPlacemark. destruct (placemarkGeometry pm) as [k pts].
  destruct pts as [| p r]; [discriminate |].
  cbn. intros H. injection H as <-. cbn. repeat split; discriminate.
Qed.

Lemma processPlacemark_outline (pm : Node) (layerId color newId : string) :
  match processPlacemark pm layerId color newId with
  | Some s => [outline s]
  | None => []
  end = placemarkOutline pm.
Proof.
  unfold placemarkOutline, processPlacemark.
  destruct (placemarkGeometry pm) as [k pts].
  destruct (0 <? List.length pts); reflexivity.
Qed.

Lemma parseCoords_noNaN (s : string) (p : GeoPoint) :
  In p (parseCoords s) -> noNaN p.
Proof.
  rewrite parseCoords_kept. intros Hin.
  apply in_map_iff in Hin. destruct Hin as (x & <- & Hx).
  apply filter_In in Hx. destruct Hx as [_ Hk]. unfold keptPair in Hk.
  apply andb_prop in Hk. destruct Hk as [Hk H0].
  apply andb_prop in Hk. destruct Hk as [_ H1].
  split; cbn [pointOfPair lat lng]; now apply negb_true_iff.
Qed.

Lemma placemarkGeometry_noNaN (pm : Node) (p : GeoPoint) :
  In p (snd (placemarkGeometry pm)) -> noNaN p.
Proof.
  unfold placemarkGeometry.
  assert (H : forall e, In p (coordinatesOf e) -> noNaN p).
  { intros e. unfold coordinatesOf.
    destruct (truthy (firstText "coordinates" e)); [apply parseCoords_noNaN | intros []]. }
  destruct (firstByTagName "Polygon" pm) as [pg |]; [apply H |].
  destruct (firstByTagName "LineString" pm) as [ls |]; [apply H | intros []].
Qed.

Section ImporterFacts.

Variable gen : nat -> string.

Variable P : Import -> Prop.
Hypothesis P_step : forall a b, P a -> Grows gen a b -> P b.

Lemma pushPlacemarks_keeps (pms : list Node) (layerId color : string) (acc : Import) :
  (exists l, In l (newLayers acc) /\ Layer.id l = layerId) ->
  P acc -> P (pushPlacemarks gen pms layerId color acc).
Proof.
  revert acc. induction pms as [| pm r IH]; intros acc Hl HP; [exact HP |].
  cbn [pushPlacemarks].
  destruct (processPlacemark pm layerId color (gen (drawn acc))) as [s |] eqn:E.
  - apply IH; [exact Hl |].
    apply (P_step acc); [exact HP |]. now apply (grows_shape gen acc pm layerId color s).
  - now apply IH.
Qed.

Lemma processFolder_keeps (styleMap : StyleMap) (index : nat) (folder : Node)
    (acc : Import) :
  P acc -> P (processFolder gen styleMap index folder acc).
Proof.
  intros HP. unfold processFolder. apply pushPlacemarks_keeps.
  - cbn [newLayers]. eexists. split; [apply in_or_app; right; left; reflexivity |].
    reflexivity.
  - apply (P_step acc); [exact HP |]. apply grows_layer.
Qed.

Lemma forEachFolder_keeps (styleMap : StyleMap) (folders : list Node) (index : nat)
    (acc : Import) :
  P acc -> P (forEachFolder gen styleMap folders index acc).
Proof.
  revert index acc. induction folders as [| f r IH]; intros index acc HP; [exact HP |].
  cbn [forEachFolder]. apply IH. now apply processFolder_keeps.
Qed.

Lemma collect_keeps (fileName : string) (xmlDoc : Node) :
  P {| drawn := 0; newLayers := []; newShapes := [] |} ->
  P (collect gen fileName xmlDoc).
Proof.
  intros H0. unfold collect.
  destruct (0 <? List.length (getElementsByTagName "Folder" xmlDoc)).
  - now apply forEachFolder_keeps.
  - destruct (0 <? List.length (getElementsByTagName "Placemark" xmlDoc)); [| exact H0].
    apply pushPlacemarks_keeps.
    + cbn [newLayers]. eexists. split; [left; reflexivity | reflexivity].
    + apply (P_step _ _ H0 (grows_layer gen _ _ _)).
Qed.

End ImporterFacts.

Lemma isImportedShape_more (ls more : list Layer.t) (s : Shape.t) :
  isImportedShape ls s -> isImportedShape (ls ++ more) s.
Proof.
  intros (H1 & H2 & H3 & l & Hl & Hid). repeat split; try assumption.
  exists l. split; [apply in_or_app; now left | exact Hid].
Qed.

Lemma collect_well_formed (gen : nat -> string) (fileName : string) (xmlDoc : Node) :
  Forall isImported (newLayers (collect gen fileName xmlDoc))
  /\ Forall (isImportedShape (newLayers (collect gen fileName xmlDoc)))
       (newShapes (collect gen fileName xmlDoc)).
Proof.
  apply (collect_keeps gen
    (fun acc => Forall isImported (newLayers acc)
                /\ Forall (isImportedShape (newLayers acc)) (newShapes acc))).
  - intros a b [HL HS] G. destruct G as [acc name color | acc pm lid col s Hl Hp];
      cbn [newLayers newShapes].
    + split.
      * apply Forall_app. split; [exact HL |].
        constructor; [repeat split | constructor].
      * eapply Forall_impl; [| exact HS]. intros s. apply isImportedShape_more.
    + split; [exact HL |]. apply Forall_app. split; [exact HS |].
      constructor; [| constructor].
      destruct (processPlacemark_some _ _ _ _ _ Hp) as (_ & E2 & E3 & _ & _ & E6 & E7).
      split; [exact E3 |]. split; [exact E7 |]. split.
      * apply Forall_forall. intros p Hin. rewrite E6 in Hin.
        now apply (placemarkGeometry_noNaN pm).
      * destruct Hl as (l & Hin & Hid). exists l. split; [exact Hin | congruence].
  - split; constructor.
Qed.

Lemma collect_ids (gen : nat -> string) (fileName : string) (xmlDoc : Node) :
  Permutation (importIds (collect gen fileName xmlDoc))
              (map gen (seq 0 (drawn (collect gen fileName xmlDoc))))
  /\ drawn (collect gen fileName xmlDoc)
     = List.length (newLayers (collect gen fileName xmlDoc))
       + List.length (newShapes (collect gen fileName xmlDoc)).
Proof.
  apply (collect_keeps gen
    (fun acc => Permutation (importIds acc) (map gen (seq 0 (drawn acc)))
                /\ drawn acc = List.length (newLayers acc) + List.length (newShapes acc))).
  - intros a b [HP HD] G. destruct G as [acc name color | acc pm lid col s Hl Hp];
      unfold importIds in *; cbn [newLayers newShapes drawn].
    + split.
      * rewrite seq_S, !map_app. cbn [map plus].
        rewrite <- app_assoc.
        apply Permutation_trans with
          (l' := (map Layer.id (newLayers acc) ++ map Shape.id (newShapes acc))
                 ++ [gen (drawn acc)]).
        -- rewrite <- app_assoc. apply Permutation_app_head.
           apply Permutation_app_comm.
        -- now apply Permutation_app_tail.
      * rewrite length_app. cbn [List.length]. lia.
    + destruct (processPlacemark_some _ _ _ _ _ Hp) as (E1 & _).
      split.
      * rewrite seq_S, !map_app. cbn [map plus]. rewrite E1, app_assoc.
        now apply Permutation_app_tail.
      * rewrite length_app. cbn [List.length]. lia.
  - split; [constructor | reflexivity].
Qed.

Lemma NoDup_map_seq (gen : nat -> string) (n : nat) :
  (forall i j, gen i = gen j -> i = j) -> NoDup (map gen (seq 0 n)).
Proof.
  intros Hinj. induction n as [| n IH]; [constructor |].
  rewrite seq_S, map_app. cbn [map plus].
  apply Permutation_NoDup with (l := gen n :: map gen (seq 0 n)).
  - apply Permutation_cons_append.
  - constructor; [| exact IH].
    intros Hin. apply in_map_iff in Hin. destruct Hin as (k & Hk & Hs).
    apply in_seq in Hs. apply Hinj in Hk. lia.
Qed.

Section ImportResult.

Variable parseFromString : string -> Node.

Local Abbreviation import := (handleKmlImport parseFromString).

(** What an import appends: nothing, or what the processing of the
    document gave. *)
Lemma import_appends (file : option File.t) (gen : nat -> string) (st : App) :
  exists addedL addedS,
    layers (fst (import file gen st)) = layers st ++ addedL
    /\ shapes (fst (import file gen st)) = shapes st ++ addedS
    /\ ((addedL = [] /\ addedS = [])
        \/ exists f, file = Some f
             /\ addedL = newLayers (collect gen (File.name f)
                                      (parseFromString (File.text f)))
             /\ addedS = newShapes (collect gen (File.name f)
                                      (parseFromString (File.text f))))
    /\ activeLayerId (fst (import file gen st)) = activeLayerId st
    /\ selectedShapeId (fst (import file gen st)) = selectedShapeId st
    /\ toolMode (fst (import file gen st)) = toolMode st.
Proof.
  unfold handleKmlImport.
  destruct file as [f |].
  2:{ exists [], []. rewrite !app_nil_r. repeat split; try reflexivity. now left. }
  destruct (String.eqb (File.text f) "").
  { exists [], []. rewrite !app_nil_r. repeat split; try reflexivity. now left. }
  destruct (newShapes (collect gen (File.name f) (parseFromString (File.text f))))
    as [| first rest] eqn:E.
  { exists [], []. rewrite !app_nil_r. repeat split; try reflexivity. now left. }
  exists (newLayers (collect gen (File.name f) (parseFromString (File.text f)))),
         (first :: rest).
  destruct (Shape.points first); cbn; repeat split; try reflexivity;
    right; exists f; rewrite E; repeat split; reflexivity.
Qed.

(** X7. Whatever the document, an import only appends.  The layers
    it appends are imported layers (category kml, kind mixed, visible,
    opacity 0.6) and the shapes it appends are not measured (value 0),
    have at least one point and no NaN coordinate, and each belongs to
    one of the appended layers.  The layers and shapes that were there,
    the active layer, the selection and the tool mode are untouched. *)
Theorem import_appends_well_formed (file : option File.t) (gen : nat -> string)
    (st : App) :
  exists addedL addedS,
    layers (fst (import file gen st)) = layers st ++ addedL
    /\ shapes (fst (import file gen st)) = shapes st ++ addedS
    /\ Forall isImported addedL
    /\ Forall (isImportedShape addedL) addedS
    /\ activeLayerId (fst (import file gen st)) = activeLayerId st
    /\ selectedShapeId (fst (import file gen st)) = selectedShapeId st
    /\ toolMode (fst (import file gen st)) = toolMode st.
Proof.
  destruct (import_appends file gen st)
    as (aL & aS & EL & ES & Hor & HA & HS & HT).
  exists aL, aS. split; [exact EL |]. split; [exact ES |].
  assert (H : Forall isImported aL /\ Forall (isImportedShape aL) aS).
  { destruct Hor as [[-> ->] | (f & _ & -> & ->)].
    - split; constructor.
    - apply collect_well_formed. }
  destruct H as [H1 H2]. repeat split; assumption.
Qed.

(** X8. The identifiers of the layers and shapes an import appends
    are, in some order, the first identifiers [generateId()] returned
    during the import, each used once: as many as there are layers and
    shapes.  So when the generator never repeats itself, no two of the
    new layers and shapes share an identifier. *)
Theorem import_uses_each_id_once (gen : nat -> string) (fileName : string)
    (xmlDoc : Node) :
  let r := collect gen fileName xmlDoc in
  Permutation (importIds r) (map gen (seq 0 (drawn r)))
  /\ drawn r = List.length (newLayers r) + List.length (newShapes r)
  /\ ((forall i j, gen i = gen j -> i = j) -> NoDup (importIds r)).
Proof.
  cbn zeta. destruct (collect_ids gen fileName xmlDoc) as [HP HD].
  split; [exact HP |]. split; [exact HD |].
  intros Hinj. eapply Permutation_NoDup.
  - apply Permutation_sym. exact HP.
  - now apply NoDup_map_seq.
Qed.

End ImportResult.

Lemma pushPlacemarks_layers (gen : nat -> string) (pms : list Node)
    (layerId color : string) (acc : Import) :
  newLayers (pushPlacemarks gen pms layerId color acc) = newLayers acc.
Proof.
  revert acc. induction pms as [| pm r IH]; intros acc; [reflexivity |].
  cbn [pushPlacemarks].
  destruct (processPlacemark pm layerId color (gen (drawn acc))); now rewrite IH.
Qed.

Lemma pushPlacemarks_outline (gen : nat -> string) (pms : list Node)
    (layerId color : string) (acc : Import) :
  map outline (newShapes (pushPlacemarks gen pms layerId color acc))
  = map outline (newShapes acc) ++ flat_map placemarkOutline pms.
Proof.
  revert acc. induction pms as [| pm r IH]; intros acc; cbn [pushPlacemarks flat_map].
  - now rewrite app_nil_r.
  - rewrite <- (processPlacemark_outline pm layerId color (gen (drawn acc))).
    destruct (processPlacemark pm layerId color (gen (drawn acc))) as [sh |].
    + rewrite IH. cbn [newShapes]. rewrite map_app, <- app_assoc. reflexivity.
    + rewrite IH. reflexivity.
Qed.

Lemma forEachFolder_names (gen : nat -> string) (styleMap : StyleMap)
    (folders : list Node) (index : nat) (acc : Import) :
  map Layer.name (newLayers (forEachFolder gen styleMap folders index acc))
  = map Layer.name (newLayers acc) ++ folderNames index folders.
Proof.
  revert index acc. induction folders as [| f r IH]; intros index acc;
    cbn [forEachFolder folderNames].
  - now rewrite app_nil_r.
  - rewrite IH. unfold processFolder. rewrite pushPlacemarks_layers.
    cbn [newLayers]. rewrite map_app, <- app_assoc. reflexivity.
Qed.

Lemma forEachFolder_outlines (gen : nat -> string) (styleMap : StyleMap)
    (folders : list Node) (index : nat) (acc : Import) :
  map outline (newShapes (forEachFolder gen styleMap folders index acc))
  = map outline (newShapes acc) ++ flat_map folderOutlines folders.
Proof.
  revert index acc. induction folders as [| f r IH]; intros index acc;
    cbn [forEachFolder flat_map].
  - now rewrite app_nil_r.
  - rewrite IH. unfold processFolder. rewrite pushPlacemarks_outline.
    cbn [newShapes]. rewrite <- app_assoc. reflexivity.
Qed.


(** ** Folders inside folders *)

Lemma Node_children_ind (P : Node -> Prop) :
  (forall d, P (Text d)) ->
  (forall t a cs, Forall P cs -> P (Element t a cs)) ->
  forall n, P n.
Proof.
  intros HT HE. fix IH 1. intros [d | t a cs]; [apply HT |].
  apply HE. induction cs as [| c r IHr]; constructor; [apply IH | exact IHr].
Qed.

Lemma in_getElementsByTagName (name : string) (t : string)
    (a : list (string * string)) (cs : list Node) (x : Node) :
  In x (getElementsByTagName name (Element t a cs))
  <-> exists c, In c cs
        /\ ((x = c /\ exists t' a' cs', c = Element t' a' cs'
                                       /\ String.eqb t' name = true)
            \/ In x (getElementsByTagName name c)).
Proof.
  cbn [getElementsByTagName]. rewrite in_flat_map. split.
  - intros (c & Hc & Hx). exists c. split; [exact Hc |].
    destruct c as [d | t' a' cs']; [destruct Hx |].
    apply in_app_or in Hx. destruct Hx as [Hx | Hx]; [| now right].
    destruct (String.eqb t' name) eqn:E; [| destruct Hx].
    destruct Hx as [<- | []]. left. split; [reflexivity |].
    now exists t', a', cs'.
  - intros (c & Hc & Hor). exists c. split; [exact Hc |].
    destruct Hor as [[Hxc (t' & a' & cs' & Ec & E)] | Hx].
    + rewrite Ec. apply in_or_app. left. rewrite E. left. congruence.
    + destruct c as [d | t' a' cs']; [destruct Hx |].
      apply in_or_app. now right.
Qed.

Lemma getElementsByTagName_nested (t u : string) (n f p : Node) :
  In f (getElementsByTagName t n) ->
  In p (getElementsByTagName u f) ->
  In p (getElementsByTagName u n).
Proof.
  revert f p. induction n as [d | tn a cs IH] using Node_children_ind;
    intros f p Hf Hp; [destruct Hf |].
  apply in_getElementsByTagName in Hf. destruct Hf as (c & Hc & Hf).
  apply in_getElementsByTagName. exists c. split; [exact Hc |]. right.
  destruct Hf as [[-> _] | Hf]; [exact Hp |].
  rewrite Forall_forall in IH. exact (IH c Hc f p Hf Hp).
Qed.



(** ** What every reachable state satisfies *)

Lemma findLayer_None (ls : list Layer.t) : findLayer None ls = None.
Proof. unfold findLayer. induction ls as [| l r IH]; [reflexivity | exact IH]. Qed.

Lemma findLayer_app (id : option string) (a b : list Layer.t) :
  findLayer id (a ++ b)
  = match findLayer id a with Some l => Some l | None => findLayer id b end.
Proof.
  unfold findLayer. induction a as [| x r IH]; [reflexivity |].
  cbn [app find]. destruct (eq_id id (Layer.id x)); [reflexivity | exact IH].
Qed.

Lemma findLayer_absent (id : string) (ls : list Layer.t) :
  (forall l, In l ls -> Layer.id l <> id) -> findLayer (Some id) ls = None.
Proof.
  intros H. unfold findLayer. induction ls as [| x r IH]; [reflexivity |].
  cbn [find eq_id]. destruct (String.eqb_spec id (Layer.id x)) as [E | _].
  - exfalso. apply (H x (or_introl eq_refl)). now symmetry.
  - apply IH. intros l Hl. apply H. now right.
Qed.

Lemma findLayer_filter (a id : string) (ls : list Layer.t) :
  a <> id ->
  findLayer (Some a) (filter (fun l => negb (String.eqb (Layer.id l) id)) ls)
  = findLayer (Some a) ls.
Proof.
  intros Hne. unfold findLayer. induction ls as [| x r IH]; [reflexivity |].
  cbn [filter find eq_id].
  destruct (String.eqb_spec (Layer.id x) id) as [E | N]; cbn [negb find eq_id].
  - destruct (String.eqb_spec a (Layer.id x)) as [E' | _]; [congruence | exact IH].
  - destruct (String.eqb a (Layer.id x)); [reflexivity | exact IH].
Qed.

Lemma findLayer_map (id : option string) (f : Layer.t -> Layer.t) (ls : list Layer.t) :
  (forall l, Layer.id (f l) = Layer.id l) ->
  findLayer id (map f ls) = option_map f (findLayer id ls).
Proof.
  intros Hf. unfold findLayer. induction ls as [| x r IH]; [reflexivity |].
  cbn [map find]. rewrite Hf.
  destruct (eq_id id (Layer.id x)); [reflexivity | exact IH].
Qed.

Lemma distinct_same (ls : list Layer.t) (l l' : Layer.t) :
  NoDup (map Layer.id ls) -> In l ls -> In l' ls -> Layer.id l = Layer.id l' -> l = l'.
Proof.
  induction ls as [| x r IH]; intros Hnd Hl Hl' He; [destruct Hl |].
  cbn [map] in Hnd. inversion Hnd as [| ? ? Hnin Hnd']; subst.
  destruct Hl as [<- | Hl], Hl' as [<- | Hl'].
  - reflexivity.
  - exfalso. apply Hnin. rewrite He. now apply in_map.
  - exfalso. apply Hnin. rewrite <- He. now apply in_map.
  - now apply IH.
Qed.

Lemma findLayer_distinct (ls : list Layer.t) (l : Layer.t) :
  NoDup (map Layer.id ls) -> In l ls -> findLayer (Some (Layer.id l)) ls = Some l.
Proof.
  intros Hnd Hin.
  destruct (findLayer (Some (Layer.id l)) ls) as [l' |] eqn:E.
  - destruct (findLayer_some _ _ _ E) as [Hin' He]. injection He as He.
    now rewrite (distinct_same ls l l' Hnd Hin Hin' He).
  - exfalso. pose proof (find_none _ _ E l Hin) as H. cbn in H.
    now rewrite String.eqb_refl in H.
Qed.

Lemma NoDup_map_filter {A B : Type} (f : A -> B) (g : A -> bool) (l : list A) :
  NoDup (map f l) -> NoDup (map f (filter g l)).
Proof.
  induction l as [| x r IH]; intros H; [constructor |].
  cbn [map] in H. inversion H as [| ? ? Hnin Hnd]; subst.
  cbn [filter]. destruct (g x); [| now apply IH].
  cbn [map]. constructor; [| now apply IH].
  intros Hin. apply Hnin. apply in_map_iff in Hin. destruct Hin as (y & Hy & Hf).
  apply filter_In in Hf. destruct Hf as [Hf _]. apply in_map_iff. now exists y.
Qed.

Lemma Inv_same_structure (st st' : App) :
  layers st' = layers st -> activeLayerId st' = activeLayerId st ->
  toolMode st' = toolMode st -> owned st' -> Inv st -> Inv st'.
Proof.
  intros EL EA ET Ho (I1 & I2 & I3 & I4 & _).
  unfold Inv, distinctLayers, kindsOK, activeOK, modeOK in *.
  rewrite EL, EA, ET.
  split; [exact I1 |]. split; [exact I2 |]. split; [exact I3 |].
  split; [exact I4 | exact Ho].
Qed.

Lemma Inv_tool_change (st st' : App) :
  layers st' = layers st -> activeLayerId st' = activeLayerId st ->
  shapes st' = shapes st -> modeOK st' -> Inv st -> Inv st'.
Proof.
  intros EL EA ES Hm (I1 & I2 & I3 & _ & I5).
  unfold Inv, distinctLayers, kindsOK, activeOK, owned in *.
  rewrite EL, EA, ES.
  split; [exact I1 |]. split; [exact I2 |]. split; [exact I3 |].
  split; [exact Hm | exact I5].
Qed.

Lemma Inv_rewrite_layers (f : Layer.t -> Layer.t) (st st' : App) :
  sameButField f ->
  layers st' = map f (layers st) -> activeLayerId st' = activeLayerId st ->
  toolMode st' = toolMode st -> shapes st' = shapes st -> Inv st -> Inv st'.
Proof.
  intros Hf EL EA ET ES (I1 & I2 & I3 & I4 & I5).
  assert (Hid : forall l, Layer.id (f l) = Layer.id l) by (intros l; apply Hf).
  unfold Inv, distinctLayers, kindsOK, activeOK, modeOK, owned in *.
  rewrite EL, EA, ET, ES.
  split; [| split; [| split; [| split]]].
  - rewrite map_map. erewrite map_ext; [exact I1 |]. exact Hid.
  - intros l Hl. apply in_map_iff in Hl. destruct Hl as (l0 & <- & Hl0).
    destruct (Hf l0) as (_ & Ht & Hc). rewrite Ht, Hc. now apply I2.
  - intros a Ha. destruct (I3 a Ha) as (l & Hl & Hc).
    exists (f l). rewrite (findLayer_map _ f _ Hid), Hl. split; [reflexivity |].
    destruct (Hf l) as (_ & _ & Hc'). now rewrite Hc'.
  - intros l Hl. rewrite (findLayer_map _ f _ Hid) in Hl.
    destruct (findLayer (activeLayerId st) (layers st)) as [l0 |] eqn:E; [| discriminate].
    injection Hl as <-. destruct (Hf l0) as (_ & Ht & _). rewrite Ht. now apply I4.
  - intros s Hs. destruct (I5 s Hs) as (l & Hl & He).
    exists (f l). split; [now apply in_map | now rewrite Hid].
Qed.

Lemma initial_Inv : Inv initialApp.
Proof.
  unfold Inv, distinctLayers, kindsOK, activeOK, modeOK, owned.
  cbn [initialApp layers shapes activeLayerId toolMode map].
  split; [| split; [| split; [| split]]].
  - constructor; [intros [] | constructor].
  - intros l [<- | []]. split; [discriminate | discriminate].
  - intros a Ha. injection Ha as <-. eexists. split; reflexivity.
  - intros l _. split; discriminate.
  - intros s [].
Qed.

Lemma addLayer_Inv (name : string) (type : Layer.kind) (color newId : string)
    (st : App) :
  permitted (AddLayer name type color newId) st -> Inv st ->
  Inv (handleAddLayer name type color newId st).
Proof.
  intros [Hty Hfresh] (I1 & I2 & I3 & I4 & I5).
  set (new := {| Layer.id := newId; Layer.name := name; Layer.type := type;
                 Layer.category := Layer.measurement; Layer.color := color;
                 Layer.isVisible := true;
                 Layer.opacity := if Layer.is_surface type then 0.5%float else 1%float |}).
  assert (Hfind : findLayer (Some newId) (layers st ++ [new]) = Some new).
  { rewrite findLayer_app, (findLayer_absent newId _ Hfresh).
    unfold findLayer. cbn. now rewrite String.eqb_refl. }
  unfold Inv, distinctLayers, kindsOK, activeOK, modeOK, owned in *.
  cbn [handleAddLayer setSelectedShapeId setToolMode setActiveLayerId setLayers
       layers shapes activeLayerId toolMode Layer.id].
  fold new.
  split; [| split; [| split; [| split]]].
  - rewrite map_app. cbn [map]. apply Permutation_NoDup with (l := newId :: map Layer.id (layers st)).
    + apply Permutation_cons_append.
    + constructor; [| exact I1]. intros Hin. apply in_map_iff in Hin.
      destruct Hin as (l & He & Hl). now apply (Hfresh l Hl).
  - intros l Hl. apply in_app_or in Hl. destruct Hl as [Hl | [<- | []]]; [now apply I2 |].
    split; [intros _; exact Hty | discriminate].
  - intros a Ha. injection Ha as <-. exists new. split; [exact Hfind | reflexivity].
  - intros l Hl. rewrite Hfind in Hl. injection Hl as <-. cbn [Layer.type new].
    destruct type; cbn; split; try discriminate; try reflexivity. contradiction.
  - intros s Hs. destruct (I5 s Hs) as (l & Hl & He).
    exists l. split; [apply in_or_app; now left | exact He].
Qed.

Lemma deleteLayer_Inv (id : string) (confirm : bool) (st : App) :
  Inv st -> Inv (handleDeleteLayer id confirm st).
Proof.
  destruct confirm; [| now intros H].
  intros (I1 & I2 & I3 & I4 & I5).
  unfold Inv, distinctLayers, kindsOK, activeOK, modeOK, owned in *.
  rewrite deleteLayer_layers, deleteLayer_shapes, deleteLayer_active,
    (proj1 (deleteLayer_rest id st)).
  split; [| split; [| split; [| split]]].
  - now apply NoDup_map_filter.
  - intros l Hl. apply filter_In in Hl. now apply I2.
  - intros a Ha. destruct (activeLayerId st) as [x |]; [| discriminate].
    cbn [eq_id] in Ha. destruct (String.eqb_spec x id) as [E | N]; [discriminate |].
    injection Ha as <-. destruct (I3 x eq_refl) as (l & Hl & Hc).
    exists l. split; [now rewrite findLayer_filter | exact Hc].
  - intros l Hl. destruct (activeLayerId st) as [x |]; [| now rewrite findLayer_None in Hl].
    cbn [eq_id] in Hl. destruct (String.eqb_spec x id) as [E | N].
    + now rewrite findLayer_None in Hl.
    + rewrite findLayer_filter in Hl by exact N. now apply I4.
  - intros s Hs. apply filter_In in Hs. destruct Hs as [Hs Hb].
    destruct (I5 s Hs) as (l & Hl & He). exists l. split; [| exact He].
    apply filter_In. split; [exact Hl |]. now rewrite He.
Qed.

Lemma setActiveLayer_Inv (id : string) (st : App) :
  permitted (SetActiveLayer id) st -> Inv st -> Inv (handleSetActiveLayer id st).
Proof.
  intros (l & Hl & Hid) (I1 & I2 & I3 & I4 & I5).
  apply filter_In in Hl. destruct Hl as [Hl Hm].
  assert (Hc : Layer.category l = Layer.measurement).
  { destruct (Layer.category l); [reflexivity | discriminate]. }
  assert (Hfind : findLayer (Some id) (layers st) = Some l).
  { rewrite <- Hid. now apply findLayer_distinct. }
  unfold handleSetActiveLayer. rewrite Hfind.
  unfold Inv, distinctLayers, kindsOK, activeOK, modeOK, owned in *.
  cbn [setSelectedShapeId setToolMode setActiveLayerId layers shapes activeLayerId toolMode].
  split; [exact I1 |]. split; [exact I2 |]. split; [| split; [| exact I5]].
  - intros a Ha. injection Ha as <-. now exists l.
  - intros l' Hl'. rewrite Hfind in Hl'. injection Hl' as <-.
    destruct (I2 l Hl) as [Hnm _]. specialize (Hnm Hc).
    destruct (Layer.type l); cbn; split; try discriminate; try reflexivity.
    contradiction.
Qed.

Lemma toolButtons_Inv (st : App) :
  Inv st -> Inv (clickSelectTool st) /\ Inv (clickPolygonTool st) /\ Inv (clickLineTool st).
Proof.
  intros HI. pose proof HI as (I1 & I2 & I3 & I4 & I5).
  assert (Hen : forall other,
            drawDisabled other st = false ->
            forall l, findLayer (activeLayerId st) (layers st) = Some l ->
              Layer.category l = Layer.measurement /\ other (Layer.type l) = false).
  { intros other Hd l Hl. unfold drawDisabled in Hd.
    destruct (activeLayerId st) as [a |]; [| discriminate].
    destruct (String.eqb a ""); [discriminate |]. rewrite Hl in Hd.
    apply orb_false_iff in Hd. destruct Hd as [Hc Ho]. split; [| exact Ho].
    destruct (Layer.category l); [reflexivity | discriminate]. }
  split; [| split].
  - apply (Inv_tool_change st); try reflexivity; [| exact HI].
    intros l _. cbn. split; discriminate.
  - unfold clickPolygonTool. destruct (drawDisabled Layer.is_length st) eqn:D; [exact HI |].
    apply (Inv_tool_change st); try reflexivity; [| exact HI].
    intros l Hl. cbn in Hl. destruct (Hen _ D l Hl) as [Hc Ho].
    destruct (findLayer_some _ _ _ Hl) as [Hin _].
    destruct (I2 l Hin) as [Hnm _]. specialize (Hnm Hc).
    cbn. split; [intros _ | discriminate].
    destruct (Layer.type l); [reflexivity | discriminate | contradiction].
  - unfold clickLineTool. destruct (drawDisabled Layer.is_surface st) eqn:D; [exact HI |].
    apply (Inv_tool_change st); try reflexivity; [| exact HI].
    intros l Hl. cbn in Hl. destruct (Hen _ D l Hl) as [Hc Ho].
    destruct (findLayer_some _ _ _ Hl) as [Hin _].
    destruct (I2 l Hin) as [Hnm _]. specialize (Hnm Hc).
    cbn. split; [discriminate | intros _].
    destruct (Layer.type l); [discriminate | reflexivity | contradiction].
Qed.

Lemma rewriters_keep_fields (id : string) (v : float) :
  sameButField (fun l =>
    if String.eqb (Layer.id l) id
    then {| Layer.id := Layer.id l; Layer.name := Layer.name l;
            Layer.color := Layer.color l; Layer.type := Layer.type l;
            Layer.category := Layer.category l;
            Layer.isVisible := negb (Layer.isVisible l);
            Layer.opacity := Layer.opacity l |}
    else l)
  /\ sameButField (fun l =>
    if String.eqb (Layer.id l) id
    then {| Layer.id := Layer.id l; Layer.name := Layer.name l;
            Layer.color := Layer.color l; Layer.type := Layer.type l;
            Layer.category := Layer.category l;
            Layer.isVisible := Layer.isVisible l;
            Layer.opacity := v |}
    else l).
Proof.
  split; intros l; destruct (String.eqb (Layer.id l) id); repeat split; reflexivity.
Qed.

Lemma owned_fewer_shapes (f : Shape.t -> bool) (st st' : App) :
  layers st' = layers st -> shapes st' = filter f (shapes st) ->
  owned st -> owned st'.
Proof.
  intros EL ES Ho s Hs. rewrite ES in Hs. apply filter_In in Hs.
  rewrite EL. apply Ho. now destruct Hs.
Qed.

Lemma deleteShape_Inv (id : string) (confirm : bool) (st : App) :
  Inv st -> Inv (handleDeleteShape id confirm st).
Proof.
  intros HI. unfold handleDeleteShape. destruct confirm; [| exact HI].
  destruct (eq_id (selectedShapeId st) id);
    (apply (Inv_same_structure st); try reflexivity; [| exact HI]);
    (apply (owned_fewer_shapes (fun s => negb (String.eqb (Shape.id s) id)) st);
       [reflexivity | reflexivity | apply HI]).
Qed.

Section StepFacts.

Variable turf_area : list (float * float) -> option float.
Variable turf_length : list (float * float) -> option float.
Variable parseFromString : string -> Node.

Local Abbreviation run := (step turf_area turf_length parseFromString).
Local Abbreviation convert := (handleConvertShape turf_area turf_length).
Local Abbreviation complete := (handleShapeComplete turf_area turf_length).
Local Abbreviation import := (handleKmlImport parseFromString).

Lemma convert_structure (shapeId newId : string) (confirm : bool) (st : App) :
  layers (fst (convert shapeId confirm newId st)) = layers st
  /\ activeLayerId (fst (convert shapeId confirm newId st)) = activeLayerId st
  /\ toolMode (fst (convert shapeId confirm newId st)) = toolMode st
  /\ forall s, In s (shapes (fst (convert shapeId confirm newId st))) ->
       In s (shapes st)
       \/ exists L, In L (layers st) /\ Layer.id L = Shape.layerId s.
Proof.
  unfold handleConvertShape.
  destruct (findShape shapeId (shapes st)) as [sh |];
    [| repeat split; try reflexivity; intros s Hs; now left].
  destruct (findLayer (activeLayerId st) (layers st)) as [L |] eqn:EL;
    [| repeat split; try reflexivity; intros s Hs; now left].
  destruct (negb (Layer.is_measurement (Layer.category L)));
    [repeat split; try reflexivity; intros s Hs; now left |].
  destruct confirm; [| repeat split; try reflexivity; intros s Hs; now left].
  split; [reflexivity |]. split; [reflexivity |]. split; [reflexivity |].
  intros s Hs. cbn [fst setSelectedShapeId setShapes shapes] in Hs.
  apply in_app_or in Hs. destruct Hs as [Hs | [<- | []]].
  - left. apply filter_In in Hs. now destruct Hs.
  - right. exists L. split; [| reflexivity].
    now destruct (findLayer_some _ _ _ EL).
Qed.

Lemma complete_structure (pts : list GeoPoint) (answer : option string)
    (newId : string) (st : App) :
  layers (fst (complete pts answer newId st)) = layers st
  /\ activeLayerId (fst (complete pts answer newId st)) = activeLayerId st
  /\ toolMode (fst (complete pts answer newId st)) = toolMode st
  /\ forall s, In s (shapes (fst (complete pts answer newId st))) ->
       In s (shapes st)
       \/ exists L, In L (layers st) /\ Layer.id L = Shape.layerId s.
Proof.
  unfold handleShapeComplete.
  destruct (findLayer (activeLayerId st) (layers st)) as [al |] eqn:EL;
    [| repeat split; try reflexivity; intros s Hs; now left].
  destruct (completeMeasure turf_area turf_length (Layer.type al) pts) as [m e].
  destruct answer as [name |];
    [| repeat split; try reflexivity; intros s Hs; now left].
  split; [reflexivity |]. split; [reflexivity |]. split; [reflexivity |].
  intros s Hs. cbn [fst handleAddShape setShapes shapes] in Hs.
  apply in_app_or in Hs. destruct Hs as [Hs | [<- | []]]; [now left |].
  right. exists al. split; [| reflexivity].
  now destruct (findLayer_some _ _ _ EL).
Qed.

Lemma owned_from_cases (st st' : App) :
  layers st' = layers st ->
  (forall s, In s (shapes st') ->
     In s (shapes st) \/ exists L, In L (layers st) /\ Layer.id L = Shape.layerId s) ->
  owned st -> owned st'.
Proof.
  intros EL H Ho s Hs. rewrite EL. destruct (H s Hs) as [Hin | Hex]; [now apply Ho | exact Hex].
Qed.

Lemma import_Inv (file : option File.t) (gen : nat -> string) (st : App) :
  permitted (KmlImport file gen) st -> Inv st -> Inv (fst (import file gen st)).
Proof.
  intros [Hinj Hfresh] (I1 & I2 & I3 & I4 & I5).
  destruct (import_appends parseFromString file gen st)
    as (aL & aS & EL & ES & Hor & EA & _ & ET).
  assert (Hnew : Forall isImported aL /\ Forall (isImportedShape aL) aS
                 /\ NoDup (map Layer.id aL)
                 /\ forall x, In x (map Layer.id aL) -> exists k, x = gen k).
  { destruct Hor as [[-> ->] | (f & _ & -> & ->)].
    - repeat split; try constructor. intros x [].
    - destruct (collect_well_formed gen (File.name f) (parseFromString (File.text f)))
        as [H1 H2].
      destruct (collect_ids gen (File.name f) (parseFromString (File.text f)))
        as [HP _].
      split; [exact H1 |]. split; [exact H2 |]. split.
      + apply (NoDup_app_remove_r _ (map Shape.id (newShapes
                 (collect gen (File.name f) (parseFromString (File.text f)))))).
        eapply Permutation_NoDup; [apply Permutation_sym; exact HP |].
        now apply NoDup_map_seq.
      + intros x Hx.
        assert (Hin : In x (map gen (seq 0 (drawn
                  (collect gen (File.name f) (parseFromString (File.text f))))))).
        { eapply Permutation_in; [exact HP |]. unfold importIds.
          apply in_or_app. now left. }
        apply in_map_iff in Hin. destruct Hin as (k & <- & _). now exists k. }
  destruct Hnew as (N1 & N2 & N3 & N4).
  unfold Inv, distinctLayers, kindsOK, activeOK, modeOK, owned in *.
  rewrite EL, ES, EA, ET.
  split; [| split; [| split; [| split]]].
  - rewrite map_app. apply NoDup_app; [exact I1 | exact N3 |].
    intros x Hx Hx'. destruct (N4 x Hx') as (k & ->).
    apply in_map_iff in Hx. destruct Hx as (l & He & Hl).
    now apply (Hfresh k l Hl).
  - intros l Hl. apply in_app_or in Hl. destruct Hl as [Hl | Hl]; [now apply I2 |].
    rewrite Forall_forall in N1. destruct (N1 l Hl) as (Hc & Ht & _).
    rewrite Hc, Ht. split; [discriminate | reflexivity].
  - intros a Ha. destruct (I3 a Ha) as (l & Hl & Hc).
    exists l. split; [| exact Hc]. now rewrite findLayer_app, Hl.
  - intros l Hl. rewrite findLayer_app in Hl.
    destruct (activeLayerId st) as [a |] eqn:Ea.
    + destruct (I3 a eq_refl) as (l0 & Hl0 & _). rewrite Hl0 in Hl.
      injection Hl as <-. now apply I4.
    + now rewrite !findLayer_None in Hl.
  - intros s Hs. apply in_app_or in Hs. destruct Hs as [Hs | Hs].
    + destruct (I5 s Hs) as (l & Hl & He). exists l.
      split; [apply in_or_app; now left | exact He].
    + rewrite Forall_forall in N2. destruct (N2 s Hs) as (_ & _ & _ & l & Hl & He).
      exists l. split; [apply in_or_app; now right | exact He].
Qed.

Lemma step_Inv (a : Action) (st : App) :
  permitted a st -> Inv st -> Inv (fst (run a st)).
Proof.
  intros Hp HI.
  destruct a as [name type color newId | id c | id | id v | id | sh | id c | c
                | sel | sId c nId | f g | | | | pts ans nId | ]; cbn [step fst].
  - now apply addLayer_Inv.
  - now apply deleteLayer_Inv.
  - apply (Inv_rewrite_layers _ st _ (proj1 (rewriters_keep_fields id 0%float)));
      try reflexivity. exact HI.
  - apply (Inv_rewrite_layers _ st _ (proj2 (rewriters_keep_fields id v)));
      try reflexivity. exact HI.
  - now apply setActiveLayer_Inv.
  - apply (Inv_same_structure st); try reflexivity; [| exact HI].
    intros s Hs. cbn [handleAddShape setShapes shapes layers] in *.
    apply in_app_or in Hs. destruct Hs as [Hs | [<- | []]]; [now apply HI | exact Hp].
  - now apply deleteShape_Inv.
  - destruct (truthy (selectedShapeId st)); [now apply deleteShape_Inv | exact HI].
  - apply (Inv_same_structure st); try reflexivity; [| exact HI]. apply HI.
  - destruct (convert_structure sId nId c st) as (EL & EA & ET & Hs).
    apply (Inv_same_structure st); try assumption.
    apply (owned_from_cases st); [exact EL | exact Hs | apply HI].
  - now apply import_Inv.
  - now apply (toolButtons_Inv st).
  - now apply (toolButtons_Inv st).
  - now apply (toolButtons_Inv st).
  - destruct (complete_structure pts ans nId st) as (EL & EA & ET & Hs).
    apply (Inv_same_structure st); try assumption.
    apply (owned_from_cases st); [exact EL | exact Hs | apply HI].
  - apply (Inv_same_structure st); try reflexivity; [| exact HI]. apply HI.
Qed.

Lemma reachable_Inv (st : App) :
  Reachable turf_area turf_length parseFromString st -> Inv st.
Proof.
  intros H. induction H as [| a st _ IH Hp]; [exact initial_Inv |].
  now apply step_Inv.
Qed.

End StepFacts.

(** ** The capture component *)

Lemma tryFinish_cases (mode : ToolMode) (d : DrawingManager.t) :
  (finishShown mode d = true
   /\ DrawingManager.handleTryFinish mode d
      = ({| DrawingManager.points := [];
            DrawingManager.cursorPos := DrawingManager.cursorPos d |},
         [DrawingManager.onFinish (DrawingManager.points d)]))
  \/ (finishShown mode d = false
      /\ DrawingManager.handleTryFinish mode d = (d, [])).
Proof.
  unfold finishShown, DrawingManager.handleTryFinish.
  destruct (DrawingManager.is_draw_polygon mode
            && (3 <=? List.length (DrawingManager.points d))).
  - left. split; reflexivity.
  - cbn [orb].
    destruct (DrawingManager.is_draw_line mode
              && (2 <=? List.length (DrawingManager.points d))).
    + left. split; reflexivity.
    + right. split; reflexivity.
Qed.

Lemma finishShown_enough (mode : ToolMode) (d : DrawingManager.t) :
  finishShown mode d = true ->
  (mode = DRAW_POLYGON /\ 3 <= List.length (DrawingManager.points d))
  \/ (mode = DRAW_LINE /\ 2 <= List.length (DrawingManager.points d)).
Proof.
  unfold finishShown. intros H. apply orb_prop in H.
  destruct H as [H | H]; apply andb_prop in H; destruct H as [Hm Hl];
    apply Nat.leb_le in Hl; destruct mode; try discriminate; [left | right];
    now split.
Qed.

Lemma handle_emits (mode : ToolMode) (e : DrawingManager.Event)
    (d : DrawingManager.t) (pts : list GeoPoint) :
  In (DrawingManager.onFinish pts) (snd (DrawingManager.handle mode e d)) ->
  pts = DrawingManager.points d
  /\ DrawingManager.points (fst (DrawingManager.handle mode e d)) = []
  /\ ((mode = DRAW_POLYGON /\ 3 <= List.length pts)
      \/ (mode = DRAW_LINE /\ 2 <= List.length pts)).
Proof.
  assert (HT : In (DrawingManager.onFinish pts)
                  (snd (DrawingManager.handleTryFinish mode d)) ->
               pts = DrawingManager.points d
               /\ DrawingManager.points (fst (DrawingManager.handleTryFinish mode d)) = []
               /\ ((mode = DRAW_POLYGON /\ 3 <= List.length pts)
                   \/ (mode = DRAW_LINE /\ 2 <= List.length pts))).
  { intros Hin. destruct (tryFinish_cases mode d) as [[Hs E] | [Hs E]];
      rewrite E in *; cbn [fst snd] in *; [| destruct Hin].
    destruct Hin as [Hin | []]. injection Hin as <-.
    split; [reflexivity |]. split; [reflexivity |]. now apply finishShown_enough. }
  intros Hin.
  destruct e as [p | p | | | | i | |]; cbn [DrawingManager.handle] in *.
  - destruct (DrawingManager.is_select mode); destruct Hin.
  - destruct (DrawingManager.is_select mode); destruct Hin.
  - destruct (DrawingManager.is_select mode); [destruct Hin | now apply HT].
  - destruct (DrawingManager.is_select mode); [destruct Hin | now apply HT].
  - destruct (DrawingManager.is_select mode); [destruct Hin |].
    destruct Hin as [Hin | []]. discriminate.
  - destruct ((i =? 0) && DrawingManager.is_draw_polygon mode
              && (3 <=? List.length (DrawingManager.points d)));
      [now apply HT | destruct Hin].
  - now apply HT.
  - now apply HT.
Qed.

(** X11. Whatever the event and the state of the capture, the points
    handed to [onFinish] are the points captured so far, at least 3 of
    them in polygon mode and at least 2 in line mode, and the capture
    then holds no point; the Finish button is on the screen exactly in
    the states in which a request to finish is granted. *)
Theorem capture_finishes_with_enough_points (mode : ToolMode)
    (e : DrawingManager.Event) (d : DrawingManager.t) :
  (forall pts, In (DrawingManager.onFinish pts) (snd (DrawingManager.handle mode e d)) ->
     pts = DrawingManager.points d
     /\ DrawingManager.points (fst (DrawingManager.handle mode e d)) = []
     /\ ((mode = DRAW_POLYGON /\ 3 <= List.length pts)
         \/ (mode = DRAW_LINE /\ 2 <= List.length pts)))
  /\ (finishShown mode d = true <->
      snd (DrawingManager.handleTryFinish mode d)
      = [DrawingManager.onFinish (DrawingManager.points d)])
  /\ (finishShown mode d = false <->
      DrawingManager.handleTryFinish mode d = (d, [])).
Proof.
  split; [| split].
  - intros pts. apply handle_emits.
  - destruct (tryFinish_cases mode d) as [[Hs E] | [Hs E]]; rewrite E, Hs; cbn [snd].
    + split; reflexivity.
    + split; discriminate.
  - destruct (tryFinish_cases mode d) as [[Hs E] | [Hs E]]; rewrite E, Hs.
    + split; [discriminate |]. intros H. injection H as _ H. discriminate.
    + split; reflexivity.
Qed.

Lemma handleAll_app (mode : ToolMode) (a b : list DrawingManager.Event)
    (d : DrawingManager.t) :
  handleAll mode (a ++ b) d
  = let '(d1, out1) := handleAll mode a d in
    let '(d2, out2) := handleAll mode b d1 in
    (d2, out1 ++ out2).
Proof.
  revert d. induction a as [| e r IH]; intros d; cbn [app handleAll].
  - now destruct (handleAll mode b d).
  - destruct (DrawingManager.handle mode e d) as [d1 o1]. rewrite IH.
    destruct (handleAll mode r d1) as [d2 o2].
    destruct (handleAll mode b d2) as [d3 o3]. now rewrite app_assoc.
Qed.

Lemma handleAll_clicks (mode : ToolMode) (ps : list GeoPoint) (d : DrawingManager.t) :
  mode <> SELECT ->
  handleAll mode (map DrawingManager.click ps) d
  = ({| DrawingManager.points := DrawingManager.points d ++ ps;
        DrawingManager.cursorPos := DrawingManager.cursorPos d |}, []).
Proof.
  intros Hm. revert d. induction ps as [| p r IH]; intros d; cbn [map handleAll].
  - rewrite app_nil_r. now destruct d.
  - cbn [DrawingManager.handle].
    assert (Hs : DrawingManager.is_select mode = false) by now destruct mode.
    rewrite Hs, IH. cbn. now rewrite <- app_assoc.
Qed.

(** X12. A capture session: in a drawing mode, clicks add their
    points in order; then the Enter key, with enough points in all,
    hands all the points to [onFinish] and empties the capture, while
    with too few it changes nothing; and the Escape key empties the
    capture and calls [onCancel], whatever was captured. *)
Theorem capture_session (mode : ToolMode) (ps : list GeoPoint) (d : DrawingManager.t)
    (n : nat) :
  required mode = Some n ->
  let all := DrawingManager.points d ++ ps in
  let held := {| DrawingManager.points := all;
                 DrawingManager.cursorPos := DrawingManager.cursorPos d |} in
  let empty := {| DrawingManager.points := [];
                  DrawingManager.cursorPos := DrawingManager.cursorPos d |} in
  (n <= List.length all ->
     handleAll mode (map DrawingManager.click ps ++ [DrawingManager.keyEnter]) d
     = (empty, [DrawingManager.onFinish all]))
  /\ (List.length all < n ->
     handleAll mode (map DrawingManager.click ps ++ [DrawingManager.keyEnter]) d
     = (held, []))
  /\ handleAll mode (map DrawingManager.click ps ++ [DrawingManager.keyEscape]) d
     = (empty, [DrawingManager.onCancel]).
Proof.
  intros Hn all held empty.
  assert (Hm : mode <> SELECT) by (destruct mode; [discriminate | discriminate | discriminate]).
  assert (Hs : DrawingManager.is_select mode = false) by now destruct mode.
  split; [| split].
  - intros Hle. rewrite handleAll_app, (handleAll_clicks mode ps d Hm).
    cbn [handleAll DrawingManager.handle]. rewrite Hs.
    rewrite (handleTryFinish_enough mode _ n Hn) by exact Hle. reflexivity.
  - intros Hlt. rewrite handleAll_app, (handleAll_clicks mode ps d Hm).
    cbn [handleAll DrawingManager.handle]. rewrite Hs.
    rewrite (handleTryFinish_short mode _ n Hn) by exact Hlt. reflexivity.
  - rewrite handleAll_app, (handleAll_clicks mode ps d Hm).
    cbn [handleAll DrawingManager.handle]. rewrite Hs. reflexivity.
Qed.

(** Three clicks and Enter in polygon mode; two clicks and Enter. *)
Lemma capture_session_witness :
  handleAll DRAW_POLYGON
    (map DrawingManager.click triangle ++ [DrawingManager.keyEnter])
    DrawingManager.initial
  = (DrawingManager.initial, [DrawingManager.onFinish triangle])
  /\ handleAll DRAW_POLYGON
       (map DrawingManager.click [pt 48.5 2.25; pt 48.5 2.5] ++ [DrawingManager.keyEnter])
       DrawingManager.initial
     = ({| DrawingManager.points := [pt 48.5 2.25; pt 48.5 2.5];
           DrawingManager.cursorPos := None |}, []).
Proof.
  split.
  - apply (proj1 (capture_session DRAW_POLYGON triangle DrawingManager.initial 3 eq_refl)).
    cbn. lia.
  - apply (proj1 (proj2 (capture_session DRAW_POLYGON [pt 48.5 2.25; pt 48.5 2.5]
                           DrawingManager.initial 3 eq_refl))).
    cbn. lia.
Defined.

(** ** Reachable states *)

Section ReachableClaims.

Variable turf_area : list (float * float) -> option float.
Variable turf_length : list (float * float) -> option float.
Variable parseFromString : string -> Node.

Local Abbreviation reachable := (Reachable turf_area turf_length parseFromString).
Local Abbreviation complete := (handleShapeComplete turf_area turf_length).

Lemma complete_shape (pts : list GeoPoint) (name newId : string) (st : App)
    (al : Layer.t) :
  findLayer (activeLayerId st) (layers st) = Some al ->
  fst (complete pts (Some name) newId st)
  = handleAddShape (completedShape turf_area turf_length pts name newId al) st.
Proof.
  intros H. unfold handleShapeComplete, completedShape. rewrite H.
  now destruct (completeMeasure turf_area turf_length (Layer.type al) pts).
Qed.



End ReachableClaims.

(** The initial state with the polygon tool chosen, a triangle captured
    and named. *)
Lemma reachable_polygon_tool :
  Reachable area1024 halfKm (parserOf emptyDoc) (clickPolygonTool initialApp).
Proof.
  exact (reach_step area1024 halfKm (parserOf emptyDoc) ClickPolygonTool initialApp
           (reach_initial _ _ _) I).
Qed.




(** ** The selection tool bar *)

Section ToolbarClaims.

Variable turf_area : list (float * float) -> option float.
Variable turf_length : list (float * float) -> option float.
Variable parseFromString : string -> Node.

Local Abbreviation run := (step turf_area turf_length parseFromString).

Lemma toolbar_shown (st : App) (b : MapCanvas.Button) :
  In b (MapCanvas.toolbar st) ->
  exists sid s,
    selectedShapeId st = Some sid /\ sid <> ""
    /\ findShape sid (shapes st) = Some s
    /\ or_else (selectedShapeId st) "" = sid.
Proof.
  unfold MapCanvas.toolbar, MapCanvas.selectedShape.
  destruct (selectedShapeId st) as [sid |]; [| intros []].
  destruct (findShape sid (shapes st)) as [s |] eqn:Es; [| intros []].
  cbn [truthy or_else]. destruct (String.eqb_spec sid "") as [E | N]; [intros [] |].
  intros _. exists sid, s.
  split; [reflexivity |]. split; [exact N |]. split; [exact Es |].
  destruct (String.eqb_spec sid "") as [E | _]; [contradiction | reflexivity].
Qed.

(** X16. When the tool bar offers the conversion, a shape is
    selected, it exists and it lies in an imported layer.  The click
    then never ends silently: with no acceptable target it raises the
    invalid-target alert and changes nothing; with one, and the dialog
    confirmed, the shape is replaced and the new shape selected, after
    which the tool bar offers to delete it and no longer to convert
    it. *)
Theorem toolbar_convert (st : App) (newId : string) :
  In MapCanvas.convertButton (MapCanvas.toolbar st) ->
  exists sid s,
    selectedShapeId st = Some sid
    /\ findShape sid (shapes st) = Some s
    /\ (exists kl, findLayer (Some (Shape.layerId s)) (layers st) = Some kl
                   /\ Layer.category kl = Layer.kml)
    /\ (forall confirm,
          toolbarAction MapCanvas.convertButton confirm newId st
          = ConvertShape sid confirm newId)
    /\ (validTarget st = false ->
          forall confirm,
          run (toolbarAction MapCanvas.convertButton confirm newId st) st
          = (st, [alert InvalidTargetLayer]))
    /\ (validTarget st = true -> freshId newId (shapes st) = true -> newId <> "" ->
          MapCanvas.toolbar
            (fst (run (toolbarAction MapCanvas.convertButton true newId st) st))
          = [MapCanvas.deleteButton; MapCanvas.closeButton]).
Proof.
  intros Hin. destruct (toolbar_shown st _ Hin) as (sid & s & Hsel & Hne & Hs & Hor).
  exists sid, s. split; [exact Hsel |]. split; [exact Hs |].
  assert (Hact : forall confirm,
            toolbarAction MapCanvas.convertButton confirm newId st
            = ConvertShape sid confirm newId).
  { intros confirm. cbn [toolbarAction]. now rewrite Hor. }
  split; [| split; [exact Hact | split]].
  - unfold MapCanvas.toolbar in Hin.
    destruct (MapCanvas.selectedShape st) as [s' |] eqn:Es; [| destruct Hin].
    destruct (truthy (selectedShapeId st)); [| destruct Hin].
    destruct (MapCanvas.isKmlSelection st) eqn:Ek;
      [| destruct Hin as [Hin | [Hin | []]]; discriminate].
    unfold MapCanvas.isKmlSelection in Ek. rewrite Es in Ek.
    assert (s' = s).
    { unfold MapCanvas.selectedShape in Es. rewrite Hsel, Hs in Es. now injection Es. }
    subst s'.
    destruct (findLayer (Some (Shape.layerId s)) (layers st)) as [kl |]; [| discriminate].
    exists kl. split; [reflexivity |].
    destruct (Layer.category kl); [discriminate | reflexivity].
  - intros Hv confirm. rewrite Hact. cbn [step].
    destruct (convert_invalid turf_area turf_length sid newId confirm st Hv) as [E A].
    rewrite (surjective_pairing (handleConvertShape _ _ _ _ _ _)).
    now rewrite E, (A s Hs).
  - intros Hv Hfresh Hnew. rewrite Hact. cbn [step].
    unfold validTarget in Hv.
    destruct (findLayer (activeLayerId st) (layers st)) as [L |] eqn:EL; [| discriminate].
    rewrite (convert_done turf_area turf_length sid newId st s L Hs EL Hv).
    cbn [fst]. unfold MapCanvas.toolbar, MapCanvas.isKmlSelection, MapCanvas.selectedShape.
    cbn [selectedShapeId setSelectedShapeId setShapes shapes layers truthy].
    rewrite (findShape_app_last newId _ (convertedShape turf_area turf_length s L newId)
               (findShape_fresh_filtered newId sid _ Hfresh) eq_refl).
    destruct (String.eqb_spec newId "") as [E | _]; [contradiction |].
    cbn [negb]. replace (Shape.layerId (convertedShape turf_area turf_length s L newId))
      with (Layer.id L) by reflexivity.
    destruct (findLayer_some _ _ _ EL) as [_ Ha]. rewrite <- Ha, EL, Hv. reflexivity.
Qed.

End ToolbarClaims.

(** In the small project the selected parcel lies in the imported
    layer: the conversion is offered, and after it the deletion. *)
Lemma toolbar_convert_witness :
  MapCanvas.toolbar demoApp = [MapCanvas.convertButton; MapCanvas.closeButton]
  /\ MapCanvas.toolbar
       (fst (step area1024 halfKm (parserOf emptyDoc)
               (toolbarAction MapCanvas.convertButton true "n1" demoApp) demoApp))
     = [MapCanvas.deleteButton; MapCanvas.closeButton].
Proof.
  assert (Hin : In MapCanvas.convertButton (MapCanvas.toolbar demoApp)).
  { cbn. now left. }
  assert (Hnew : "n1" <> "") by discriminate.
  destruct (toolbar_convert area1024 halfKm (parserOf emptyDoc) demoApp "n1" Hin)
    as (sid & s & _ & _ & _ & _ & _ & H).
  split; [reflexivity |]. exact (H eq_refl demo_fresh Hnew).
Defined.

(** ** Visibility, opacity, deleting a shape *)

Lemma toggle_twice_layer (id : string) (l : Layer.t) :
  let f := fun l : Layer.t =>
    if String.eqb (Layer.id l) id
    then {| Layer.id := Layer.id l; Layer.name := Layer.name l;
            Layer.color := Layer.color l; Layer.type := Layer.type l;
            Layer.category := Layer.category l;
            Layer.isVisible := negb (Layer.isVisible l);
            Layer.opacity := Layer.opacity l |}
    else l in
  f (f l) = l.
Proof.
  intros f. unfold f. destruct l as [i n c t k v o]. cbn.
  destruct (String.eqb i id) eqn:E; cbn; rewrite ?E; cbn;
    rewrite ?negb_involutive; reflexivity.
Qed.

Lemma opacity_twice_layer (id : string) (v w : float) (l : Layer.t) :
  let f := fun (x : float) (l : Layer.t) =>
    if String.eqb (Layer.id l) id
    then {| Layer.id := Layer.id l; Layer.name := Layer.name l;
            Layer.color := Layer.color l; Layer.type := Layer.type l;
            Layer.category := Layer.category l;
            Layer.isVisible := Layer.isVisible l;
            Layer.opacity := x |}
    else l in
  f w (f v l) = f w l.
Proof.
  intros f. unfold f. destruct l as [i n c t k x o]. cbn.
  destruct (String.eqb i id) eqn:E; cbn; rewrite ?E; reflexivity.
Qed.

(** X17. Toggling the visibility of a layer twice gives back the
    very same state; of two opacity writes to a layer only the last
    one counts; and a layer is on the map exactly when it is visible,
    so hiding a layer takes it and its shapes off the map and nothing
    else. *)
Theorem visibility_and_opacity_compose (id : string) (v w : float) (st : App) :
  handleToggleVisibility id (handleToggleVisibility id st) = st
  /\ handleUpdateOpacity id w (handleUpdateOpacity id v st) = handleUpdateOpacity id w st
  /\ (forall l, In l (map fst (MapCanvas.rendered st))
                <-> In l (layers st) /\ Layer.isVisible l = true)
  /\ shapes (handleToggleVisibility id st) = shapes st.
Proof.
  split; [| split; [| split; [| reflexivity]]].
  - apply App_eq; try reflexivity.
    cbn [handleToggleVisibility setLayers layers]. rewrite map_map.
    rewrite <- (map_id (layers st)) at 2. apply map_ext. intros l.
    apply (toggle_twice_layer id l).
  - apply App_eq; try reflexivity.
    cbn [handleUpdateOpacity setLayers layers]. rewrite map_map.
    apply map_ext. intros l. apply (opacity_twice_layer id v w l).
  - intros l. unfold MapCanvas.rendered. rewrite map_map. cbn [fst]. rewrite map_id.
    rewrite filter_In, sortedLayers_in. reflexivity.
Qed.

Lemma findShape_filter_other (sel id : string) (ss : list Shape.t) :
  sel <> id ->
  findShape sel (filter (fun s => negb (String.eqb (Shape.id s) id)) ss)
  = findShape sel ss.
Proof.
  intros Hne. unfold findShape.
  induction ss as [| x r IH]; [reflexivity |].
  cbn [filter find].
  destruct (String.eqb_spec (Shape.id x) id) as [E | N]; cbn [negb].
  - destruct (String.eqb_spec (Shape.id x) sel) as [E' | _]; [| exact IH].
    exfalso. apply Hne. now rewrite <- E', <- E.
  - cbn [find]. destruct (String.eqb (Shape.id x) sel); [reflexivity | exact IH].
Qed.

(** X18. Deleting a shape, once confirmed, removes the shapes with
    that id and no other, in place; layers, active layer and tool are
    untouched; the selection is dropped exactly when it was the deleted
    id, so a selection that named a shape still names the same shape
    afterwards; deleting again changes nothing, and a declined dialog
    changes nothing at all. *)
Theorem deleteShape_exact (id : string) (st : App) :
  let st' := handleDeleteShape id true st in
  (forall s, In s (shapes st') <-> In s (shapes st) /\ Shape.id s <> id)
  /\ findShape id (shapes st') = None
  /\ layers st' = layers st
  /\ activeLayerId st' = activeLayerId st
  /\ toolMode st' = toolMode st
  /\ selectedShapeId st'
     = (if eq_id (selectedShapeId st) id then None else selectedShapeId st)
  /\ (forall sel, selectedShapeId st' = Some sel ->
        selectedShapeId st = Some sel
        /\ findShape sel (shapes st') = findShape sel (shapes st))
  /\ handleDeleteShape id true st' = st'
  /\ handleDeleteShape id false st = st.
Proof.
  cbn zeta.
  assert (ES : shapes (handleDeleteShape id true st)
               = filter (fun s => negb (String.eqb (Shape.id s) id)) (shapes st)).
  { unfold handleDeleteShape. now destruct (eq_id (selectedShapeId st) id). }
  assert (EL : layers (handleDeleteShape id true st) = layers st).
  { unfold handleDeleteShape. now destruct (eq_id (selectedShapeId st) id). }
  assert (EA : activeLayerId (handleDeleteShape id true st) = activeLayerId st).
  { unfold handleDeleteShape. now destruct (eq_id (selectedShapeId st) id). }
  assert (ET : toolMode (handleDeleteShape id true st) = toolMode st).
  { unfold handleDeleteShape. now destruct (eq_id (selectedShapeId st) id). }
  assert (EM : mapCenter (handleDeleteShape id true st) = mapCenter st).
  { unfold handleDeleteShape. now destruct (eq_id (selectedShapeId st) id). }
  assert (EX : selectedShapeId (handleDeleteShape id true st)
               = if eq_id (selectedShapeId st) id then None else selectedShapeId st).
  { unfold handleDeleteShape. now destruct (eq_id (selectedShapeId st) id). }
  split; [| split; [| split; [| split; [| split; [| split; [| split; [| split]]]]]]].
  - intros s. rewrite ES, filter_In.
    split; intros [Hin Hb]; (split; [exact Hin |]).
    + apply negb_true_iff in Hb. now apply String.eqb_neq.
    + apply negb_true_iff. now apply String.eqb_neq.
  - rewrite ES. apply (findShape_filtered id).
  - exact EL.
  - exact EA.
  - exact ET.
  - exact EX.
  - intros sel Hsel. rewrite EX in Hsel.
    destruct (eq_id (selectedShapeId st) id) eqn:E; [discriminate |].
    split; [exact Hsel |].
    rewrite ES. apply findShape_filter_other.
    rewrite Hsel in E. cbn [eq_id] in E. now apply String.eqb_neq.
  - set (st' := handleDeleteShape id true st) in *.
    assert (Hsel : eq_id (selectedShapeId st') id = false).
    { rewrite EX. destruct (eq_id (selectedShapeId st) id) eqn:E; [reflexivity | exact E]. }
    unfold handleDeleteShape at 1. rewrite Hsel.
    apply App_eq; cbn [setShapes layers shapes activeLayerId selectedShapeId
                         toolMode mapCenter]; try reflexivity.
    rewrite ES. apply filter_twice.
  - reflexivity.
Qed.

(** ** The analysis report *)

Lemma measurementShapes_of (st : App) (l : Layer.t) :
  distinctLayers st -> In l (layers st) ->
  Layer.category l = Layer.measurement ->
  shapesOf (Layer.id l) (measurementShapes st) = shapesOf (Layer.id l) (shapes st).
Proof.
  intros Hd Hin Hc. unfold measurementShapes. apply shapesOf_filter_other.
  intros s _ Hs. rewrite Hs, (findLayer_distinct _ l Hd Hin), Hc. reflexivity.
Qed.

Lemma measurementShapes_in (st : App) (s : Shape.t) :
  In s (measurementShapes st) ->
  In s (shapes st)
  /\ exists l, In l (LayerManager.measurementLayers (layers st))
               /\ Layer.id l = Shape.layerId s.
Proof.
  unfold measurementShapes. intros H. apply filter_In in H. destruct H as [Hin Hk].
  split; [exact Hin |].
  destruct (findLayer (Some (Shape.layerId s)) (layers st)) as [l |] eqn:E;
    [| discriminate].
  destruct (findLayer_some _ _ _ E) as [Hl He]. injection He as He.
  exists l. split; [| now symmetry].
  unfold LayerManager.measurementLayers. apply filter_In. now split.
Qed.

Lemma or_zero_read (T : float) :
  (JS.isNaN T = true -> LayerManager.or_zero (Some T) = 0%float)
  /\ (JS.isNaN T = false ->
      PrimFloat.eqb (LayerManager.or_zero (Some T)) T = true).
Proof.
  unfold LayerManager.or_zero. split; intros HN; rewrite HN.
  - now rewrite orb_true_r.
  - rewrite orb_false_r.
    destruct (PrimFloat.eqb T 0%float) eqn:E0.
    + rewrite eqb_spec in *.
      change (Prim2SF 0%float) with (S754_zero false) in *.
      unfold SFeqb, SFcompare in *.
      destruct (Prim2SF T) as [sg | sg | | sg m e];
        try reflexivity; try discriminate; destruct sg; discriminate.
    + unfold JS.isNaN, PrimFloat.is_nan in HN. now apply negb_false_iff in HN.
Qed.

Section AnalysisClaims.

Variable toFixed2 : float -> string.

(** X19. When no two layers share an id, the report sent for
    analysis has one entry per measurement layer, in the order of the
    panel; the entry of a layer carries the layer's name, the number of
    the layer's shapes and, formatted, the sum of their values, which
    is the entry of the layer in the totals; no shape of an imported
    layer is counted.  The panel reads the same entry through [|| 0]:
    it shows the same number as the report when the sum is a number,
    but 0 when the sum is NaN, which the report carries as it is. *)
Theorem analysis_matches_panel (st : App) :
  distinctLayers st ->
  List.length (analysisReport toFixed2 st)
  = List.length (LayerManager.measurementLayers (layers st))
  /\ (forall i l,
        nth_error (LayerManager.measurementLayers (layers st)) i = Some l ->
        exists r T,
          nth_error (analysisReport toFixed2 st) i = Some r
          /\ totalOf (layerTotals (layers st) (shapes st)) (Layer.id l) = Some T
          /\ T = sumValues (shapesOf (Layer.id l) (shapes st))
          /\ Report.layerName r = Layer.name l
          /\ Report.totalValue r = toFixed2 T
          /\ Report.itemCount r
             = List.length (shapesOf (Layer.id l) (shapes st))
          /\ (JS.isNaN T = false ->
                PrimFloat.eqb
                  (LayerManager.total (layerTotals (layers st) (shapes st)) l) T
                = true)
          /\ (JS.isNaN T = true ->
                LayerManager.total (layerTotals (layers st) (shapes st)) l
                = 0%float))
  /\ (forall s, In s (measurementShapes st) ->
        exists l, In l (LayerManager.measurementLayers (layers st))
                  /\ Layer.id l = Shape.layerId s).
Proof.
  intros Hd. split; [| split].
  - unfold analysisReport, reportData. apply length_map.
  - intros i l Hi.
    assert (Hin : In l (LayerManager.measurementLayers (layers st)))
      by (eapply nth_error_In; exact Hi).
    unfold LayerManager.measurementLayers in Hin.
    apply filter_In in Hin. destruct Hin as [Hin Hm].
    assert (Hc : Layer.category l = Layer.measurement)
      by (destruct (Layer.category l); [reflexivity | discriminate]).
    assert (HT : totalOf (layerTotals (layers st) (shapes st)) (Layer.id l)
                 = Some (sumValues (shapesOf (Layer.id l) (shapes st)))).
    { unfold layerTotals. rewrite totalOf_fold.
      now rewrite (measured_id_intro l (layers st) Hin Hc). }
    eexists. exists (sumValues (shapesOf (Layer.id l) (shapes st))).
    split.
    { unfold analysisReport, reportData. rewrite nth_error_map, Hi. reflexivity. }
    cbn [Report.layerName Report.totalValue Report.itemCount].
    rewrite (measurementShapes_of st l Hd Hin Hc).
    split; [exact HT |]. do 4 (split; [reflexivity |]).
    unfold LayerManager.total. rewrite HT.
    split; [apply or_zero_read | apply or_zero_read].
  - intros s Hs. apply (measurementShapes_in st s Hs).
Qed.

End AnalysisClaims.

Lemma nan_distinct : distinctLayers nanApp.
Proof.
  unfold distinctLayers. cbn.
  repeat constructor; cbn; intuition discriminate.
Qed.

(** A surface layer whose one shape has the value NaN: the report
    carries NaN, the panel reads 0. *)
Lemma analysis_matches_panel_witness :
  exists r,
    nth_error (analysisReport fixedOrNaN nanApp) 0 = Some r
    /\ Report.totalValue r = "NaN"
    /\ Report.itemCount r = 1
    /\ LayerManager.total (layerTotals (layers nanApp) (shapes nanApp)) wallsLayer
       = 0%float.
Proof.
  assert (H0 : nth_error (LayerManager.measurementLayers (layers nanApp)) 0
               = Some wallsLayer) by reflexivity.
  destruct (analysis_matches_panel fixedOrNaN nanApp nan_distinct) as (_ & H & _).
  destruct (H 0 wallsLayer H0) as (r & T & E1 & _ & E3 & _ & E5 & E6 & _ & H8).
  assert (ET : T = nan) by (rewrite E3; reflexivity).
  exists r. split; [exact E1 |]. split; [rewrite E5, ET; reflexivity |].
  split; [rewrite E6; reflexivity |].
  apply H8. rewrite ET. reflexivity.
Defined.

(** ** The map link *)

Lemma append_assoc (a b c : string) :
  String.append (String.append a b) c = String.append a (String.append b c).
Proof. induction a as [| x r IH]; cbn; [reflexivity | now rewrite IH]. Qed.

Lemma digitsRun_stop (s : string) :
  headDigit s = false -> digitsRun s = (EmptyString, s).
Proof. destruct s as [| c r]; cbn; [reflexivity |]. now intros ->. Qed.

Lemma digitsRun_app (d rest : string) :
  forallb JS.isDigit (list_ascii_of_string d) = true ->
  headDigit rest = false ->
  digitsRun (String.append d rest) = (d, rest).
Proof.
  intros Hd Hr. induction d as [| c r IH].
  - now apply digitsRun_stop.
  - cbn [list_ascii_of_string forallb] in Hd. apply andb_prop in Hd.
    destruct Hd as [Hc Hd].
    cbn [String.append digitsRun]. now rewrite Hc, (IH Hd).
Qed.

Lemma digits_cases (s : string) :
  digits s = true ->
  exists c r, s = String c r /\ JS.isDigit c = true
              /\ forallb JS.isDigit (list_ascii_of_string s) = true.
Proof.
  unfold digits. intros H. apply andb_prop in H. destruct H as [Hn Ha].
  destruct s as [| c r]; [discriminate |].
  exists c, r. split; [reflexivity |]. split; [| exact Ha].
  cbn [list_ascii_of_string forallb] in Ha. now apply andb_prop in Ha.
Qed.

Lemma digit_codes (c : ascii) :
  JS.isDigit c = true ->
  (JS.code c =? 45) = false /\ (JS.code c =? 64) = false.
Proof.
  destruct c as [[] [] [] [] [] [] [] []]; vm_compute; intuition congruence.
Qed.

Lemma decimalAt_digits (ip fp rest : string) :
  digits ip = true -> digits fp = true -> headDigit rest = false ->
  decimalAt (String.append ip (String "." (String.append fp rest)))
  = Some (String.append ip (String "." fp), rest).
Proof.
  intros Hi Hf Hr.
  destruct (digits_cases ip Hi) as (c & r & Ei & Hc & Hai).
  destruct (digits_cases fp Hf) as (c' & r' & Ef & _ & Haf).
  pose proof (digitsRun_app ip (String "." (String.append fp rest)) Hai eq_refl) as R1.
  pose proof (digitsRun_app fp rest Haf Hr) as R2.
  subst ip fp. cbn [String.append] in *.
  unfold decimalAt. rewrite (proj1 (digit_codes c Hc)).
  rewrite R1. change (JS.code "." =? 46) with true. cbv iota.
  rewrite R2. reflexivity.
Qed.

Lemma decimalAt_decimal (neg : bool) (ip fp rest : string) :
  digits ip = true -> digits fp = true -> headDigit rest = false ->
  decimalAt (String.append (decimal neg ip fp) rest)
  = Some (decimal neg ip fp, rest).
Proof.
  intros Hi Hf Hr. unfold decimal. rewrite !append_assoc.
  cbn [String.append].
  pose proof (decimalAt_digits ip fp rest Hi Hf Hr) as H.
  destruct neg; cbn [String.append]; [| exact H].
  destruct (digits_cases ip Hi) as (c & r & Ei & Hc & Hai).
  destruct (digits_cases fp Hf) as (c' & r' & Ef & _ & Haf).
  pose proof (digitsRun_app ip (String "." (String.append fp rest)) Hai eq_refl) as R1.
  pose proof (digitsRun_app fp rest Haf Hr) as R2.
  subst ip fp. cbn [String.append] in *.
  unfold decimalAt. change (JS.code "-" =? 45) with true. cbv iota.
  rewrite R1. change (JS.code "." =? 46) with true. cbv iota.
  rewrite R2. reflexivity.
Qed.

Lemma linkAt_link (n1 n2 : bool) (ip1 fp1 ip2 fp2 post : string) :
  digits ip1 = true -> digits fp1 = true ->
  digits ip2 = true -> digits fp2 = true -> headDigit post = false ->
  linkAt (String "@" (String.append (decimal n1 ip1 fp1)
            (String "," (String.append (decimal n2 ip2 fp2) post))))
  = Some (decimal n1 ip1 fp1, decimal n2 ip2 fp2).
Proof.
  intros H1 H2 H3 H4 Hp. unfold linkAt.
  change (JS.code "@" =? 64) with true. cbv iota.
  rewrite (decimalAt_decimal n1 ip1 fp1
             (String "," (String.append (decimal n2 ip2 fp2) post)) H1 H2 eq_refl).
  change (JS.code "," =? 44) with true. cbv iota.
  now rewrite (decimalAt_decimal n2 ip2 fp2 post H3 H4 Hp).
Qed.

Lemma linkAt_other (c : ascii) (r : string) :
  (JS.code c =? 64) = false -> linkAt (String c r) = None.
Proof. intros H. unfold linkAt. now rewrite H. Qed.

Lemma matchLink_skip (pre s : string) :
  noAt pre = true -> matchLink (String.append pre s) = matchLink s.
Proof.
  intros H. induction pre as [| c r IH]; [reflexivity |].
  unfold noAt in H. cbn [list_ascii_of_string forallb] in H.
  apply andb_prop in H. destruct H as [Hc Hr]. apply negb_true_iff in Hc.
  cbn [String.append matchLink]. rewrite (linkAt_other c _ Hc). now apply IH.
Qed.

Lemma matchLink_none (s : string) : noAt s = true -> matchLink s = None.
Proof.
  intros H. induction s as [| c r IH]; [reflexivity |].
  unfold noAt in H. cbn [list_ascii_of_string forallb] in H.
  apply andb_prop in H. destruct H as [Hc Hr]. apply negb_true_iff in Hc.
  cbn [matchLink]. rewrite (linkAt_other c _ Hc). now apply IH.
Qed.

Lemma noAt_app (a b : string) :
  noAt (String.append a b) = noAt a && noAt b.
Proof.
  unfold noAt. induction a as [| c r IH]; [reflexivity |].
  cbn [String.append list_ascii_of_string forallb]. now rewrite IH, andb_assoc.
Qed.

Lemma digits_noAt (s : string) :
  forallb JS.isDigit (list_ascii_of_string s) = true -> noAt s = true.
Proof.
  unfold noAt. induction s as [| c r IH]; [reflexivity |].
  cbn [list_ascii_of_string forallb]. intros H. apply andb_prop in H.
  destruct H as [Hc Hr]. rewrite (proj2 (digit_codes c Hc)). now apply IH.
Qed.

(** X20. A link whose first ["@"] is followed by two decimal numbers
    separated by a comma, each with an integer part, a point and a
    fraction, moves the map to the two numbers as [parseFloat] reads
    them, whatever comes before the ["@"] and whatever (other than one
    more digit) comes after the second number; nothing is alerted and
    the project is untouched. *)
Theorem url_link_read (pre post ip1 fp1 ip2 fp2 : string) (n1 n2 : bool) (st : App) :
  noAt pre = true -> headDigit post = false ->
  digits ip1 = true -> digits fp1 = true ->
  digits ip2 = true -> digits fp2 = true ->
  let a := decimal n1 ip1 fp1 in
  let b := decimal n2 ip2 fp2 in
  handleUrlSubmit (linkText pre a b post) st
  = (setMapCenter (Some {| lat := JS.parseFloat a; lng := JS.parseFloat b |}) st, []).
Proof.
  intros Hpre Hpost H1 H2 H3 H4. cbn zeta.
  unfold handleUrlSubmit, linkText.
  rewrite (matchLink_skip pre _ Hpre).
  cbn [matchLink].
  now rewrite (linkAt_link n1 n2 ip1 fp1 ip2 fp2 post H1 H2 H3 H4 Hpost).
Qed.

Lemma url_link_read_witness :
  handleUrlSubmit "https://www.google.com/maps/@48.85,-2.35,15z" initialApp
  = (setMapCenter (Some {| lat := JS.parseFloat "48.85";
                           lng := JS.parseFloat "-2.35" |}) initialApp, []).
Proof.
  assert (Hpre : noAt "https://www.google.com/maps/" = true) by reflexivity.
  assert (Hpost : headDigit ",15z" = false) by reflexivity.
  assert (H1 : digits "48" = true) by reflexivity.
  assert (H2 : digits "85" = true) by reflexivity.
  assert (H3 : digits "2" = true) by reflexivity.
  assert (H4 : digits "35" = true) by reflexivity.
  exact (url_link_read "https://www.google.com/maps/" ",15z" "48" "85" "2" "35"
           false true initialApp Hpre Hpost H1 H2 H3 H4).
Defined.

(** X21. Submitting a link never touches the layers, the shapes, the
    active layer, the selection or the tool, and either moves the map
    or alerts and leaves the state as it was.  A link without ["@"] is
    refused, and so is a link whose only ["@"] is followed by a whole
    number and a comma: coordinates without a fraction are not
    accepted. *)
Theorem url_link_refused (url : string) (st : App) :
  (layers (fst (handleUrlSubmit url st)) = layers st
   /\ shapes (fst (handleUrlSubmit url st)) = shapes st
   /\ activeLayerId (fst (handleUrlSubmit url st)) = activeLayerId st
   /\ selectedShapeId (fst (handleUrlSubmit url st)) = selectedShapeId st
   /\ toolMode (fst (handleUrlSubmit url st)) = toolMode st)
  /\ (snd (handleUrlSubmit url st) = []
      \/ handleUrlSubmit url st = (st, [alertInvalidLink]))
  /\ (noAt url = true -> handleUrlSubmit url st = (st, [alertInvalidLink]))
  /\ (forall pre ip rest,
        noAt pre = true -> digits ip = true -> noAt rest = true ->
        url = String.append pre (String "@" (String.append ip (String "," rest))) ->
        handleUrlSubmit url st = (st, [alertInvalidLink])).
Proof.
  split; [| split; [| split]].
  - unfold handleUrlSubmit. destruct (matchLink url) as [[m1 m2] |];
      repeat split; reflexivity.
  - unfold handleUrlSubmit. destruct (matchLink url) as [[m1 m2] |];
      [now left | now right].
  - intros H. unfold handleUrlSubmit. now rewrite (matchLink_none url H).
  - intros pre ip rest Hpre Hip Hrest ->.
    destruct (digits_cases ip Hip) as (c & r & Ei & Hc & Hai).
    pose proof (digitsRun_app ip (String "," rest) Hai eq_refl) as R1.
    assert (Hn : noAt (String.append ip (String "," rest)) = true).
    { rewrite noAt_app, (digits_noAt ip Hai). exact Hrest. }
    unfold handleUrlSubmit. rewrite (matchLink_skip pre _ Hpre).
    assert (HL : linkAt (String "@" (String.append ip (String "," rest))) = None).
    { unfold linkAt. change (JS.code "@" =? 64) with true. cbv iota.
      subst ip. cbn [String.append] in *.
      unfold decimalAt. rewrite (proj1 (digit_codes c Hc)).
      rewrite R1. reflexivity. }
    cbn [matchLink]. rewrite HL. now rewrite (matchLink_none _ Hn).
Qed.

(** ** The layer panel *)

Section PanelClaims.

Variable turf_area turf_length : list (float * float) -> option float.
Variable parseFromString : string -> Node.

Local Abbreviation run := (step turf_area turf_length parseFromString).

(** X22. The form of the panel ignores a name that is blank once
    trimmed and keeps what was typed.  Any other name is passed on as
    typed, not trimmed, and the form is closed with an empty name and
    the kind and colour last chosen; in the application the new layer
    is appended, visible, as a measurement layer of that kind and
    colour, it is made the active layer, the selection is dropped and
    the capture component is mounted on it. *)
Theorem panel_add_layer (p : LayerManager.t) (confirm : bool) (newId : string)
    (st : App) :
  (JS.trim (LayerManager.newLayerName p) = "" -> LayerManager.handleAdd p = (p, []))
  /\ (JS.trim (LayerManager.newLayerName p) <> "" ->
      let o := LayerManager.onAddLayer (LayerManager.newLayerName p)
                 (LayerManager.newLayerType p) (LayerManager.newLayerColor p) in
      let p' := fst (LayerManager.handleAdd p) in
      let st' := fst (run (panelAction o confirm newId) st) in
      snd (LayerManager.handleAdd p) = [o]
      /\ LayerManager.isAdding p' = false
      /\ LayerManager.newLayerName p' = ""
      /\ LayerManager.newLayerType p' = LayerManager.newLayerType p
      /\ LayerManager.newLayerColor p' = LayerManager.newLayerColor p
      /\ LayerManager.expandedLayers p' = LayerManager.expandedLayers p
      /\ layers st' = layers st ++ [formLayer p newId]
      /\ shapes st' = shapes st
      /\ activeLayerId st' = Some newId
      /\ selectedShapeId st' = None
      /\ MapCanvas.drawing st' = true
      /\ ((forall l, In l (layers st) -> Layer.id l <> newId) ->
          findLayer (activeLayerId st') (layers st') = Some (formLayer p newId))).
Proof.
  split.
  - intros H. unfold LayerManager.handleAdd. now rewrite H.
  - intros H. cbn zeta.
    assert (E : String.eqb (JS.trim (LayerManager.newLayerName p)) "" = false)
      by now apply String.eqb_neq.
    unfold LayerManager.handleAdd. rewrite E. cbn [negb fst snd].
    cbn [LayerManager.isAdding LayerManager.newLayerName LayerManager.newLayerType
         LayerManager.newLayerColor LayerManager.expandedLayers].
    do 6 (split; [reflexivity |]).
    cbn [panelAction step fst].
    assert (F : findLayer (Some newId) (layers st ++ [formLayer p newId])
                = match findLayer (Some newId) (layers st) with
                  | Some l => Some l
                  | None => Some (formLayer p newId)
                  end).
    { assert (G : findLayer (Some newId) [formLayer p newId]
                  = Some (formLayer p newId)).
      { unfold findLayer. cbn [find eq_id formLayer Layer.id].
        now rewrite String.eqb_refl. }
      now rewrite findLayer_app, G. }
    split; [reflexivity |]. split; [reflexivity |]. split; [reflexivity |].
    split; [reflexivity |]. split.
    + unfold MapCanvas.drawing.
      change (layers (handleAddLayer (LayerManager.newLayerName p)
                        (LayerManager.newLayerType p) (LayerManager.newLayerColor p)
                        newId st))
        with (layers st ++ [formLayer p newId]).
      change (activeLayerId (handleAddLayer (LayerManager.newLayerName p)
                        (LayerManager.newLayerType p) (LayerManager.newLayerColor p)
                        newId st))
        with (Some newId).
      rewrite F.
      change (toolMode (handleAddLayer (LayerManager.newLayerName p)
                        (LayerManager.newLayerType p) (LayerManager.newLayerColor p)
                        newId st))
        with (if Layer.is_surface (LayerManager.newLayerType p)
              then DRAW_POLYGON else DRAW_LINE).
      destruct (Layer.is_surface (LayerManager.newLayerType p));
        destruct (findLayer (Some newId) (layers st)); reflexivity.
    + intros Hfresh.
      change (findLayer (Some newId) (layers st ++ [formLayer p newId])
              = Some (formLayer p newId)).
      rewrite F. now rewrite (findLayer_absent newId (layers st) Hfresh).
Qed.

End PanelClaims.

Lemma has_In (x : string) (s : list string) :
  LayerManager.has x s = true <-> In x s.
Proof.
  unfold LayerManager.has. rewrite existsb_exists. split.
  - intros (y & Hy & E). apply String.eqb_eq in E. now subst.
  - intros H. exists x. split; [exact H | apply String.eqb_refl].
Qed.

Lemma has_delete (x id : string) (s : list string) :
  LayerManager.has x (LayerManager.delete id s)
  = LayerManager.has x s && negb (String.eqb x id).
Proof.
  unfold LayerManager.has, LayerManager.delete.
  induction s as [| y r IH]; [reflexivity |].
  cbn [filter existsb].
  destruct (String.eqb_spec y id) as [Ey | Ny]; cbn [negb existsb]; rewrite IH.
  - destruct (String.eqb_spec x y) as [Ex | Nx]; cbn [orb]; [| reflexivity].
    subst. rewrite String.eqb_refl. cbn [negb].
    now rewrite andb_false_r.
  - destruct (String.eqb_spec x y) as [Ex | Nx]; cbn [orb]; [| reflexivity].
    subst. destruct (String.eqb_spec y id); [contradiction | reflexivity].
Qed.

Lemma has_add (x id : string) (s : list string) :
  LayerManager.has x (LayerManager.add id s)
  = LayerManager.has x s || String.eqb x id.
Proof.
  unfold LayerManager.add.
  destruct (LayerManager.has id s) eqn:H.
  - destruct (String.eqb_spec x id) as [-> | _];
      [now rewrite H | now rewrite orb_false_r].
  - unfold LayerManager.has. rewrite existsb_app. cbn [existsb].
    now rewrite orb_false_r.
Qed.

Lemma has_toggled (x id : string) (p : LayerManager.t) :
  LayerManager.has x
    (LayerManager.expandedLayers (LayerManager.toggleLayerExpansion id p))
  = if String.eqb x id
    then negb (LayerManager.has id (LayerManager.expandedLayers p))
    else LayerManager.has x (LayerManager.expandedLayers p).
Proof.
  unfold LayerManager.toggleLayerExpansion. cbn [LayerManager.expandedLayers].
  destruct (LayerManager.has id (LayerManager.expandedLayers p)) eqn:H.
  - rewrite has_delete.
    destruct (String.eqb_spec x id) as [-> | _]; cbn [negb].
    + now rewrite andb_false_r.
    + now rewrite andb_true_r.
  - rewrite has_add.
    destruct (String.eqb_spec x id) as [-> | _]; cbn [negb].
    + now rewrite orb_true_r.
    + now rewrite orb_false_r.
Qed.

(** X23. Expanding or folding an item of the panel flips the
    membership of that layer in the set of expanded items and of no
    other layer, so that doing it twice gives back the same set; the
    set never holds an id twice, and the form is untouched. *)
Theorem toggleLayerExpansion_flips (id : string) (p : LayerManager.t) :
  let q := LayerManager.toggleLayerExpansion id p in
  LayerManager.has id (LayerManager.expandedLayers q)
  = negb (LayerManager.has id (LayerManager.expandedLayers p))
  /\ (forall other, other <> id ->
        LayerManager.has other (LayerManager.expandedLayers q)
        = LayerManager.has other (LayerManager.expandedLayers p))
  /\ (forall x,
        LayerManager.has x
          (LayerManager.expandedLayers (LayerManager.toggleLayerExpansion id q))
        = LayerManager.has x (LayerManager.expandedLayers p))
  /\ (NoDup (LayerManager.expandedLayers p) ->
      NoDup (LayerManager.expandedLayers q))
  /\ LayerManager.isAdding q = LayerManager.isAdding p
  /\ LayerManager.newLayerName q = LayerManager.newLayerName p
  /\ LayerManager.newLayerType q = LayerManager.newLayerType p
  /\ LayerManager.newLayerColor q = LayerManager.newLayerColor p.
Proof.
  cbn zeta. split; [| split; [| split; [| split]]].
  - now rewrite has_toggled, String.eqb_refl.
  - intros other Hne. rewrite has_toggled.
    now destruct (String.eqb_spec other id).
  - intros x. rewrite !has_toggled. rewrite String.eqb_refl.
    destruct (String.eqb_spec x id) as [-> | _]; [apply negb_involutive | reflexivity].
  - intros Hnd. unfold LayerManager.toggleLayerExpansion.
    cbn [LayerManager.expandedLayers].
    destruct (LayerManager.has id (LayerManager.expandedLayers p)) eqn:H.
    + unfold LayerManager.delete. now apply NoDup_filter.
    + unfold LayerManager.add. rewrite H.
      apply NoDup_app; [exact Hnd | repeat constructor; intros [] |].
      intros a Ha [<- | []].
      apply has_In in Ha. congruence.
  - repeat split; reflexivity.
Qed.

(** ** Colours, whatever the input *)

Lemma length_6 (s : string) :
  String.length s = 6 ->
  exists a b c d e f,
    s = String a (String b (String c (String d (String e (String f EmptyString))))).
Proof.
  intros H.
  destruct s as [| a [| b [| c [| d [| e [| f [| g r]]]]]]]; try discriminate.
  now exists a, b, c, d, e, f.
Qed.

Lemma length_8 (s : string) :
  String.length s = 8 ->
  exists a b c d e f g h,
    s = String a (String b (String c (String d (String e (String f
          (String g (String h EmptyString))))))).
Proof.
  intros H.
  destruct s as [| a [| b [| c [| d [| e [| f [| g [| h [| i r]]]]]]]]];
    try discriminate.
  now exists a, b, c, d, e, f, g, h.
Qed.

Lemma kmlColorToHex_css (c : option string) : cssColour (kmlColorToHex c) = true.
Proof.
  unfold kmlColorToHex.
  destruct (truthy c); cbn [negb]; [| reflexivity].
  set (clean := JS.toLowerCase (JS.trim (or_else c ""))).
  destruct (Nat.eqb_spec (String.length clean) 8) as [E8 | _].
  - destruct (length_8 clean E8) as (a & b & c' & d & e & f & g & h & ->).
    reflexivity.
  - destruct (Nat.eqb_spec (String.length clean) 6) as [E6 | _]; [| reflexivity].
    destruct (length_6 clean E6) as (a & b & c' & d & e & f & ->).
    reflexivity.
Qed.

Lemma preset_css (index : nat) :
  cssColour (nth (index mod List.length PRESET_COLORS) PRESET_COLORS EmptyString) = true.
Proof.
  change (List.length PRESET_COLORS) with 8.
  pose proof (Nat.mod_upper_bound index 8 ltac:(discriminate)) as H.
  destruct (index mod 8) as [| [| [| [| [| [| [| [| n]]]]]]]]; try reflexivity.
  lia.
Qed.

Lemma styleLookup_in (m : StyleMap) (key c : string) :
  styleLookup m key = Some c -> In (key, c) m.
Proof.
  unfold styleLookup. intros H.
  destruct (find (fun kv => String.eqb (fst kv) key) m) as [[k v] |] eqn:E;
    [| discriminate].
  injection H as <-. apply find_some in E. destruct E as [Hin He].
  cbn [fst] in He. apply String.eqb_eq in He. now subst.
Qed.

Lemma startsWith_hash (id : string) :
  JS.startsWith "#" (String.append "#" id) = true.
Proof.
  unfold JS.startsWith. cbn [String.append String.prefix].
  destruct (ascii_dec "#" "#") as [_ | N]; [| now contradiction N].
  now destruct id.
Qed.

Lemma addStyle_css (m : StyleMap) (style : Node) :
  Forall (fun kv => JS.startsWith "#" (fst kv) = true /\ cssColour (snd kv) = true) m ->
  Forall (fun kv => JS.startsWith "#" (fst kv) = true /\ cssColour (snd kv) = true)
    (addStyle m style).
Proof.
  intros H. unfold addStyle.
  destruct (getAttribute "id" style) as [id |]; [| exact H].
  destruct (String.eqb id ""); [exact H |].
  destruct (truthy (firstText2 "PolyStyle" "color" style)).
  - constructor; [split; [apply startsWith_hash | apply kmlColorToHex_css] | exact H].
  - destruct (truthy (firstText2 "LineStyle" "color" style)); [| exact H].
    constructor; [split; [apply startsWith_hash | apply kmlColorToHex_css] | exact H].
Qed.

Lemma parseStyles_css (xmlDoc : Node) (key c : string) :
  styleLookup (parseStyles xmlDoc) key = Some c ->
  JS.startsWith "#" key = true /\ cssColour c = true.
Proof.
  intros H. apply styleLookup_in in H.
  assert (F : Forall (fun kv => JS.startsWith "#" (fst kv) = true
                                /\ cssColour (snd kv) = true) (parseStyles xmlDoc)).
  { unfold parseStyles.
    assert (G : forall styles m,
               Forall (fun kv => JS.startsWith "#" (fst kv) = true
                                 /\ cssColour (snd kv) = true) m ->
               Forall (fun kv => JS.startsWith "#" (fst kv) = true
                                 /\ cssColour (snd kv) = true)
                 (fold_left addStyle styles m)).
    { induction styles as [| s r IH]; intros m Hm; [exact Hm |].
      cbn [fold_left]. apply IH. now apply addStyle_css. }
    apply G. constructor. }
  rewrite Forall_forall in F. exact (F (key, c) H).
Qed.

Lemma hash_not_inherited (u : string) :
  JS.startsWith "#" u = true -> existsb (String.eqb u) inheritedKeys = false.
Proof.
  unfold JS.startsWith. destruct u as [| c r]; [discriminate |].
  cbn [String.prefix]. destruct (ascii_dec "#" c) as [<- | _]; [| discriminate].
  intros _. reflexivity.
Qed.

Lemma objectRead_hash (m : StyleMap) (u : string) :
  JS.startsWith "#" u = true ->
  objectRead m u
  = match styleLookup m u with Some c => own c | None => missing end.
Proof.
  intros H. unfold objectRead. now rewrite (hash_not_inherited u H).
Qed.

Section ImportColours.

Variable parseFromString : string -> Node.

Local Abbreviation import := (handleKmlImport parseFromString).

Lemma forEachFolder_css (gen : nat -> string) (xmlDoc : Node) (folders : list Node)
    (index : nat) (acc : Import) :
  Forall (fun l => cssColour (Layer.color l) = true) (newLayers acc) ->
  Forall (fun l => cssColour (Layer.color l) = true)
    (newLayers (forEachFolder gen (parseStyles xmlDoc) folders index acc)).
Proof.
  revert index acc. induction folders as [| f r IH]; intros index acc H; [exact H |].
  cbn [forEachFolder]. apply IH. unfold processFolder.
  rewrite pushPlacemarks_layers. cbn [newLayers].
  apply Forall_app. split; [exact H |]. constructor; [| constructor].
  cbn [importedLayer Layer.color].
  destruct (getElementsByTagName "Placemark" f) as [| first rest];
    [apply preset_css |].
  destruct (truthy (firstText "styleUrl" first)); [| apply preset_css].
  destruct (styleLookup (parseStyles xmlDoc)
              (or_else (firstText "styleUrl" first) "")) as [c |] eqn:E;
    [| apply preset_css].
  exact (proj2 (parseStyles_css xmlDoc _ c E)).
Qed.

Lemma collect_css (gen : nat -> string) (fileName : string) (xmlDoc : Node) :
  Forall (fun l => cssColour (Layer.color l) = true)
    (newLayers (collect gen fileName xmlDoc)).
Proof.
  unfold collect.
  destruct (0 <? List.length (getElementsByTagName "Folder" xmlDoc)).
  - apply forEachFolder_css. constructor.
  - destruct (0 <? List.length (getElementsByTagName "Placemark" xmlDoc));
      [| constructor].
    rewrite pushPlacemarks_layers. cbn [newLayers].
    constructor; [reflexivity | constructor].
Qed.


End ImportColours.


(** ** The application with its timers *)

Section TimerFacts.

Variable turf_area : list (float * float) -> option float.
Variable turf_length : list (float * float) -> option float.
Variable parseFromString : string -> Node.

Local Abbreviation run := (step turf_area turf_length parseFromString).
Local Abbreviation live := (liveStep turf_area turf_length parseFromString).
Local Abbreviation finish := (finishCapture turf_area turf_length).

(** [handleShapeComplete] is the synchronous part followed at once by
    the callback of the timer. *)
Lemma handleShapeComplete_split (pts : list GeoPoint) (answer : option string)
    (newId : string) (st : App) :
  handleShapeComplete turf_area turf_length pts answer newId st
  = match finish pts st with
    | (Some p, effects) => (timerCallback p answer newId st, effects)
    | (None, effects) => (st, effects)
    end.
Proof.
  unfold handleShapeComplete, finishCapture, timerCallback.
  destruct (findLayer (activeLayerId st) (layers st)) as [al |]; [| reflexivity].
  destruct (completeMeasure turf_area turf_length (Layer.type al) pts) as [m e].
  destruct answer; reflexivity.
Qed.

Lemma LayersInv_forget (st : App) : LayersInv st -> Inv (forget st).
Proof.
  intros (I1 & I2 & I3 & I4).
  split; [exact I1 |]. split; [exact I2 |]. split; [exact I3 |].
  split; [exact I4 |]. intros s [].
Qed.

Lemma LayersInv_fields (st st' : App) :
  layers st' = layers st -> activeLayerId st' = activeLayerId st ->
  toolMode st' = toolMode st -> LayersInv st -> LayersInv st'.
Proof.
  intros EL EA ET (I1 & I2 & I3 & I4).
  unfold LayersInv, distinctLayers, kindsOK, activeOK, modeOK in *.
  rewrite EL, EA, ET.
  split; [exact I1 |]. split; [exact I2 |]. split; [exact I3 | exact I4].
Qed.

Lemma import_fields (file : option File.t) (gen : nat -> string) (st st' : App) :
  layers st' = layers st -> activeLayerId st' = activeLayerId st ->
  toolMode st' = toolMode st ->
  layers (fst (handleKmlImport parseFromString file gen st'))
  = layers (fst (handleKmlImport parseFromString file gen st))
  /\ activeLayerId (fst (handleKmlImport parseFromString file gen st'))
     = activeLayerId (fst (handleKmlImport parseFromString file gen st))
  /\ toolMode (fst (handleKmlImport parseFromString file gen st'))
     = toolMode (fst (handleKmlImport parseFromString file gen st)).
Proof.
  intros EL EA ET. unfold handleKmlImport.
  destruct file as [f |]; [| now repeat split].
  destruct (String.eqb (File.text f) ""); [now repeat split |].
  destruct (newShapes (collect gen (File.name f) (parseFromString (File.text f))))
    as [| first rest]; [now repeat split |].
  destruct (Shape.points first); cbn; rewrite EL, EA, ET; repeat split.
Qed.

(** The layers, the active layer and the tool after an action do not
    depend on the shapes. *)
Lemma step_forget (a : Action) (st : App) :
  layers (fst (run a (forget st))) = layers (fst (run a st))
  /\ activeLayerId (fst (run a (forget st))) = activeLayerId (fst (run a st))
  /\ toolMode (fst (run a (forget st))) = toolMode (fst (run a st)).
Proof.
  destruct a as [name type color newId | id c | id | id v | id | sh | id c | c
                | sel | sId c nId | f g | | | | pts ans nId | ]; cbn [step fst].
  - repeat split.
  - unfold handleDeleteLayer. destruct c; [| repeat split].
    change (activeLayerId (forget st)) with (activeLayerId st).
    destruct (eq_id (activeLayerId st) id); repeat split.
  - repeat split.
  - repeat split.
  - unfold handleSetActiveLayer.
    change (layers (forget st)) with (layers st).
    destruct (findLayer (Some id) (layers st)); repeat split.
  - repeat split.
  - unfold handleDeleteShape. destruct c; [| repeat split].
    change (selectedShapeId (forget st)) with (selectedShapeId st).
    destruct (eq_id (selectedShapeId st) id); repeat split.
  - change (selectedShapeId (forget st)) with (selectedShapeId st).
    destruct (truthy (selectedShapeId st)); [| repeat split].
    unfold handleDeleteShape. destruct c; [| repeat split].
    change (selectedShapeId (forget st)) with (selectedShapeId st).
    destruct (eq_id (selectedShapeId st) (or_else (selectedShapeId st) ""));
      repeat split.
  - repeat split.
  - destruct (convert_structure turf_area turf_length sId nId c st)
      as (E1 & E2 & E3 & _).
    destruct (convert_structure turf_area turf_length sId nId c (forget st))
      as (F1 & F2 & F3 & _).
    rewrite E1, E2, E3, F1, F2, F3. repeat split.
  - apply import_fields; reflexivity.
  - repeat split.
  - unfold clickPolygonTool.
    change (drawDisabled Layer.is_length (forget st))
      with (drawDisabled Layer.is_length st).
    destruct (drawDisabled Layer.is_length st); repeat split.
  - unfold clickLineTool.
    change (drawDisabled Layer.is_surface (forget st))
      with (drawDisabled Layer.is_surface st).
    destruct (drawDisabled Layer.is_surface st); repeat split.
  - destruct (complete_structure turf_area turf_length pts ans nId st)
      as (E1 & E2 & E3 & _).
    destruct (complete_structure turf_area turf_length pts ans nId (forget st))
      as (F1 & F2 & F3 & _).
    rewrite E1, E2, E3, F1, F2, F3. repeat split.
  - repeat split.
Qed.

Lemma permitted_forget (a : Action) (st : App) :
  permitted a st -> permitted a (forget st).
Proof. intros Hp. destruct a; exact Hp. Qed.

Lemma step_LayersInv (a : Action) (st : App) :
  permitted a st -> LayersInv st -> LayersInv (fst (run a st)).
Proof.
  intros Hp HI.
  pose proof (step_Inv turf_area turf_length parseFromString a (forget st)
                (permitted_forget a st Hp) (LayersInv_forget st HI))
    as (J1 & J2 & J3 & J4 & _).
  destruct (step_forget a st) as (E1 & E2 & E3).
  apply (LayersInv_fields (fst (run a (forget st))));
    [now symmetry | now symmetry | now symmetry |].
  split; [exact J1 |]. split; [exact J2 |]. split; [exact J3 | exact J4].
Qed.

Lemma live_does_cases (a : Action) (s : Live) :
  livePermitted (does a) s ->
  (forall sh, a <> AddShape sh)
  /\ (forall pts ans nId, a <> ShapeComplete pts ans nId)
  /\ permitted a (project s).
Proof.
  destruct a; cbn [livePermitted]; intros H; try contradiction;
    (split; [discriminate |]); (split; [discriminate | exact H]).
Qed.

Lemma live_project (e : LiveEvent) (s : Live) :
  (exists a, e = does a /\ project (fst (live e s)) = fst (run a (project s))
             /\ pending (fst (live e s)) = pending s)
  \/ (exists pts, e = finishes pts /\ project (fst (live e s)) = project s)
  \/ (exists ans nId, e = fires ans nId
        /\ ((pending s = [] /\ fst (live e s) = s)
            \/ exists p rest, pending s = p :: rest
                 /\ project (fst (live e s)) = timerCallback p ans nId (project s)
                 /\ pending (fst (live e s)) = rest)).
Proof.
  destruct e as [a | pts | ans nId].
  - left. exists a. cbn [liveStep].
    destruct (run a (project s)) as [st eff]. repeat split.
  - right. left. exists pts. split; [reflexivity |]. cbn [liveStep].
    destruct (finish pts (project s)) as [[p |] eff]; reflexivity.
  - right. right. exists ans, nId. split; [reflexivity |]. cbn [liveStep].
    destruct (pending s) as [| p rest]; [left; now split |].
    right. exists p, rest. repeat split.
Qed.

Lemma timerCallback_fields (p : Pending) (ans : option string) (nId : string)
    (st : App) :
  layers (timerCallback p ans nId st) = layers st
  /\ activeLayerId (timerCallback p ans nId st) = activeLayerId st
  /\ toolMode (timerCallback p ans nId st) = toolMode st
  /\ forall sh, In sh (shapes (timerCallback p ans nId st)) ->
       In sh (shapes st) \/ Shape.layerId sh = Layer.id (p_layer p).
Proof.
  unfold timerCallback. destruct ans as [name |].
  - repeat split. intros sh Hs. cbn [handleAddShape setShapes shapes] in Hs.
    apply in_app_or in Hs. destruct Hs as [Hs | [<- | []]]; [now left | now right].
  - repeat split. intros sh Hs. now left.
Qed.

(** Every event keeps the part of the invariant that reads the layers. *)
Lemma live_LayersInv (e : LiveEvent) (s : Live) :
  livePermitted e s -> LayersInv (project s) -> LayersInv (project (fst (live e s))).
Proof.
  intros Hp HI.
  destruct (live_project e s)
    as [(a & -> & E & _) | [(pts & -> & E) | (ans & nId & -> & [[_ E] | (p & rest & _ & E & _)])]].
  - rewrite E. destruct (live_does_cases a s Hp) as (Hn & _ & Hperm).
    now apply step_LayersInv.
  - now rewrite E.
  - now rewrite E.
  - rewrite E. destruct (timerCallback_fields p ans nId (project s)) as (E1 & E2 & E3 & _).
    now apply (LayersInv_fields (project s)).
Qed.

(** The ids of the layers are kept by every action but a confirmed
    deletion. *)
Lemma step_keeps_ids (a : Action) (st : App) (l : Layer.t) :
  (forall id, a <> DeleteLayer id true) ->
  In l (layers st) ->
  exists l', In l' (layers (fst (run a st))) /\ Layer.id l' = Layer.id l.
Proof.
  intros Hn Hin.
  assert (Same : layers (fst (run a st)) = layers st ->
                 exists l', In l' (layers (fst (run a st))) /\ Layer.id l' = Layer.id l).
  { intros E. exists l. rewrite E. now split. }
  destruct a as [name type color newId | id c | id | id v | id | sh | id c | c
                | sel | sId c nId | f g | | | | pts ans nId | ]; cbn [step fst] in *.
  - exists l. split; [| reflexivity].
    cbn [handleAddLayer setSelectedShapeId setToolMode setActiveLayerId setLayers layers].
    apply in_or_app. now left.
  - destruct c; [now contradiction (Hn id) | now apply Same].
  - eexists. split; [cbn [handleToggleVisibility setLayers layers];
                     apply in_map; exact Hin |].
    apply (proj1 (rewriters_keep_fields id 0%float)).
  - eexists. split; [cbn [handleUpdateOpacity setLayers layers];
                     apply in_map; exact Hin |].
    apply (proj2 (rewriters_keep_fields id v)).
  - apply Same. unfold handleSetActiveLayer.
    now destruct (findLayer (Some id) (layers st)).
  - now apply Same.
  - apply Same. unfold handleDeleteShape. destruct c; [| reflexivity].
    now destruct (eq_id (selectedShapeId st) id).
  - apply Same. destruct (truthy (selectedShapeId st)); [| reflexivity].
    unfold handleDeleteShape. destruct c; [| reflexivity].
    now destruct (eq_id (selectedShapeId st) (or_else (selectedShapeId st) "")).
  - now apply Same.
  - apply Same. apply (convert_structure turf_area turf_length sId nId c st).
  - destruct (import_appends parseFromString f g st) as (aL & _ & EL & _).
    exists l. rewrite EL. split; [apply in_or_app; now left | reflexivity].
  - now apply Same.
  - apply Same. unfold clickPolygonTool.
    now destruct (drawDisabled Layer.is_length st).
  - apply Same. unfold clickLineTool.
    now destruct (drawDisabled Layer.is_surface st).
  - apply Same. apply (complete_structure turf_area turf_length pts ans nId st).
  - now apply Same.
Qed.

Lemma finish_pending (pts : list GeoPoint) (st : App) (p : Pending)
    (eff : list Effect) :
  finish pts st = (Some p, eff) ->
  findLayer (activeLayerId st) (layers st) = Some (p_layer p)
  /\ p_points p = pts.
Proof.
  unfold finishCapture.
  destruct (findLayer (activeLayerId st) (layers st)) as [al |]; [| discriminate].
  destruct (completeMeasure turf_area turf_length (Layer.type al) pts) as [m e].
  intros H. injection H as <- _. now split.
Qed.

(** For patient users, every event keeps the shapes and the pending
    timers within the layers of the project. *)
Lemma live_owned (e : LiveEvent) (s : Live) :
  livePermitted e s -> unhurried e s ->
  LayersInv (project s) -> owned (project s) -> pendingOwned s ->
  owned (project (fst (live e s))) /\ pendingOwned (fst (live e s)).
Proof.
  intros Hp Hu HL Ho Hpend.
  destruct e as [a | pts | ans nId].
  - destruct (live_does_cases a s Hp) as (Hn & _ & Hperm).
    assert (HI : Inv (project s)).
    { destruct HL as (I1 & I2 & I3 & I4).
      split; [exact I1 |]. split; [exact I2 |]. split; [exact I3 |].
      split; [exact I4 | exact Ho]. }
    pose proof (step_Inv turf_area turf_length parseFromString a (project s) Hperm HI)
      as (_ & _ & _ & _ & Ho').
    cbn [liveStep]. destruct (run a (project s)) as [st eff] eqn:E.
    cbn [fst project pending] in *. split; [exact Ho' |].
    unfold pendingOwned. cbn [project pending].
    assert (Hcases : (exists id, a = DeleteLayer id true)
                     \/ forall id, a <> DeleteLayer id true).
    { destruct a; try (right; discriminate).
      destruct confirm; [left; now eexists | right; discriminate]. }
    destruct Hcases as [[id ->] | Hnd].
    + cbn [unhurried] in Hu. rewrite Hu. constructor.
    + unfold pendingOwned in Hpend. eapply Forall_impl; [| exact Hpend].
      intros p (l & Hl & He).
      destruct (step_keeps_ids a (project s) l Hnd Hl) as (l' & Hl' & He').
      rewrite E in Hl'. exists l'. split; [exact Hl' | congruence].
  - cbn [liveStep]. destruct (finish pts (project s)) as [[p |] eff] eqn:E;
      cbn [fst project pending]; [| now split].
    split; [exact Ho |].
    unfold pendingOwned in *. cbn [project pending].
    apply Forall_app. split; [exact Hpend |]. constructor; [| constructor].
    destruct (finish_pending pts (project s) p eff E) as [Hf _].
    destruct (findLayer_some _ _ _ Hf) as [Hin _]. exists (p_layer p). now split.
  - cbn [liveStep]. destruct (pending s) as [| p rest] eqn:E;
      cbn [fst project pending]; [split; [exact Ho |]; unfold pendingOwned; now rewrite E |].
    unfold pendingOwned in Hpend. rewrite E in Hpend.
    inversion Hpend as [| ? ? (l & Hl & He) Hrest]; subst.
    destruct (timerCallback_fields p ans nId (project s)) as (E1 & _ & _ & Hs).
    split.
    + intros sh Hsh. rewrite E1. destruct (Hs sh Hsh) as [Hold | Hnew];
        [now apply Ho |]. exists l. split; [exact Hl | congruence].
    + unfold pendingOwned. cbn [project pending]. rewrite E1. exact Hrest.
Qed.

Lemma live_reachable_LayersInv (patient : bool) (s : Live) :
  LiveReachable turf_area turf_length parseFromString patient s ->
  LayersInv (project s).
Proof.
  intros H. induction H as [| e s _ IH Hp _].
  - destruct initial_Inv as (I1 & I2 & I3 & I4 & _).
    split; [exact I1 |]. split; [exact I2 |]. split; [exact I3 | exact I4].
  - now apply live_LayersInv.
Qed.

Lemma live_reachable_owned (s : Live) :
  LiveReachable turf_area turf_length parseFromString true s ->
  owned (project s) /\ pendingOwned s.
Proof.
  intros H. induction H as [| e s Hr IH Hp Hu].
  - split; [intros sh [] | constructor].
  - destruct IH as [Ho Hpend].
    apply live_owned; try assumption; [now apply Hu |].
    exact (live_reachable_LayersInv true s Hr).
Qed.

(** X13. In every state the application reaches, the states between
    the end of a capture and the timer that appends its shape included,
    no two layers have the same id, a measurement layer is a surface or
    a length layer and an imported layer is a mixed one.  Every shape
    belongs to a layer of the project as well, as long as no layer is
    deleted while a timer is pending: the callback of the timer appends
    the shape to the layer that was active when the capture was
    finished, whether that layer is still there or not. *)
Theorem reachable_project_is_consistent (patient : bool) (s : Live) :
  LiveReachable turf_area turf_length parseFromString patient s ->
  NoDup (map Layer.id (layers (project s)))
  /\ (forall l, In l (layers (project s)) ->
        (Layer.category l = Layer.measurement ->
           Layer.type l = Layer.surface \/ Layer.type l = Layer.length)
        /\ (Layer.category l = Layer.kml -> Layer.type l = Layer.mixed))
  /\ (patient = true ->
      (forall sh, In sh (shapes (project s)) ->
         exists l, In l (layers (project s)) /\ Layer.id l = Shape.layerId sh)
      /\ (forall p, In p (pending s) ->
            exists l, In l (layers (project s))
                      /\ Layer.id l = Layer.id (p_layer p))).
Proof.
  intros H.
  destruct (live_reachable_LayersInv patient s H) as (I1 & I2 & _ & _).
  split; [exact I1 |]. split.
  - intros l Hl. destruct (I2 l Hl) as [Hm Hk]. split; [| exact Hk].
    intros Hc. specialize (Hm Hc).
    destruct (Layer.type l); [now left | now right | contradiction].
  - intros ->. destruct (live_reachable_owned s H) as [Ho Hp].
    split; [exact Ho |]. intros p Hin.
    unfold pendingOwned in Hp. rewrite Forall_forall in Hp. now apply Hp.
Qed.


End TimerFacts.

Lemma capturedLive_reachable :
  LiveReachable area1024 halfKm (parserOf emptyDoc) true capturedLive.
Proof.
  unfold capturedLive.
  apply live_step; [| exact I | intros _; exact I].
  apply live_step; [| exact I | intros _; exact I].
  apply live_step; [apply live_initial | exact I | intros _; exact I].
Qed.

(** After a capture and its timer, the project holds the shape, in the
    first layer. *)
Lemma reachable_project_is_consistent_witness :
  (exists sh, shapes (project capturedLive) = [sh] /\ Shape.layerId sh = "1")
  /\ NoDup (map Layer.id (layers (project capturedLive)))
  /\ forall sh, In sh (shapes (project capturedLive)) ->
       exists l, In l (layers (project capturedLive))
                 /\ Layer.id l = Shape.layerId sh.
Proof.
  destruct (reachable_project_is_consistent area1024 halfKm (parserOf emptyDoc)
              true capturedLive capturedLive_reachable) as (H1 & _ & H3).
  split; [eexists; split; reflexivity |].
  split; [exact H1 | exact (proj1 (H3 eq_refl))].
Defined.

Lemma polygonTool_live :
  LiveReachable area1024 halfKm (parserOf emptyDoc) false
    {| project := clickPolygonTool initialApp; pending := [] |}.
Proof.
  exact (live_step area1024 halfKm (parserOf emptyDoc) false (does ClickPolygonTool)
           {| project := initialApp; pending := [] |}
           (live_initial _ _ _ _) I (fun H => I)).
Qed.

